(** * Asheville land analyzer: classification and opportunity scoring

    A shallow embedding of the geospatial classification and scoring engine
    ([src/analyzers/*.py], [src/data/geocoder.py]) and the properties
    established about it.

    Conventions of the embedding.
    - Python [float] values that are only added, multiplied, divided, compared
      and rounded (prices, areas, scores, weights) are exact rationals [Q];
      [round] is Python's round-half-to-even on the exact value. A binary64
      sum, quotient or rounding can differ from the exact one in the last
      place (182.7 / 203 is below 0.9 in binary64 and equal to it exactly;
      the binary64 mean of three prices of 100.1 is below 100.1), so the
      statements about these values are ranges, bounds and orderings, not
      values in the last place.
    - The inventory in months is computed on binary64 floats ([Float64]), as
      its status depends on the last place; the result is the rational the
      float denotes.
    - Latitudes, longitudes and distances go through [math.sin], [math.cos],
      [math.atan2] and [math.sqrt]; they are real numbers [R].
    - A nullable column is an [option]; Python truthiness ([if x:]) of a
      nullable number is "present and different from zero".
    - [str] values stay strings, as the code compares and looks them up.
    - Timestamps ([datetime]) are integers counting microseconds.
    - A call that can raise returns an [outcome]: [Return v] or [Raise e].
    - The tables are the classes of [database.py]; reading an attribute or
      passing a keyword that a class does not declare raises, as it does for
      a declarative class.
    - The values imported from [config] are fields of [Config]. *)

From Stdlib Require Import ZArith QArith Qround Qabs List String Bool Lia Lqa.
From Stdlib Require Import Reals Lra Machin.
From Stdlib Require Floats Uint63.
From stdpp Require Import gmap strings.
Import ListNotations.

Set Default Proof Using "Type".

(* ===================================================================== *)
(** * Part I: the program                                                  *)
(* ===================================================================== *)

(** ** Python arithmetic *)

Module Py.

Open Scope Q_scope.

(** [round(x)]: nearest integer, ties to the even neighbour. *)
Definition round (x : Q) : Z :=
  let f := Qfloor x in
  match Qcompare (x - inject_Z f) (1 # 2) with
  | Lt => f
  | Gt => (f + 1)%Z
  | Eq => if Z.even f then f else (f + 1)%Z
  end.

(** [round(x, n)] for a non-negative number of digits [n]. *)
Definition round_nd (x : Q) (n : nat) : Q :=
  inject_Z (round (x * inject_Z (10 ^ Z.of_nat n))) / inject_Z (10 ^ Z.of_nat n).

(** [x <= y] and [x < y] on floats. *)
Definition leb (x y : Q) : bool := Qle_bool x y.
Definition ltb (x y : Q) : bool := negb (Qle_bool y x).

(** A call either returns a value or raises. *)
Inductive exn := ZeroDivisionError | AttributeError | TypeError | InvalidRequestError.

Inductive outcome (A : Type) : Type :=
| Return (a : A)
| Raise (e : exn).
Arguments Return {A} a.
Arguments Raise {A} e.

Definition bind {A B} (c : outcome A) (k : A -> outcome B) : outcome B :=
  match c with
  | Return a => k a
  | Raise e => Raise e
  end.

(** [x / y] on floats: raises [ZeroDivisionError] when [y == 0]. *)
Definition div (x y : Q) : outcome Q :=
  if Qeq_bool y 0 then Raise ZeroDivisionError else Return (x / y).

(** Truthiness of a nullable float: [None] and [0.0] are false. *)
Definition truthy (x : option Q) : bool :=
  match x with
  | Some v => negb (Qeq_bool v 0)
  | None => false
  end.

(** Truthiness of a nullable int. *)
Definition truthyZ (x : option Z) : bool :=
  match x with
  | Some v => negb (v =? 0)%Z
  | None => false
  end.

(** [a or b] on nullable floats: [a] when truthy, else [b]. *)
Definition or_else (a b : option Q) : option Q :=
  if truthy a then a else b.

Definition sum (l : list Q) : Q := fold_right Qplus 0 l.

(** [numpy.mean] of a non-empty list. *)
Definition mean (l : list Q) : Q := sum l / inject_Z (Z.of_nat (length l)).

(** [min(l)] and [max(l)] of a non-empty list whose head is [x]. *)
Definition min_list (x : Q) (l : list Q) : Q :=
  fold_left (fun m y => if Qlt_le_dec y m then y else m) l x.

Definition max_list (x : Q) (l : list Q) : Q :=
  fold_left (fun m y => if Qlt_le_dec m y then y else m) l x.

Definition minZ_list (x : Z) (l : list Z) : Z := fold_left Z.min l x.
Definition maxZ_list (x : Z) (l : list Z) : Z := fold_left Z.max l x.

Fixpoint insert_sorted (x : Q) (l : list Q) : list Q :=
  match l with
  | [] => [x]
  | y :: t => if Qle_bool x y then x :: l else y :: insert_sorted x t
  end.

Definition sorted (l : list Q) : list Q := fold_right insert_sorted [] l.

(** [numpy.median]: the middle of the sorted values, or the mean of the two
    middle ones. *)
Definition median (l : list Q) : Q :=
  let s := sorted l in
  let n := length s in
  if Nat.even n
  then (nth (n / 2 - 1) s 0 + nth (n / 2) s 0) / 2
  else nth (n / 2) s 0.

(** [s in l] for a list of strings. *)
Definition str_in (s : string) (l : list string) : bool :=
  existsb (String.eqb s) l.

(** One day, in the unit of the timestamps. *)
Definition days (n : Z) : Z := (n * 86400000000)%Z.

End Py.

(** ** Binary64 floats *)

Module Float64.

(** [float(n)] for an integer below 2^63 in absolute value. *)
Definition of_Z (n : Z) : PrimFloat.float :=
  match n with
  | Z0 => PrimFloat.of_uint63 (Uint63.of_Z 0)
  | Zpos _ => PrimFloat.of_uint63 (Uint63.of_Z n)
  | Zneg p => PrimFloat.opp (PrimFloat.of_uint63 (Uint63.of_Z (Zpos p)))
  end.

(** The rational a finite float denotes (0 for an infinity or a NaN, which
    the quotients of counts below never are). *)
Definition to_Q (x : PrimFloat.float) : Q :=
  match FloatOps.Prim2SF x with
  | SpecFloat.S754_finite s m e =>
      let v :=
        match e with
        | Z0 => inject_Z (Zpos m)
        | Zpos k => inject_Z (Zpos m * 2 ^ Zpos k)
        | Zneg k => Qmake (Zpos m) (2 ^ k)%positive
        end in
      if s then Qopp v else v
  | _ => 0%Q
  end.

(** [round(x, ndigits)] on a float: the decimal with [ndigits] digits that
    is nearest to the exact value of [x], ties to the even digit, and then
    the float nearest to that decimal (the quotient of two integers that
    are floats is correctly rounded). *)
Definition round_nd (x : PrimFloat.float) (ndigits : nat) : PrimFloat.float :=
  PrimFloat.div
    (of_Z (Py.round (to_Q x * inject_Z (10 ^ Z.of_nat ndigits))))
    (of_Z (10 ^ Z.of_nat ndigits)).

End Float64.

(** ** The configuration ([config.py]) *)

Record Config := {
  (* COLOR_THRESHOLDS *)
  threshold_green : Q;
  threshold_light_green : Q;
  threshold_yellow : Q;
  (* LAND_FILTER *)
  max_price : Q;
  min_lot_size : Q;
  allowed_zone_colors : list string;
  market_heat_allowed : list string;
  min_nearby_price_sqft : Q;
  min_recent_sales : Z;
  (* URGENCY_SCORING *)
  weight_zone_color : Q;
  weight_market_heat : Q;
  weight_price_opportunity : Q;
  weight_recent_sales : Q;
  (* URGENCY_LEVELS *)
  level_urgent : Q;
  level_good : Q;
  (* CITY_CENTER, RADIUS_MILES *)
  city_center_lat : R;
  city_center_lon : R;
  radius_miles : R
}.

(** ** The tables ([src/data/database.py]) *)

Module Database.

(** A row of [properties]. *)
Record Property := {
  id : Z;
  street_name : option string;
  city : string;
  zip : option string;
  latitude : option R;
  longitude : option R;
  sale_price : option Q;
  list_price : option Q;
  sqft : option Q;
  price_per_sqft : option Q;
  lot_size : option Q;
  status : string;
  sale_date : option Z;
  days_on_market : option Z;
  archived : bool
}.

(** A row of [street_analysis], with the attributes the analyzers set. *)
Record StreetAnalysis := {
  sa_street_name : string;
  sa_city : string;
  median_price_sqft : Q;
  min_price_sqft : Q;
  max_price_sqft : Q;
  avg_dom : option Q;
  min_dom : option Z;
  max_dom : option Z;
  color : string;
  sample_size : nat;
  confidence_score : Q;
  sa_last_updated : Z
}.

(** A row of [market_heat_zones]: the columns are [status] and
    [dom_change]; there is no [market_status] and no [dom_change_90d]. *)
Record MarketHeatZone := {
  zip_code : string;
  active_listings : Z;
  sold_last_90d : Z;
  inventory_months : Q;
  price_change_90d : option Q;
  dom_change : option Q;
  mh_status : string;
  recommendation : option string;
  mh_last_updated : Z
}.

(** A row of [land_opportunities], the table of the parcels received by
    e-mail; there is no [property_id], no [recent_sales_count] and no
    [notes]. *)
Record LandOpportunity := {
  email_id : option string;
  received_at : Z;
  address : string;
  lo_latitude : option R;
  lo_longitude : option R;
  price : Q;
  lo_lot_size : option Q;
  zoning : option string;
  mls_number : option string;
  url : option string;
  has_well : option string;
  has_septic : option string;
  zone_color : option string;
  nearby_avg_price_sqft : option Q;
  nearby_sales_count : option Z;
  nearby_avg_dom : option Q;
  market_status : option string;
  filter_passed : bool;
  filter_reasons : option string;
  urgency_level : option string;
  urgency_score : option Z;
  telegram_sent : bool;
  telegram_sent_at : option Z;
  created_at : Z
}.

(** The repository: one list of rows per table, in storage order. *)
Record DB := {
  properties : list Property;
  street_analysis : list StreetAnalysis;
  market_heat_zones : list MarketHeatZone;
  land_opportunities : list LandOpportunity
}.

(** [query.first()]. *)
Definition first {A} (P : A -> bool) (rows : list A) : option A := List.find P rows.

(** Update in place the first row that satisfies [P]. *)
Fixpoint update_first {A} (P : A -> bool) (f : A -> A) (rows : list A) : list A :=
  match rows with
  | [] => []
  | r :: t => if P r then f r :: t else r :: update_first P f t
  end.

(** Equality of a nullable text column with a text value. *)
Definition col_is (a : option string) (b : string) : bool :=
  match a with
  | Some x => String.eqb x b
  | None => false
  end.

End Database.

(** ** [src/analyzers/market_heat.py] *)

Module MarketHeat.
Import Database.
Open Scope Q_scope.

Definition zip_is (zip_code : string) (p : Property) : bool :=
  col_is (zip p) zip_code.

Definition get_active_listings_count (db : DB) (zip_code : string) : Z :=
  Z.of_nat (length (List.filter
    (fun p => zip_is zip_code p && String.eqb (status p) "active" && negb (archived p))
    (properties db))).

Definition sold_since (since : Z) (p : Property) : bool :=
  String.eqb (status p) "sold" &&
  match sale_date p with Some d => (since <=? d)%Z | None => false end.

Definition get_sold_last_90d_count (now : Z) (db : DB) (zip_code : string) : Z :=
  Z.of_nat (length (List.filter
    (fun p => zip_is zip_code p && sold_since (now - Py.days 90) p)
    (properties db))).

(** The counts are integers below 2^63; the quotients and the rounding are
    those of binary64. *)
Definition calculate_inventory_months (active sold_90d : Z) : Q :=
  if (sold_90d =? 0)%Z then 999
  else
    let monthly_sales := PrimFloat.div (Float64.of_Z sold_90d) (Float64.of_Z 3) in
    if PrimFloat.eqb monthly_sales (Float64.of_Z 0) then 999
    else
      let inventory_months := PrimFloat.div (Float64.of_Z active) monthly_sales in
      Float64.to_Q (Float64.round_nd inventory_months 1).

Definition determine_market_status (inventory price_change dom_change : Q) : string :=
  if Py.ltb 12 inventory then "cold"
  else if Py.leb 6 inventory then "stable"
  else if Py.ltb 15 price_change then "overheated"
  else "growing".

Definition generate_recommendation (status : string) : string :=
  if String.eqb status "cold"
  then "Выгодное время для покупки земли. Низкая конкуренция, покупатели имеют преимущество."
  else if String.eqb status "stable"
  then "Хорошее время для инвестиций. Рынок сбалансирован."
  else if String.eqb status "growing"
  then "Отличное время для покупки. Рынок растет, но без перегрева."
  else if String.eqb status "overheated"
  then "ИЗБЕГАТЬ. Рынок перегрет. Высокий риск коррекции цен в ближайшие месяцы."
  else "Недостаточно данных для рекомендации.".

(** The percent change of the mean of a metric between the baseline window
    (90 to 60 days ago) and the recent window (last 30 days); shared shape
    of [calculate_price_change_90d] and [calculate_dom_change]. *)
Definition window_change (metric : Property -> option Q)
    (now : Z) (db : DB) (zip_code : string) : Q :=
  let in_zip_sold p := zip_is zip_code p && String.eqb (status p) "sold" in
  let has_metric p := match metric p with Some _ => true | None => false end in
  let value p := match metric p with Some v => v | None => 0 end in
  let period1 := List.filter (fun p =>
      in_zip_sold p &&
      match sale_date p with
      | Some d => (now - Py.days 90 <=? d)%Z && (d <? now - Py.days 60)%Z
      | None => false
      end && has_metric p) (properties db) in
  let period2 := List.filter (fun p =>
      in_zip_sold p &&
      match sale_date p with
      | Some d => (now - Py.days 30 <=? d)%Z
      | None => false
      end && has_metric p) (properties db) in
  if (length period1 <? 2)%nat || (length period2 <? 2)%nat then 0
  else
    let avg1 := Py.mean (map value period1) in
    let avg2 := Py.mean (map value period2) in
    if Qeq_bool avg1 0 then 0
    else Py.round_nd (((avg2 - avg1) / avg1) * 100) 2.

Definition calculate_price_change_90d := window_change price_per_sqft.

Definition calculate_dom_change :=
  window_change (fun p => option_map inject_Z (days_on_market p)).

(** [MarketHeatZone(zip_code=..., ..., dom_change_90d=..., market_status=...,
    ...)]: the constructor of a declarative class raises [TypeError] for a
    keyword that is not an attribute of the class, and [dom_change_90d] and
    [market_status] are not. *)
Definition new_market_heat_zone (zip_code : string) (active_listings sold_last_90d : Z)
    (inventory_months price_change_90d dom_change_90d : Q)
    (market_status recommendation : string) (last_updated : Z)
    : Py.outcome MarketHeatZone :=
  Py.Raise Py.TypeError.

(** The clock readings of one run: [datetime.now()] and [datetime.utcnow()].
    The result pairs the returned object with the repository after the
    call. Step 8 raises, so that step 9, the upsert, never runs; there the
    assignments to [dom_change_90d] and [market_status] of an existing row
    would set no column. *)
Definition analyze_market_heat_by_zip (now utcnow : Z) (db : DB) (zip_code : string)
    : Py.outcome (option MarketHeatZone * DB) :=
  (* 1, 2 *)
  let active_count := get_active_listings_count db zip_code in
  let sold_count := get_sold_last_90d_count now db zip_code in
  if (sold_count =? 0)%Z then Py.Return (None, db)
  else
    (* 3 to 7 *)
    let inventory_months := calculate_inventory_months active_count sold_count in
    let price_change := calculate_price_change_90d now db zip_code in
    let dom_change := calculate_dom_change now db zip_code in
    let market_status := determine_market_status inventory_months price_change dom_change in
    let recommendation := generate_recommendation market_status in
    (* 8 *)
    Py.bind (new_market_heat_zone zip_code active_count sold_count inventory_months
               price_change dom_change market_status recommendation utcnow)
    (fun heat_zone =>
    (* 9 *)
    let same_zip (r : MarketHeatZone) := String.eqb (Database.zip_code r) zip_code in
    match first same_zip (market_heat_zones db) with
    | Some existing =>
        let updated (existing : MarketHeatZone) := {|
          Database.zip_code := Database.zip_code existing;
          active_listings := active_count;
          sold_last_90d := sold_count;
          Database.inventory_months := inventory_months;
          price_change_90d := Some price_change;
          Database.dom_change := Database.dom_change existing;
          mh_status := mh_status existing;
          Database.recommendation := Some recommendation;
          mh_last_updated := utcnow |} in
        Py.Return
          (Some (updated existing),
           {| properties := properties db;
              street_analysis := street_analysis db;
              market_heat_zones := update_first same_zip updated (market_heat_zones db);
              land_opportunities := land_opportunities db |})
    | None =>
        Py.Return
          (Some heat_zone,
           {| properties := properties db;
              street_analysis := street_analysis db;
              market_heat_zones := market_heat_zones db ++ [heat_zone];
              land_opportunities := land_opportunities db |})
    end).

End MarketHeat.

(** ** Great-circle distance ([haversine_distance] of [src/data/geocoder.py]) *)

Module Geo.
Open Scope R_scope.

(** [math.radians]. *)
Definition radians (x : R) : R := x * (PI / 180).

(** [math.atan2]. *)
Definition atan2 (y x : R) : R :=
  if Rlt_dec 0 x then atan (y / x)
  else if Rlt_dec x 0 then
    if Rle_dec 0 y then atan (y / x) + PI else atan (y / x) - PI
  else if Rlt_dec 0 y then PI / 2
  else if Rlt_dec y 0 then - (PI / 2)
  else 0.

Definition haversine_distance (lat1 lon1 lat2 lon2 : R) : R :=
  let R := 3959 in
  let lat1_rad := radians lat1 in
  let lat2_rad := radians lat2 in
  let dlat := radians (lat2 - lat1) in
  let dlon := radians (lon2 - lon1) in
  let a := sin (dlat / 2) ^ 2 + cos lat1_rad * cos lat2_rad * sin (dlon / 2) ^ 2 in
  let c := 2 * atan2 (sqrt a) (sqrt (1 - a)) in
  R * c.

(** [x <= y] on floats that are real numbers. *)
Definition leb (x y : R) : bool := if Rle_dec x y then true else false.

(** Truthiness of a nullable coordinate. *)
Definition truthy (x : option R) : bool :=
  match x with
  | Some v => if Req_dec_T v 0 then false else true
  | None => false
  end.

End Geo.

(** ** [src/analyzers/street_analyzer.py] *)

Module StreetAnalyzer.
Import Database.
Open Scope Q_scope.

Section WithConfig.
Variable cfg : Config.

Definition determine_color (avg_price_sqft : Q) : string :=
  if Py.leb (threshold_green cfg) avg_price_sqft then "green"
  else if Py.leb (threshold_light_green cfg) avg_price_sqft then "light_green"
  else if Py.leb (threshold_yellow cfg) avg_price_sqft then "yellow"
  else "red".

End WithConfig.

Definition calculate_confidence (sample_size : nat) : Q :=
  let ratio := inject_Z (Z.of_nat sample_size) / 10 in
  Py.round_nd (if Py.ltb 1 ratio then 1 else ratio) 2.

Definition get_properties_by_street (now : Z) (db : DB) (street_name city : string)
    : list Property :=
  let on_street p :=
    col_is (Database.street_name p) street_name && String.eqb (Database.city p) city in
  let sold := List.filter (fun p =>
      on_street p && String.eqb (status p) "sold" &&
      match sale_date p with
      | Some d => (now - Py.days 365 <=? d)%Z
      | None => false
      end && negb (archived p)) (properties db) in
  if (3 <=? length sold)%nat then sold
  else List.filter (fun p =>
      on_street p && String.eqb (status p) "active" && negb (archived p))
    (properties db).

(** The dictionary [calculate_street_metrics] returns when it is not empty. *)
Record Metrics := {
  m_median_price_sqft : Q;
  m_min_price_sqft : Q;
  m_max_price_sqft : Q;
  m_sample_size : nat;
  m_avg_dom : option Q;
  m_min_dom : option Z;
  m_max_dom : option Z
}.

(** [[p.price_per_sqft for p in properties if p.price_per_sqft]]. *)
Definition truthy_prices (properties : list Property) : list Q :=
  flat_map (fun p =>
    match price_per_sqft p with
    | Some v => if Py.truthy (Some v) then [v] else []
    | None => []
    end) properties.

(** [[p.days_on_market for p in properties if p.days_on_market]]. *)
Definition truthy_doms (properties : list Property) : list Z :=
  flat_map (fun p =>
    match days_on_market p with
    | Some v => if Py.truthyZ (Some v) then [v] else []
    | None => []
    end) properties.

(** [None] is the empty dictionary. *)
Definition calculate_street_metrics (properties : list Property) : option Metrics :=
  match truthy_prices properties with
  | [] => None
  | x :: rest =>
      let prices := x :: rest in
      let doms := truthy_doms properties in
      Some {|
        m_median_price_sqft := Py.median prices;
        m_min_price_sqft := Py.min_list x rest;
        m_max_price_sqft := Py.max_list x rest;
        m_sample_size := length properties;
        m_avg_dom :=
          match doms with
          | [] => None
          | _ :: _ => Some (Py.mean (map inject_Z doms))
          end;
        m_min_dom :=
          match doms with
          | [] => None
          | d :: ds => Some (Py.minZ_list d ds)
          end;
        m_max_dom :=
          match doms with
          | [] => None
          | d :: ds => Some (Py.maxZ_list d ds)
          end |}
  end.

Definition save_street_analysis (utcnow : Z) (db : DB) (analysis : StreetAnalysis) : DB :=
  let same_key (r : StreetAnalysis) :=
    String.eqb (sa_street_name r) (sa_street_name analysis) &&
    String.eqb (sa_city r) (sa_city analysis) in
  {| properties := properties db;
     street_analysis :=
       match first same_key (street_analysis db) with
       | Some _ =>
           update_first same_key (fun existing => {|
             sa_street_name := sa_street_name existing;
             sa_city := sa_city existing;
             median_price_sqft := median_price_sqft analysis;
             min_price_sqft := min_price_sqft analysis;
             max_price_sqft := max_price_sqft analysis;
             avg_dom := avg_dom analysis;
             min_dom := min_dom analysis;
             max_dom := max_dom analysis;
             color := color analysis;
             sample_size := sample_size analysis;
             confidence_score := confidence_score analysis;
             sa_last_updated := utcnow |}) (street_analysis db)
       | None => street_analysis db ++ [analysis]
       end;
     market_heat_zones := market_heat_zones db;
     land_opportunities := land_opportunities db |}.

Definition analyze_single_street (cfg : Config) (now utcnow : Z) (db : DB)
    (street_name city : string) : option StreetAnalysis :=
  match get_properties_by_street now db street_name city with
  | [] => None
  | properties =>
      match calculate_street_metrics properties with
      | None => None
      | Some metrics =>
          Some {|
            sa_street_name := street_name;
            sa_city := city;
            median_price_sqft := m_median_price_sqft metrics;
            min_price_sqft := m_min_price_sqft metrics;
            max_price_sqft := m_max_price_sqft metrics;
            avg_dom := m_avg_dom metrics;
            min_dom := m_min_dom metrics;
            max_dom := m_max_dom metrics;
            color := determine_color cfg (m_median_price_sqft metrics);
            sample_size := m_sample_size metrics;
            confidence_score := calculate_confidence (m_sample_size metrics);
            sa_last_updated := utcnow |}
      end
  end.

End StreetAnalyzer.

(** ** [src/analyzers/land_scorer.py] *)

Module LandScorer.
Import Database.
Open Scope Q_scope.

Notation "'let!' x ':=' c 'in' k" := (Py.bind c (fun x => k))
  (at level 10, x name, c at level 100, k at level 200).

Definition get_nearby_properties (now : Z) (db : DB) (lat lon radius_miles : R)
    : list Property :=
  let one_year_ago := (now - Py.days 365)%Z in
  flat_map (fun prop =>
    match latitude prop, longitude prop with
    | Some plat, Some plon =>
        if archived prop then []
        else if Geo.leb (Geo.haversine_distance lat lon plat plon) radius_miles then
          if String.eqb (status prop) "sold" &&
             match sale_date prop with
             | Some d => (one_year_ago <=? d)%Z
             | None => false
             end
          then [prop]
          else if String.eqb (status prop) "active" then [prop]
          else []
        else []
    | _, _ => []
    end) (properties db).

(** The mean is the exact one. *)
Definition calculate_avg_nearby_price_sqft (properties : list Property) : Q :=
  match StreetAnalyzer.truthy_prices properties with
  | [] => 0
  | prices => Py.mean prices
  end.

Definition count_recent_sales (now : Z) (properties : list Property) : Z :=
  let ninety_days_ago := (now - Py.days 90)%Z in
  Z.of_nat (length (List.filter (fun p =>
    String.eqb (status p) "sold" &&
    match sale_date p with
    | Some d => (ninety_days_ago <=? d)%Z
    | None => false
    end) properties)).

(** [color_scores.get(color, 0)]. *)
Definition score_zone_color (color : string) : Z :=
  if String.eqb color "green" then 100
  else if String.eqb color "light_green" then 75
  else if String.eqb color "yellow" then 50
  else if String.eqb color "red" then 0
  else 0.

(** [heat_scores.get(status, 0)]. *)
Definition score_market_heat (status : string) : Z :=
  if String.eqb status "growing" then 100
  else if String.eqb status "stable" then 80
  else if String.eqb status "cold" then 50
  else if String.eqb status "overheated" then 0
  else 0.

(** The ratio is the exact quotient; the guard is the code's. *)
Definition score_price_opportunity (land_price_sqft avg_nearby_price_sqft : Q)
    : Py.outcome Z :=
  if Qeq_bool avg_nearby_price_sqft 0 then Py.Return 0%Z
  else
    let! price_ratio := Py.div land_price_sqft avg_nearby_price_sqft in
    if Py.ltb price_ratio (1 # 2) then Py.Return 100%Z
    else if Py.ltb price_ratio (7 # 10) then Py.Return 75%Z
    else if Py.ltb price_ratio (9 # 10) then Py.Return 50%Z
    else Py.Return 0%Z.

(** [session.query(StreetAnalysis).filter_by(street_name=..., city=...).first()]. *)
Definition find_street_analysis (db : DB) (property_obj : Property) : option StreetAnalysis :=
  first (fun r => col_is (street_name property_obj) (sa_street_name r) &&
                  String.eqb (sa_city r) (city property_obj))
        (street_analysis db).

(** [session.query(MarketHeatZone).filter_by(zip_code=...).first()]. *)
Definition find_market_heat (db : DB) (property_obj : Property) : option MarketHeatZone :=
  first (fun r => col_is (zip property_obj) (zip_code r)) (market_heat_zones db).

Section WithConfig.
Variable cfg : Config.

Definition calculate_land_score (zone_color market_status : string)
    (nearby_avg_price_sqft land_price_sqft : Q) (recent_sales_count : Z)
    : Py.outcome Z :=
  let color_score := score_zone_color zone_color in
  let heat_score := score_market_heat market_status in
  let! price_score := score_price_opportunity land_price_sqft nearby_avg_price_sqft in
  let activity_score :=
    if (5 <=? recent_sales_count)%Z then 100%Z
    else if (3 <=? recent_sales_count)%Z then 75%Z
    else if (1 <=? recent_sales_count)%Z then 50%Z
    else 0%Z in
  let total_score :=
    inject_Z color_score * weight_zone_color cfg +
    inject_Z heat_score * weight_market_heat cfg +
    inject_Z price_score * weight_price_opportunity cfg +
    inject_Z activity_score * weight_recent_sales cfg in
  Py.Return (Py.round total_score).

(** The price-per-area of the parcel, as steps 6 and 7 compute it from the
    price that passed the filter. *)
Definition land_price_per_sqft (property_obj : Property) (price lot_size : Q)
    : Py.outcome Q :=
  match sqft property_obj with
  | Some s =>
      if Qeq_bool s 0 then
        let land_sqft := lot_size * 43560 in
        if Py.ltb 0 land_sqft then Py.div price land_sqft else Py.Return 0
      else if Py.truthy (price_per_sqft property_obj) then
        Py.Return (match price_per_sqft property_obj with Some v => v | None => 0 end)
      else Py.div price s
  | None =>
      let land_sqft := lot_size * 43560 in
      if Py.ltb 0 land_sqft then Py.div price land_sqft else Py.Return 0
  end.

(** [market_heat.market_status]: [MarketHeatZone] has the column [status]
    and no attribute [market_status], so the read raises. *)
Definition get_market_status (market_heat : MarketHeatZone) : Py.outcome string :=
  Py.Raise Py.AttributeError.

(** [LandOpportunity(property_id=..., ..., recent_sales_count=..., notes=...,
    ...)]: [TypeError], as these keywords are no attributes of the class. *)
Definition new_land_opportunity (property_id urgency_score : Z)
    (urgency_level zone_color market_status : string) (nearby_avg_price_sqft : Q)
    (recent_sales_count : Z) (notes : string) (created_at : Z)
    : Py.outcome LandOpportunity :=
  Py.Raise Py.TypeError.

(** The price filter of step 4 (lines 265 to 271): the price that passes,
    or [None] where the code returns [None]. *)
Definition price_filter (property_obj : Property) : option Q :=
  match Py.or_else (list_price property_obj) (sale_price property_obj) with
  | None => None
  | Some price =>
      if Qeq_bool price 0 || Py.ltb (max_price cfg) price then None else Some price
  end.

(** [now] and [utcnow] are the readings of the clock during the call. The
    result pairs the returned object ([None] when a filter rejects) with the
    repository after the call. The read of [market_status] in step 3
    raises, so that no call runs steps 4 to 11. *)
Definition evaluate_land_opportunity (now utcnow : Z) (db : DB) (property_obj : Property)
    : Py.outcome (option LandOpportunity * DB) :=
  let rejected := Py.Return (None, db) in
  (* 1 *)
  if negb (Geo.truthy (latitude property_obj)) || negb (Geo.truthy (longitude property_obj))
  then rejected else
  match latitude property_obj, longitude property_obj with
  | Some lat, Some lon =>
  (* 2 *)
  match find_street_analysis db property_obj with
  | None => rejected
  | Some street_analysis =>
  let zone_color := color street_analysis in
  (* 3 *)
  match find_market_heat db property_obj with
  | None => rejected
  | Some market_heat =>
  let! market_status := get_market_status market_heat in
  (* 4 *)
  match price_filter property_obj with
  | None => rejected
  | Some price =>
  match lot_size property_obj with
  | None => rejected
  | Some lot =>
  if Qeq_bool lot 0 || Py.ltb lot (min_lot_size cfg) then rejected else
  if negb (Py.str_in zone_color (allowed_zone_colors cfg)) then rejected else
  if negb (Py.str_in market_status (market_heat_allowed cfg)) then rejected else
  (* 5 *)
  let nearby_properties := get_nearby_properties now db lat lon 5%R in
  if (length nearby_properties =? 0)%nat then rejected else
  (* 6 *)
  let avg_nearby_price_sqft := calculate_avg_nearby_price_sqft nearby_properties in
  if Py.ltb avg_nearby_price_sqft (min_nearby_price_sqft cfg) then rejected else
  let recent_sales_count := count_recent_sales now nearby_properties in
  if (recent_sales_count <? min_recent_sales cfg)%Z then rejected else
  let! land_price_sqft := land_price_per_sqft property_obj price lot in
  (* 7 *)
  let! urgency_score := calculate_land_score zone_color market_status
                     avg_nearby_price_sqft land_price_sqft recent_sales_count in
  (* 8 *)
  let urgency_level :=
    if Py.leb (level_urgent cfg) (inject_Z urgency_score) then "urgent"
    else if Py.leb (level_good cfg) (inject_Z urgency_score) then "good"
    else "normal" in
  (* 9 *)
  let! land_opp := new_land_opportunity (id property_obj) urgency_score urgency_level
                     zone_color market_status avg_nearby_price_sqft recent_sales_count
                     ("Участок в " ++ zone_color ++ " зоне, рынок " ++ market_status)
                     utcnow in
  (* 10: [filter_by(property_id=...)] on a class without that attribute *)
  Py.Raise Py.InvalidRequestError
  end end end end
  | _, _ => rejected
  end.

End WithConfig.

End LandScorer.

(** ** [src/data/geocoder.py] *)

Module Geocoder.
Open Scope R_scope.

Definition coords : Type := R * R.

(** What [geolocator.geocode] does with a query: a location, no match
    ([None]), or one of the two exceptions the code catches. *)
Inductive reply :=
| Found (latitude longitude : R)
| NoMatch
| GeocoderTimedOut
| GeocoderServiceError.

(** The state the module works on: the global [_cache] ([None] until first
    use), the content of [CACHE_FILE] ([None] when it is missing or
    unreadable), the queries sent to the geocoder (latest first), the number
    of random numbers drawn, the number of attempts to write the file, and
    the seconds slept. *)
Record World := {
  mem_cache : option (gmap string coords);
  cache_file : option (gmap string coords);
  calls : list string;
  draws : nat;
  writes : nat;
  slept : Z
}.

Definition M (A : Type) : Type := World -> A * World.

Definition ret {A} (a : A) : M A := fun w => (a, w).

Definition bind {A B} (c : M A) (k : A -> M B) : M B :=
  fun w => let '(a, w') := c w in k a w'.

Notation "'do' x '<-' c ';' k" := (bind c (fun x => k))
  (at level 10, x name, c at level 100, k at level 200).
Notation "c ';;' k" := (bind c (fun _ => k))
  (at level 100, k at level 200, right associativity).

Definition time_sleep (seconds : Z) : M unit := fun w =>
  (tt, {| mem_cache := mem_cache w; cache_file := cache_file w; calls := calls w;
          draws := draws w; writes := writes w; slept := (slept w + seconds)%Z |}).

Section WithEnvironment.
Variable cfg : Config.
(** The geocoder's reply to the n-th outbound call, by its query. *)
Variable geocode : nat -> string -> reply.
(** The n-th value of [random.random()]. *)
Variable random : nat -> R.
(** Whether the n-th attempt to write the cache file succeeds. *)
Variable write_ok : nat -> bool.
(** [address.strip().title()]. *)
Variable strip_title : string -> string.
(** [extract_street_name] of [price_calculator.py]. *)
Variable extract_street_name : string -> string.
(** [re.search(r'\b\d{5}\b', address)], with [group(0)]. *)
Variable search_zip : string -> option string.

Definition geolocator_geocode (query : string) : M reply := fun w =>
  (geocode (length (calls w)) query,
   {| mem_cache := mem_cache w; cache_file := cache_file w; calls := query :: calls w;
      draws := draws w; writes := writes w; slept := slept w |}).

(** [random.uniform(a, b)]. *)
Definition random_uniform (a b : R) : M R := fun w =>
  (a + (b - a) * random (draws w),
   {| mem_cache := mem_cache w; cache_file := cache_file w; calls := calls w;
      draws := S (draws w); writes := writes w; slept := slept w |}).

Definition load_geocode_cache : M (gmap string coords) := fun w =>
  match mem_cache w with
  | Some cache => (cache, w)
  | None =>
      let cache := match cache_file w with Some data => data | None => ∅ end in
      (cache,
       {| mem_cache := Some cache; cache_file := cache_file w; calls := calls w;
          draws := draws w; writes := writes w; slept := slept w |})
  end.

(** [cache[address] = coords]: [cache] is the dictionary [_cache] names, so
    the assignment is seen by every later [load_geocode_cache]. *)
Definition cache_set (address : string) (c : coords) : M unit := fun w =>
  (tt,
   {| mem_cache :=
        Some (<[address := c]> (match mem_cache w with Some m => m | None => ∅ end));
      cache_file := cache_file w; calls := calls w;
      draws := draws w; writes := writes w; slept := slept w |}).

(** [save_geocode_cache(cache)] for the dictionary [_cache] names: the file
    takes its content unless the write fails, which is ignored. *)
Definition save_geocode_cache : M unit := fun w =>
  (tt,
   {| mem_cache := mem_cache w;
      cache_file := if write_ok (writes w) then mem_cache w else cache_file w;
      calls := calls w; draws := draws w; writes := S (writes w); slept := slept w |}).

Definition validate_coordinates (lat lon : R) : bool :=
  Geo.leb (Geo.haversine_distance (city_center_lat cfg) (city_center_lon cfg) lat lon)
          (radius_miles cfg).

(** Attempt 3 of [fallback_geocode]: the city centre with a random offset. *)
Definition fallback_center : M (option coords) :=
  do dlat <- random_uniform (- (5 / 100)) (5 / 100);
  do dlon <- random_uniform (- (5 / 100)) (5 / 100);
  ret (Some (city_center_lat cfg + dlat, city_center_lon cfg + dlon)).

(** Attempt 2 of [fallback_geocode]: the ZIP code alone, when there is one. *)
Definition fallback_zip (address : string) : M (option coords) :=
  match search_zip address with
  | Some zip_code =>
      do location <- geolocator_geocode (zip_code ++ ", NC");
      match location with
      | Found latitude longitude =>
          do dlat <- random_uniform (- (1 / 100)) (1 / 100);
          do dlon <- random_uniform (- (1 / 100)) (1 / 100);
          let lat := latitude + dlat in
          let lon := longitude + dlon in
          if validate_coordinates lat lon
          then time_sleep 1 ;; ret (Some (lat, lon))
          else time_sleep 1 ;; fallback_center
      | NoMatch => time_sleep 1 ;; fallback_center
      | GeocoderTimedOut | GeocoderServiceError => time_sleep 2 ;; fallback_center
      end
  | None => fallback_center
  end.

Definition fallback_geocode (address : string) : M (option coords) :=
  let street_only := extract_street_name address in
  let full_address := (street_only ++ ", Asheville, NC")%string in
  do location <- geolocator_geocode full_address;
  match location with
  | Found latitude longitude =>
      if validate_coordinates latitude longitude
      then time_sleep 1 ;; ret (Some (latitude, longitude))
      else time_sleep 1 ;; fallback_zip address
  | NoMatch => time_sleep 1 ;; fallback_zip address
  | GeocoderTimedOut | GeocoderServiceError => time_sleep 2 ;; fallback_zip address
  end.

(** The loop [for attempt in range(3)] of [geocode_address], from [attempt]
    on with [remaining] rounds to go: [Some coords] when the loop returns,
    [None] when it is left for the fallback. *)
Fixpoint primary_geocode (address : string) (remaining attempt : nat)
    : M (option coords) :=
  match remaining with
  | O => ret None
  | S remaining' =>
      let full_address := (address ++ ", Asheville, NC")%string in
      do location <- geolocator_geocode full_address;
      match location with
      | Found latitude longitude =>
          if validate_coordinates latitude longitude
          then cache_set address (latitude, longitude) ;;
               save_geocode_cache ;;
               time_sleep 1 ;;
               ret (Some (latitude, longitude))
          else time_sleep 1 ;; ret None
      | NoMatch => time_sleep 1 ;; ret None
      | GeocoderTimedOut =>
          if (attempt <? 2)%nat
          then time_sleep 2 ;; primary_geocode address remaining' (S attempt)
          else ret None
      | GeocoderServiceError => time_sleep 2 ;; ret None
      end
  end.

Definition geocode_address (address : string) : M (option coords) :=
  let address := strip_title address in
  do cache <- load_geocode_cache;
  match cache !! address with
  | Some c => ret (Some c)
  | None =>
      do found <- primary_geocode address 3 0;
      match found with
      | Some c => ret (Some c)
      | None =>
          do coords <- fallback_geocode address;
          match coords with
          | Some c => cache_set address c ;; save_geocode_cache ;; ret coords
          | None => ret coords
          end
      end
  end.

End WithEnvironment.

End Geocoder.

(** ** [src/analyzers/zone_analyzer.py] *)

Module ZoneAnalyzer.
Import Database.

Definition calculate_distance (lat1 lon1 lat2 lon2 : R) : R :=
  (let R := 3959 in
   let lat1_rad := Geo.radians lat1 in
   let lon1_rad := Geo.radians lon1 in
   let lat2_rad := Geo.radians lat2 in
   let lon2_rad := Geo.radians lon2 in
   let dlat := lat2_rad - lat1_rad in
   let dlon := lon2_rad - lon1_rad in
   let a := sin (dlat / 2) ^ 2 + cos lat1_rad * cos lat2_rad * sin (dlon / 2) ^ 2 in
   let c := 2 * Geo.atan2 (sqrt a) (sqrt (1 - a)) in
   R * c)%R.

Open Scope Q_scope.

Definition get_zone_color (price_per_sqft : Q) : string :=
  if Py.leb 350 price_per_sqft then "green"
  else if Py.leb 300 price_per_sqft then "light_green"
  else if Py.leb 220 price_per_sqft then "yellow"
  else "red".

(** [Property.latitude.between(lat - lat_delta, lat + lat_delta)] and the
    same for the longitude: both ends included, a missing coordinate never
    inside. *)
Definition in_bounding_box (lat lng radius_miles : R) (prop : Property) : bool :=
  let lat_delta := (radius_miles / 69)%R in
  let lng_delta := (radius_miles / 55)%R in
  match latitude prop, longitude prop with
  | Some plat, Some plng =>
      Geo.leb (lat - lat_delta) plat && Geo.leb plat (lat + lat_delta) &&
      Geo.leb (lng - lng_delta) plng && Geo.leb plng (lng + lng_delta)
  | _, _ => false
  end.

(** The other two conditions of the query: a price-per-area and not
    archived. *)
Definition priced_and_current (prop : Property) : bool :=
  match price_per_sqft prop with Some _ => true | None => false end &&
  negb (archived prop).

(** The rows the query returns, in storage order. *)
Definition bounding_box_query (db : DB) (lat lng radius_miles : R) : list Property :=
  List.filter (fun prop => in_bounding_box lat lng radius_miles prop && priced_and_current prop)
         (properties db).

(** The loop over those rows: the ones within the radius. *)
Definition nearby_properties (db : DB) (lat lng radius_miles : R) : list Property :=
  List.filter (fun prop =>
    match latitude prop, longitude prop with
    | Some plat, Some plng => Geo.leb (calculate_distance lat lng plat plng) radius_miles
    | _, _ => false
    end) (bounding_box_query db lat lng radius_miles).

(** [int(x)]: truncation towards zero. *)
Definition int (x : Q) : Z := Z.quot (Qnum x) (Zpos (Qden x)).

(** The statistics of a sufficient sample. *)
Record Statistics := {
  green_percent : Q;
  light_green_percent : Q;
  yellow_percent : Q;
  red_percent : Q;
  green_zones_total : nat;
  green_zones_percent : Q
}.

(** The score before [int] is the exact sum. *)
Definition calculate_investment_score (stats : Statistics) : Z :=
  let score := 40
    + (green_percent stats / 25) * 35
    + (light_green_percent stats / 25) * 25
    + (yellow_percent stats / 25) * 10
    - (red_percent stats / 25) * 25 in
  let score :=
    if Py.leb 75 (green_zones_percent stats) then score + 25
    else if Py.leb 60 (green_zones_percent stats) then score + 15
    else if Py.leb 50 (green_zones_percent stats) then score + 10
    else if Py.leb 40 (green_zones_percent stats) then score + 5
    else score in
  Z.max 0 (Z.min 100 (int score)).

(** The part of the result dictionary that is computed from the rows: the
    rows per colour, their number, and the statistics and the score when
    there are at least [min_properties] of them. *)
Record Analysis := {
  green_zone : list Property;
  light_green_zone : list Property;
  yellow_zone : list Property;
  red_zone : list Property;
  properties_analyzed : nat;
  statistics : option Statistics;
  score : Z
}.

Definition zone_of (color : string) (props : list Property) : list Property :=
  List.filter (fun prop =>
    match price_per_sqft prop with
    | Some v => String.eqb (get_zone_color v) color
    | None => false
    end) props.

(** [min_properties] is any integer; the percentages are exact quotients. *)
Definition analyze_nearby_zones (db : DB) (lat lng radius_miles : R) (min_properties : Z)
    : Py.outcome Analysis :=
  let nearby := nearby_properties db lat lng radius_miles in
  let total := length nearby in
  let green_count := length (zone_of "green" nearby) in
  let light_green_count := length (zone_of "light_green" nearby) in
  let yellow_count := length (zone_of "yellow" nearby) in
  let red_count := length (zone_of "red" nearby) in
  let percent (n : nat) := (inject_Z (Z.of_nat n) / inject_Z (Z.of_nat total)) * 100 in
  let analysis (stats : option Statistics) := {|
    green_zone := zone_of "green" nearby;
    light_green_zone := zone_of "light_green" nearby;
    yellow_zone := zone_of "yellow" nearby;
    red_zone := zone_of "red" nearby;
    properties_analyzed := total;
    statistics := stats;
    score := match stats with Some s => calculate_investment_score s | None => 0 end |} in
  if (min_properties <=? Z.of_nat total)%Z then
    (* [green_count / total] *)
    if (total =? 0)%nat then Py.Raise Py.ZeroDivisionError
    else Py.Return (analysis (Some {|
      green_percent := percent green_count;
      light_green_percent := percent light_green_count;
      yellow_percent := percent yellow_count;
      red_percent := percent red_count;
      green_zones_total := (green_count + light_green_count)%nat;
      green_zones_percent := percent (green_count + light_green_count)%nat |}))
  else Py.Return (analysis None).

End ZoneAnalyzer.

(** ** [find_best_zones] of [src/analyzers/zone_analyzer.py] *)

Module BestZones.
Import Database ZoneAnalyzer.

(** An entry of the result, without its two texts ([center_address] and
    [recommendation]). *)
Record BestZone := {
  bz_city : string;
  bz_lat : R;
  bz_lng : R;
  bz_score : Z;
  bz_green_zones_percent : Q;
  bz_properties_analyzed : nat
}.

(** The query of the sample points: both coordinates, not archived, and in
    [city] when one is given ([None] and the empty string give no filter);
    [limit(sample_size)]. *)
Definition sample_properties (db : DB) (city : option string) (sample_size : nat)
    : list Property :=
  firstn sample_size (List.filter (fun prop =>
    match latitude prop, longitude prop with
    | Some _, Some _ => true
    | _, _ => false
    end && negb (archived prop) &&
    match city with
    | Some c => if String.eqb c EmptyString then true else String.eqb (Database.city prop) c
    | None => true
    end) (properties db)).

(** [list.sort(key=score, reverse=True)]: descending and stable. *)
Fixpoint insert_by_score (x : BestZone) (l : list BestZone) : list BestZone :=
  match l with
  | [] => [x]
  | y :: t => if (bz_score y <=? bz_score x)%Z then x :: l else y :: insert_by_score x t
  end.

Definition sort_by_score (l : list BestZone) : list BestZone :=
  fold_right insert_by_score [] l.

(** The loop: one analysis per sample point, with the default minimum of 5
    rows and a radius of 1 mile; an analysis that raises ends the call. *)
Fixpoint scan (db : DB) (min_score : Z) (sample : list Property)
    : Py.outcome (list BestZone) :=
  match sample with
  | [] => Py.Return []
  | prop :: rest =>
      match latitude prop, longitude prop with
      | Some lat, Some lng =>
          Py.bind (analyze_nearby_zones db lat lng 1%R 5%Z) (fun analysis =>
          Py.bind (scan db min_score rest) (fun best_zones =>
          Py.Return (
            if (min_score <=? score analysis)%Z then
              {| bz_city := Database.city prop;
                 bz_lat := lat;
                 bz_lng := lng;
                 bz_score := score analysis;
                 bz_green_zones_percent :=
                   match statistics analysis with
                   | Some s => green_zones_percent s
                   | None => 0%Q
                   end;
                 bz_properties_analyzed := properties_analyzed analysis |} :: best_zones
            else best_zones)))
      | _, _ => scan db min_score rest
      end
  end.

Definition find_best_zones (db : DB) (city : option string) (min_score : Z)
    (sample_size : nat) : Py.outcome (list BestZone) :=
  Py.bind (scan db min_score (sample_properties db city sample_size)) (fun best_zones =>
  Py.Return (sort_by_score best_zones)).

End BestZones.

(** ** [batch_geocode] of [src/data/geocoder.py] *)

Module GeocoderBatch.
Import Geocoder.

(** The dictionary the local variable [cache] names: the one [_cache] names,
    so that it shows the entries the resolutions of the loop add. *)
Definition read_cache : M (gmap string coords) := fun w =>
  (match mem_cache w with Some m => m | None => ∅ end, w).

Section WithEnvironment.
Variable cfg : Config.
Variable geocode : nat -> string -> reply.
Variable random : nat -> R.
Variable write_ok : nat -> bool.
Variable strip_title : string -> string.
Variable extract_street_name : string -> string.
Variable search_zip : string -> option string.

Fixpoint batch_loop (addresses : list string) : M (list (option coords)) :=
  match addresses with
  | [] => ret []
  | address :: rest =>
      let address := strip_title address in
      do cache <- read_cache;
      match cache !! address with
      | Some c =>
          do results <- batch_loop rest;
          ret (Some c :: results)
      | None =>
          do coords <- geocode_address cfg geocode random write_ok strip_title
                         extract_street_name search_zip address;
          time_sleep 1 ;;
          do results <- batch_loop rest;
          ret (coords :: results)
      end
  end.

Definition batch_geocode (addresses : list string) : M (list (option coords)) :=
  load_geocode_cache ;; batch_loop addresses.

End WithEnvironment.

End GeocoderBatch.

(** ** [src/analyzers/price_calculator.py] *)

Module PriceCalculator.
Open Scope Q_scope.

Definition calculate_price_per_sqft (price sqft : Q) : option Q :=
  if Py.leb sqft 0 || Py.leb price 0 then None
  else
    let result := price / sqft in
    Some (Py.round_nd result 2).

(** [timedelta.days] of the difference of two time stamps: whole days,
    rounded down. *)
Definition delta_days (later earlier : Z) : Z := ((later - earlier) / Py.days 1)%Z.

(** A [datetime] is always true, so [if sale_date] tests for [None]. *)
Definition calculate_days_on_market (now list_date : Z) (sale_date : option Z) : Z :=
  match sale_date with
  | Some sold => Z.max (delta_days sold list_date) 0
  | None => Z.max (delta_days now list_date) 0
  end.

End PriceCalculator.

(** ** [archive_old_properties] of [src/data/mls_importer.py] *)

Module MlsImporter.
Import Database.

Definition set_archived (p : Property) : Property := {|
  id := id p; street_name := street_name p; city := city p; zip := zip p;
  latitude := latitude p; longitude := longitude p;
  sale_price := sale_price p; list_price := list_price p; sqft := sqft p;
  price_per_sqft := price_per_sqft p; lot_size := lot_size p; status := status p;
  sale_date := sale_date p; days_on_market := days_on_market p;
  archived := true |}.

(** The rows of the query: sold before the cut-off and not archived. *)
Definition to_archive (cutoff_date : Z) (p : Property) : bool :=
  String.eqb (status p) "sold" &&
  match sale_date p with
  | Some d => (d <? cutoff_date)%Z
  | None => false
  end &&
  negb (archived p).

(** [archive_sold_after_days] is [ARCHIVE_SOLD_AFTER_DAYS] of [config.py]. *)
Definition archive_old_properties (archive_sold_after_days now : Z) (db : DB) : Z * DB :=
  let cutoff_date := (now - Py.days archive_sold_after_days)%Z in
  (Z.of_nat (length (List.filter (to_archive cutoff_date) (properties db))),
   {| properties :=
        map (fun p => if to_archive cutoff_date p then set_archived p else p)
            (properties db);
      street_analysis := street_analysis db;
      market_heat_zones := market_heat_zones db;
      land_opportunities := land_opportunities db |}).

End MlsImporter.

(* ===================================================================== *)
(** * Part II: properties                                                  *)
(* ===================================================================== *)

(** ** Comparisons *)

Section Comparisons.
Open Scope Q_scope.

Lemma leb_true (x y : Q) : Py.leb x y = true <-> x <= y.
Proof. apply Qle_bool_iff. Qed.

Lemma leb_false (x y : Q) : Py.leb x y = false <-> y < x.
Proof.
  unfold Py.leb. split; intro H.
  - apply Qnot_le_lt. intro Hle. apply Qle_bool_iff in Hle. congruence.
  - destruct (Qle_bool x y) eqn:E; [|reflexivity].
    apply Qle_bool_iff in E. exfalso. exact (Qlt_not_le _ _ H E).
Qed.

Lemma ltb_true (x y : Q) : Py.ltb x y = true <-> x < y.
Proof.
  unfold Py.ltb. rewrite negb_true_iff. apply (leb_false y x).
Qed.

Lemma ltb_false (x y : Q) : Py.ltb x y = false <-> y <= x.
Proof.
  unfold Py.ltb. rewrite negb_false_iff. apply (leb_true y x).
Qed.

End Comparisons.

(** ** Market heat *)

Module MarketHeatSpec.
Import Database.
Open Scope Q_scope.

(** The status ladder in the words of the specification: a function of the
    inventory and of the price change alone. *)
Definition status_ladder (inventory price_change : Q) : string :=
  if Qlt_le_dec 12 inventory then "cold"
  else if Qlt_le_dec inventory 6 then
    if Qlt_le_dec 15 price_change then "overheated" else "growing"
  else "stable".

(** Inventory-in-months in the words of the specification. *)
Definition inventory_in_months (active sold_90d : Z) : Q :=
  inject_Z active / (inject_Z sold_90d / 3).

(** The monthly sales of [calculate_inventory_months] are not zero. *)
Definition monthly_sales_nonzero (sold_90d : Z) : bool :=
  negb (PrimFloat.eqb (PrimFloat.div (Float64.of_Z sold_90d) (Float64.of_Z 3))
                      (Float64.of_Z 0)).

(** [P] holds of the [n] integers from [k] on. *)
Fixpoint holds_from (P : Z -> bool) (k : Z) (n : nat) : bool :=
  match n with
  | O => true
  | S n' => P k && holds_from P (k + 1) n'
  end.

Definition listing (zip_code status : string) (sale_date : option Z) : Property := {|
  id := 0; street_name := Some "Main St"%string; city := "Asheville";
  zip := Some zip_code; latitude := None; longitude := None;
  sale_price := None; list_price := None; sqft := None; price_per_sqft := None;
  lot_size := None; status := status; sale_date := sale_date;
  days_on_market := None; archived := false |}.

(** A postal area with [active] active listings and [sold] sales, all sold
    [Py.days 10] before the clock reading [Py.days 100]. *)
Definition postal_area (active sold : nat) : DB := {|
  properties :=
    repeat (listing "28801" "active" None) active ++
    repeat (listing "28801" "sold" (Some (Py.days 90))) sold;
  street_analysis := [];
  market_heat_zones := [];
  land_opportunities := [] |}.

End MarketHeatSpec.

Section MarketHeatFacts.
Import Database MarketHeat MarketHeatSpec.
Open Scope Q_scope.

Lemma determine_market_status_ladder (inventory price_change dom_change : Q) :
  determine_market_status inventory price_change dom_change
  = status_ladder inventory price_change.
Proof.
  unfold determine_market_status, status_ladder.
  destruct (Py.ltb 12 inventory) eqn:E12.
  - apply ltb_true in E12. destruct (Qlt_le_dec 12 inventory) as [_|H]; [reflexivity|].
    exfalso. exact (Qlt_not_le _ _ E12 H).
  - apply ltb_false in E12. destruct (Qlt_le_dec 12 inventory) as [H|_].
    + exfalso. exact (Qlt_not_le _ _ H E12).
    + destruct (Py.leb 6 inventory) eqn:E6.
      * apply leb_true in E6. destruct (Qlt_le_dec inventory 6) as [H|_]; [|reflexivity].
        exfalso. exact (Qlt_not_le _ _ H E6).
      * apply leb_false in E6. destruct (Qlt_le_dec inventory 6) as [_|H].
        -- destruct (Py.ltb 15 price_change) eqn:E15.
           ++ apply ltb_true in E15.
              destruct (Qlt_le_dec 15 price_change) as [_|H]; [reflexivity|].
              exfalso. exact (Qlt_not_le _ _ E15 H).
           ++ apply ltb_false in E15.
              destruct (Qlt_le_dec 15 price_change) as [H|_]; [|reflexivity].
              exfalso. exact (Qlt_not_le _ _ H E15).
        -- exfalso. exact (Qlt_not_le _ _ E6 H).
Qed.

(** The two guards of [calculate_inventory_months] return the sentinel 999;
    past them the result is the binary64 quotient rounded to one decimal. *)
Lemma calculate_inventory_months_cases (active sold_90d : Z) :
  calculate_inventory_months active sold_90d = 999 \/
  calculate_inventory_months active sold_90d
  = Float64.to_Q
      (Float64.round_nd
         (PrimFloat.div (Float64.of_Z active)
            (PrimFloat.div (Float64.of_Z sold_90d) (Float64.of_Z 3))) 1).
Proof.
  unfold calculate_inventory_months.
  destruct (sold_90d =? 0)%Z; [left; reflexivity|].
  destruct (PrimFloat.eqb _ _); [left; reflexivity | right; reflexivity].
Qed.

Lemma holds_from_spec (P : Z -> bool) (n : nat) :
  forall k, holds_from P k n = true ->
  forall j, (k <= j < k + Z.of_nat n)%Z -> P j = true.
Proof.
  induction n as [|n IH]; intros k H j Hj; [lia|].
  cbn [holds_from] in H. apply andb_prop in H. destruct H as [Hk Hrest].
  destruct (Z.eq_dec j k) as [-> | Hne]; [exact Hk|].
  apply (IH (k + 1)%Z Hrest). lia.
Qed.

(** With 1 to 1000000 sales neither guard fires: checked for each count. *)
Lemma inventory_with_sales (active sold_90d : Z) :
  (0 < sold_90d <= 1000000)%Z ->
  calculate_inventory_months active sold_90d
  = Float64.to_Q
      (Float64.round_nd
         (PrimFloat.div (Float64.of_Z active)
            (PrimFloat.div (Float64.of_Z sold_90d) (Float64.of_Z 3))) 1).
Proof.
  intros Hs.
  assert (Hnz : monthly_sales_nonzero sold_90d = true).
  { apply (holds_from_spec monthly_sales_nonzero (Z.to_nat 1000000) 1).
    - vm_compute. reflexivity.
    - lia. }
  unfold calculate_inventory_months.
  destruct (sold_90d =? 0)%Z eqn:E0; [apply Z.eqb_eq in E0; lia|].
  unfold monthly_sales_nonzero in Hnz. apply negb_true_iff in Hnz. rewrite Hnz.
  reflexivity.
Qed.

(** C4 (as the code has it). The status is a function of the inventory that
    [calculate_inventory_months] returns and of the price change: above 12
    cold, from 6 stable, below 6 overheated when the price change exceeds 15
    and growing otherwise. That inventory is the binary64 quotient
    active / (sold / 3.0) rounded to one decimal, or the sentinel 999 of the
    two zero guards, which do not fire for 1 to 1000000 sales. The
    days-on-market change has no influence, and 20 active listings with 4
    sales give 15 months and cold. *)
Theorem market_status_ladder_on_rounded_inventory :
  (forall inventory price_change dom_change,
      determine_market_status inventory price_change dom_change
      = status_ladder inventory price_change) /\
  (forall active sold_90d,
      (0 < sold_90d <= 1000000)%Z ->
      calculate_inventory_months active sold_90d
      = Float64.to_Q
          (Float64.round_nd
             (PrimFloat.div (Float64.of_Z active)
                (PrimFloat.div (Float64.of_Z sold_90d) (Float64.of_Z 3))) 1)) /\
  (forall now db zip_code price_change dom_change,
      let active := get_active_listings_count db zip_code in
      let sold := get_sold_last_90d_count now db zip_code in
      (calculate_inventory_months active sold = 999 \/
       calculate_inventory_months active sold
       = Float64.to_Q
           (Float64.round_nd
              (PrimFloat.div (Float64.of_Z active)
                 (PrimFloat.div (Float64.of_Z sold) (Float64.of_Z 3))) 1)) /\
      determine_market_status (calculate_inventory_months active sold)
        price_change dom_change
      = status_ladder (calculate_inventory_months active sold) price_change) /\
  (forall inventory price_change dom_change dom_change',
      determine_market_status inventory price_change dom_change
      = determine_market_status inventory price_change dom_change') /\
  (get_active_listings_count (postal_area 20 4) "28801" = 20%Z /\
   get_sold_last_90d_count (Py.days 100) (postal_area 20 4) "28801" = 4%Z /\
   calculate_inventory_months 20 4 == 15 /\
   forall price_change dom_change,
     determine_market_status (calculate_inventory_months 20 4) price_change dom_change
     = "cold"%string).
Proof.
  split; [exact determine_market_status_ladder|].
  split; [exact inventory_with_sales|].
  split; [|split].
  - intros. split; [apply calculate_inventory_months_cases
                   | apply determine_market_status_ladder].
  - intros. rewrite !determine_market_status_ladder. reflexivity.
  - split; [vm_compute; reflexivity|].
    split; [vm_compute; reflexivity|].
    split; [vm_compute; reflexivity|].
    intros. rewrite determine_market_status_ladder. vm_compute. reflexivity.
Qed.

(** C4 fails as stated: with 401 active listings and 100 sales the inventory
    401 / (100 / 3) = 12.03 exceeds 12, which the ladder maps to cold, but
    [calculate_inventory_months] returns the rounded 12.0 and the status is
    stable. *)
Lemma market_status_unrounded_inventory_counterexample :
  get_active_listings_count (postal_area 401 100) "28801" = 401%Z /\
  get_sold_last_90d_count (Py.days 100) (postal_area 401 100) "28801" = 100%Z /\
  12 < inventory_in_months 401 100 /\
  status_ladder (inventory_in_months 401 100) 0 = "cold"%string /\
  calculate_inventory_months 401 100 == 12 /\
  forall price_change dom_change,
    determine_market_status (calculate_inventory_months 401 100) price_change dom_change
    = "stable"%string.
Proof.
  split; [vm_compute; reflexivity|].
  split; [vm_compute; reflexivity|].
  split; [vm_compute; reflexivity|].
  split; [vm_compute; reflexivity|].
  split; [vm_compute; reflexivity|].
  intros. rewrite determine_market_status_ladder. vm_compute. reflexivity.
Qed.

(** The rounding is that of the binary64 quotient: 241 active listings and 60
    sales give 12.050000000000001, rounded to 12.1, and the status cold. *)
Example inventory_241_60 :
  calculate_inventory_months 241 60
  = Float64.to_Q (PrimFloat.div (Float64.of_Z 121) (Float64.of_Z 10)) /\
  12 < calculate_inventory_months 241 60 /\
  determine_market_status (calculate_inventory_months 241 60) 0 0 = "cold"%string.
Proof.
  split; [vm_compute; reflexivity|].
  split; vm_compute; reflexivity.
Qed.

End MarketHeatFacts.

(** ** Street zones *)

Module StreetSpec.
Import Database.
Open Scope Q_scope.

(** The order of the colour tiers: red < yellow < light_green < green. *)
Definition tier (color : string) : nat :=
  if String.eqb color "green" then 3
  else if String.eqb color "light_green" then 2
  else if String.eqb color "yellow" then 1
  else 0.

(** The thresholds of the documentation: 350, 300 and 220 dollars per
    square foot. *)
Definition sample_config : Config := {|
  threshold_green := 350; threshold_light_green := 300; threshold_yellow := 220;
  max_price := 150000; min_lot_size := 1 # 4;
  allowed_zone_colors := ["green"; "light_green"]%string;
  market_heat_allowed := ["growing"; "stable"; "cold"]%string;
  min_nearby_price_sqft := 200; min_recent_sales := 1;
  weight_zone_color := 3 # 10; weight_market_heat := 3 # 10;
  weight_price_opportunity := 25 # 100; weight_recent_sales := 15 # 100;
  level_urgent := 80; level_good := 60;
  city_center_lat := 355951 / 10000; city_center_lon := - (825515 / 10000);
  radius_miles := 25 |}.

(** The row with a zero price-per-area or a zero days-on-market replaced by
    an absent one. *)
Definition blank_zero (p : Property) : Property := {|
  id := id p; street_name := street_name p; city := city p; zip := zip p;
  latitude := latitude p; longitude := longitude p;
  sale_price := sale_price p; list_price := list_price p; sqft := sqft p;
  price_per_sqft :=
    match price_per_sqft p with
    | Some v => if Qeq_bool v 0 then None else Some v
    | None => None
    end;
  lot_size := lot_size p; status := status p; sale_date := sale_date p;
  days_on_market :=
    match days_on_market p with
    | Some d => if (d =? 0)%Z then None else Some d
    | None => None
    end;
  archived := archived p |}.

End StreetSpec.

Section StreetFacts.
Import Database StreetAnalyzer StreetSpec.
Open Scope Q_scope.

Lemma determine_color_cases (cfg : Config) (m : Q) :
  (threshold_green cfg <= m /\ determine_color cfg m = "green"%string) \/
  (m < threshold_green cfg /\ threshold_light_green cfg <= m /\
   determine_color cfg m = "light_green"%string) \/
  (m < threshold_green cfg /\ m < threshold_light_green cfg /\
   threshold_yellow cfg <= m /\ determine_color cfg m = "yellow"%string) \/
  (m < threshold_green cfg /\ m < threshold_light_green cfg /\
   m < threshold_yellow cfg /\ determine_color cfg m = "red"%string).
Proof.
  unfold determine_color.
  destruct (Py.leb (threshold_green cfg) m) eqn:Eg.
  { left. split; [apply leb_true; exact Eg | reflexivity]. }
  apply leb_false in Eg. right.
  destruct (Py.leb (threshold_light_green cfg) m) eqn:El.
  { left. repeat split; [exact Eg | apply leb_true; exact El]. }
  apply leb_false in El. right.
  destruct (Py.leb (threshold_yellow cfg) m) eqn:Ey.
  { left. repeat split; [exact Eg | exact El | apply leb_true; exact Ey]. }
  apply leb_false in Ey. right. repeat split; assumption.
Qed.

(** C8. The colour ladder is monotone: for medians m1 <= m2 the tier of the
    colour assigned to m2 is never below the tier assigned to m1, whatever
    the three thresholds are. *)
Theorem determine_color_monotone (cfg : Config) (m1 m2 : Q) :
  m1 <= m2 ->
  (tier (determine_color cfg m1) <= tier (determine_color cfg m2))%nat.
Proof.
  intros Hle.
  destruct (determine_color_cases cfg m1)
    as [[G1 ->]|[[G1 [L1 ->]]|[[G1 [L1 [Y1 ->]]]|[G1 [L1 [Y1 ->]]]]]];
  destruct (determine_color_cases cfg m2)
    as [[G2 ->]|[[G2 [L2 ->]]|[[G2 [L2 [Y2 ->]]]|[G2 [L2 [Y2 ->]]]]]];
  cbn; try lia; exfalso.
  all: try (apply (Qlt_irrefl m2); apply Qlt_le_trans with (1 := G2);
            apply Qle_trans with (2 := Hle); exact G1).
  all: try (apply (Qlt_irrefl m2); apply Qlt_le_trans with (1 := L2);
            apply Qle_trans with (2 := Hle); exact L1).
  all: try (apply (Qlt_irrefl m2); apply Qlt_le_trans with (1 := Y2);
            apply Qle_trans with (2 := Hle); exact Y1).
Qed.

Lemma determine_color_monotone_witness :
  250 <= 360 /\
  (tier (determine_color sample_config 250) <= tier (determine_color sample_config 360))%nat.
Proof.
  assert (H : 250 <= 360) by (unfold Qle; simpl; lia).
  split; [exact H | exact (determine_color_monotone sample_config 250 360 H)].
Defined.

Example determine_color_360 : determine_color sample_config 360 = "green"%string.
Proof. reflexivity. Qed.

Example determine_color_250 : determine_color sample_config 250 = "yellow"%string.
Proof. reflexivity. Qed.

End StreetFacts.

(** ** Truthiness of the aggregated columns *)

Section TruthinessFacts.
Import Database StreetAnalyzer StreetSpec.
Open Scope Q_scope.

Lemma truthy_prices_blank_zero (ps : list Property) :
  truthy_prices (map blank_zero ps) = truthy_prices ps.
Proof.
  induction ps as [|p ps IH]; [reflexivity|].
  unfold truthy_prices in *. cbn [map flat_map]. rewrite IH. f_equal.
  unfold blank_zero; cbn [price_per_sqft].
  destruct (price_per_sqft p) as [v|]; [|reflexivity].
  unfold Py.truthy. destruct (Qeq_bool v 0) eqn:E; cbn; [reflexivity|].
  rewrite E. reflexivity.
Qed.

Lemma truthy_doms_blank_zero (ps : list Property) :
  truthy_doms (map blank_zero ps) = truthy_doms ps.
Proof.
  induction ps as [|p ps IH]; [reflexivity|].
  unfold truthy_doms in *. cbn [map flat_map]. rewrite IH. f_equal.
  unfold blank_zero; cbn [days_on_market].
  destruct (days_on_market p) as [d|]; [|reflexivity].
  unfold Py.truthyZ. destruct (d =? 0)%Z eqn:E; cbn; [reflexivity|].
  rewrite E. reflexivity.
Qed.

Lemma truthy_doms_nonzero (ps : list Property) (d : Z) :
  In d (truthy_doms ps) -> d <> 0%Z.
Proof.
  unfold truthy_doms. rewrite in_flat_map. intros [p [_ Hd]].
  destruct (days_on_market p) as [v|]; [|contradiction].
  unfold Py.truthyZ in Hd. destruct (v =? 0)%Z eqn:E; cbn in Hd; [contradiction|].
  destruct Hd as [<-|[]]. apply Z.eqb_neq. exact E.
Qed.

Lemma minZ_list_In (ds : list Z) (d : Z) : In (Py.minZ_list d ds) (d :: ds).
Proof.
  unfold Py.minZ_list. revert d.
  induction ds as [|e ds IH]; intros d; [left; reflexivity|].
  cbn [fold_left]. destruct (IH (Z.min d e)) as [H|H].
  - rewrite <- H. destruct (Z.min_spec d e) as [[_ ->]|[_ ->]];
      [left; reflexivity | right; left; reflexivity].
  - right. right. exact H.
Qed.

Lemma truthy_doms_app (l1 l2 : list Property) :
  truthy_doms (l1 ++ l2) = (truthy_doms l1 ++ truthy_doms l2)%list.
Proof. unfold truthy_doms. apply flat_map_app. Qed.

Lemma truthy_prices_app (l1 l2 : list Property) :
  truthy_prices (l1 ++ l2) = (truthy_prices l1 ++ truthy_prices l2)%list.
Proof. unfold truthy_prices. apply flat_map_app. Qed.

(** C9. A price-per-area of 0 and a days-on-market of 0 count as absent: the
    street metrics and the nearby average are those of the rows with every
    such zero replaced by an absent value; a row whose price-per-area (or
    days-on-market) is 0 adds no observation to the prices (or to the
    durations); and the reported minimum days-on-market is never 0. *)
Theorem zero_values_count_as_absent (ps : list Property) :
  calculate_street_metrics (map blank_zero ps) = calculate_street_metrics ps /\
  LandScorer.calculate_avg_nearby_price_sqft (map blank_zero ps)
  = LandScorer.calculate_avg_nearby_price_sqft ps /\
  (forall before p after v,
      ps = (before ++ p :: after)%list -> price_per_sqft p = Some v -> v == 0 ->
      truthy_prices ps = truthy_prices (before ++ after)) /\
  (forall before p after,
      ps = (before ++ p :: after)%list -> days_on_market p = Some 0%Z ->
      truthy_doms ps = truthy_doms (before ++ after)) /\
  match calculate_street_metrics ps with
  | Some metrics => m_min_dom metrics <> Some 0%Z
  | None => True
  end.
Proof.
  split; [|split; [|split; [|split]]].
  - unfold calculate_street_metrics.
    rewrite truthy_prices_blank_zero, truthy_doms_blank_zero, length_map. reflexivity.
  - unfold LandScorer.calculate_avg_nearby_price_sqft.
    rewrite truthy_prices_blank_zero. reflexivity.
  - intros before p after v -> Hp Hv.
    rewrite !truthy_prices_app. f_equal.
    change (p :: after) with ([p] ++ after)%list. rewrite truthy_prices_app.
    unfold truthy_prices at 1. cbn [flat_map]. rewrite Hp.
    unfold Py.truthy. apply Qeq_bool_iff in Hv. rewrite Hv. reflexivity.
  - intros before p after -> Hp.
    rewrite !truthy_doms_app. f_equal.
    change (p :: after) with ([p] ++ after)%list. rewrite truthy_doms_app.
    unfold truthy_doms at 1. cbn [flat_map]. rewrite Hp. reflexivity.
  - unfold calculate_street_metrics.
    destruct (truthy_prices ps) as [|x rest]; [exact I|].
    cbn [m_min_dom].
    destruct (truthy_doms ps) as [|d ds] eqn:E; [discriminate|].
    intros H. injection H as H.
    apply (truthy_doms_nonzero ps (Py.minZ_list d ds)); [|exact H].
    rewrite E. apply minZ_list_In.
Qed.

(** A sale closed on the day of listing, recorded without a price-per-area
    figure, next to one sold after five days at 300 dollars per square foot:
    only the second is observed. *)
Example street_metrics_skip_zero_values :
  let same_day := MarketHeatSpec.listing "28801" "sold" (Some 0%Z) in
  let zero := {|
    id := 2; street_name := street_name same_day; city := city same_day;
    zip := zip same_day; latitude := None; longitude := None;
    sale_price := None; list_price := None; sqft := None;
    price_per_sqft := Some 0; lot_size := None; status := "sold";
    sale_date := Some 0%Z; days_on_market := Some 0%Z; archived := false |} in
  let five := {|
    id := 3; street_name := street_name same_day; city := city same_day;
    zip := zip same_day; latitude := None; longitude := None;
    sale_price := None; list_price := None; sqft := None;
    price_per_sqft := Some 300; lot_size := None; status := "sold";
    sale_date := Some 0%Z; days_on_market := Some 5%Z; archived := false |} in
  truthy_prices [zero; five] = [300] /\
  truthy_doms [zero; five] = [5%Z] /\
  option_map m_min_dom (calculate_street_metrics [zero; five]) = Some (Some 5%Z) /\
  option_map m_sample_size (calculate_street_metrics [zero; five]) = Some 2%nat.
Proof. repeat split. Qed.

End TruthinessFacts.

(** ** Great-circle distance: basic facts *)

Section GeoFacts.
Open Scope R_scope.

Lemma radians_0 : Geo.radians 0 = 0.
Proof. unfold Geo.radians. ring. Qed.

Lemma atan2_pos (y x : R) : 0 < x -> Geo.atan2 y x = atan (y / x).
Proof.
  intros Hx. unfold Geo.atan2. destruct (Rlt_dec 0 x); [reflexivity | contradiction].
Qed.

(** The distance from a point to itself is 0. *)
Lemma haversine_distance_same (lat lon : R) :
  Geo.haversine_distance lat lon lat lon = 0.
Proof.
  unfold Geo.haversine_distance.
  replace (lat - lat) with 0 by ring. replace (lon - lon) with 0 by ring.
  rewrite radians_0. replace (0 / 2) with 0 by field. rewrite sin_0.
  replace (0 ^ 2 + cos (Geo.radians lat) * cos (Geo.radians lat) * 0 ^ 2) with 0 by ring.
  rewrite sqrt_0. replace (1 - 0) with 1 by ring. rewrite sqrt_1.
  rewrite atan2_pos by lra. replace (0 / 1) with 0 by field. rewrite atan_0. ring.
Qed.

Lemma geo_leb_true (x y : R) : x <= y -> Geo.leb x y = true.
Proof. intros H. unfold Geo.leb. destruct (Rle_dec x y); [reflexivity | contradiction]. Qed.

Lemma geo_leb_false (x y : R) : y < x -> Geo.leb x y = false.
Proof. intros H. unfold Geo.leb. destruct (Rle_dec x y); [lra | reflexivity]. Qed.

Lemma geo_truthy_some (v : R) : v <> 0 -> Geo.truthy (Some v) = true.
Proof. intros H. unfold Geo.truthy. destruct (Req_dec_T v 0); [contradiction | reflexivity]. Qed.

Lemma geo_truthy_inv (x : option R) :
  Geo.truthy x = true -> exists v, x = Some v /\ v <> 0.
Proof.
  destruct x as [v|]; cbn; [|discriminate].
  destruct (Req_dec_T v 0); [discriminate|]. intros _. exists v. split; [reflexivity|assumption].
Qed.

End GeoFacts.

(** ** Land opportunities *)

Module LandSpec.
Import Database LandScorer.
Open Scope Q_scope.

(** The price of the filter as the specification words it: the sale price
    when present, else the list price. *)
Definition price_sale_first (p : Property) : option Q :=
  match sale_price p with
  | Some v => Some v
  | None => list_price p
  end.

(** The price of the filter as the code takes it: the list price when it is
    present and not zero, else the sale price. *)
Definition price_list_first (p : Property) : option Q :=
  match list_price p with
  | Some v => if Qeq_bool v 0 then sale_price p else Some v
  | None => sale_price p
  end.

(** A fixed lookup with default 0. *)
Fixpoint lookup_score (table : list (string * Z)) (key : string) : Z :=
  match table with
  | [] => 0
  | (k, v) :: rest => if String.eqb key k then v else lookup_score rest key
  end.

Definition zone_scores : list (string * Z) :=
  [("green", 100); ("light_green", 75); ("yellow", 50); ("red", 0)]%string%Z.

Definition market_scores : list (string * Z) :=
  [("growing", 100); ("stable", 80); ("cold", 50); ("overheated", 0)]%string%Z.

Definition price_ladder (ratio : Q) : Z :=
  if Qlt_le_dec ratio (1 # 2) then 100
  else if Qlt_le_dec ratio (7 # 10) then 75
  else if Qlt_le_dec ratio (9 # 10) then 50
  else 0.

Definition activity_ladder (recent_sales : Z) : Z :=
  if Z_le_dec 5 recent_sales then 100
  else if Z_le_dec 3 recent_sales then 75
  else if Z_le_dec 1 recent_sales then 50
  else 0.

(** The price factor: 0 when the nearby average is 0, else the ladder on the
    ratio of the parcel's price-per-area to the nearby average. *)
Definition price_score (land_price_sqft avg : Q) : Z :=
  if Qeq_bool avg 0 then 0 else price_ladder (land_price_sqft / avg).

(** The sum of the four factors, each times its weight. *)
Definition weighted_total (cfg : Config) (zone market price activity : Z) : Q :=
  inject_Z zone * weight_zone_color cfg +
  inject_Z market * weight_market_heat cfg +
  inject_Z price * weight_price_opportunity cfg +
  inject_Z activity * weight_recent_sales cfg.

(** The first three filters: the parcel has a latitude and a longitude (the
    code takes a coordinate of 0 for a missing one), its street has a zone
    record and its postal area a market-heat record. *)
Definition has_records (db : DB) (p : Property) : Prop :=
  (exists lat, latitude p = Some lat /\ lat <> 0%R) /\
  (exists lon, longitude p = Some lon /\ lon <> 0%R) /\
  find_street_analysis db p <> None /\
  find_market_heat db p <> None.

End LandSpec.

Section LandScoreFacts.
Import Database LandScorer LandSpec.
Open Scope Q_scope.

Lemma or_else_list_first (p : Property) :
  Py.or_else (list_price p) (sale_price p) = price_list_first p.
Proof.
  unfold Py.or_else, price_list_first, Py.truthy.
  destruct (list_price p) as [v|]; [|reflexivity].
  destruct (Qeq_bool v 0); reflexivity.
Qed.

Lemma score_zone_color_table (color : string) :
  score_zone_color color = lookup_score zone_scores color.
Proof. reflexivity. Qed.

Lemma score_market_heat_table (status : string) :
  score_market_heat status = lookup_score market_scores status.
Proof. reflexivity. Qed.

Lemma ltb_dec (x y : Q) (A : Type) (a b : A) :
  (if Py.ltb x y then a else b) = (if Qlt_le_dec x y then a else b).
Proof.
  destruct (Py.ltb x y) eqn:E; destruct (Qlt_le_dec x y) as [H|H]; try reflexivity; exfalso.
  - apply ltb_true in E. exact (Qlt_not_le _ _ E H).
  - apply ltb_false in E. exact (Qlt_not_le _ _ H E).
Qed.

(** The price score: 0 when the nearby average is 0, else the ladder on the
    ratio; never an exception. *)
Lemma score_price_opportunity_cases (land_price_sqft avg : Q) :
  (avg == 0 /\ score_price_opportunity land_price_sqft avg = Py.Return 0%Z) \/
  (~ avg == 0 /\
   score_price_opportunity land_price_sqft avg
   = Py.Return (price_ladder (land_price_sqft / avg))).
Proof.
  unfold score_price_opportunity.
  destruct (Qeq_bool avg 0) eqn:E.
  - left. split; [apply Qeq_bool_eq; exact E | reflexivity].
  - right. assert (Hn : ~ avg == 0) by (intro H; apply Qeq_bool_iff in H; congruence).
    split; [exact Hn|].
    unfold Py.div. rewrite E. cbn [Py.bind]. unfold price_ladder.
    rewrite !ltb_dec.
    destruct (Qlt_le_dec (land_price_sqft / avg) (1 # 2)); [reflexivity|].
    destruct (Qlt_le_dec (land_price_sqft / avg) (7 # 10)); [reflexivity|].
    destruct (Qlt_le_dec (land_price_sqft / avg) (9 # 10)); reflexivity.
Qed.

Lemma activity_score_ladder (n : Z) :
  (if (5 <=? n)%Z then 100%Z else if (3 <=? n)%Z then 75%Z
   else if (1 <=? n)%Z then 50%Z else 0%Z) = activity_ladder n.
Proof.
  unfold activity_ladder.
  destruct (Z_le_dec 5 n); destruct (5 <=? n)%Z eqn:E5; try lia;
  destruct (Z_le_dec 3 n); destruct (3 <=? n)%Z eqn:E3; try lia;
  destruct (Z_le_dec 1 n); destruct (1 <=? n)%Z eqn:E1; try lia; reflexivity.
Qed.

Lemma calculate_land_score_value (cfg : Config) (zone_color market_status : string)
    (avg land_price_sqft : Q) (recent : Z) :
  calculate_land_score cfg zone_color market_status avg land_price_sqft recent
  = Py.Return (Py.round (weighted_total cfg
      (lookup_score zone_scores zone_color)
      (lookup_score market_scores market_status)
      (price_score land_price_sqft avg)
      (activity_ladder recent))).
Proof.
  unfold calculate_land_score, price_score.
  destruct (score_price_opportunity_cases land_price_sqft avg) as [[H ->]|[H ->]];
    cbn [Py.bind]; rewrite activity_score_ladder.
  - apply Qeq_bool_iff in H. rewrite H. reflexivity.
  - destruct (Qeq_bool avg 0) eqn:E; [apply Qeq_bool_eq in E; contradiction|].
    reflexivity.
Qed.

(** Past the first three filters the read of [market_status] raises. *)
Lemma evaluate_raises (cfg : Config) (now utcnow : Z) (db : DB) (p : Property) :
  has_records db p ->
  evaluate_land_opportunity cfg now utcnow db p = Py.Raise Py.AttributeError.
Proof.
  intros ([lat [Hlat Hlat0]] & [lon [Hlon Hlon0]] & Hzone & Hheat).
  unfold evaluate_land_opportunity. rewrite Hlat, Hlon.
  rewrite (geo_truthy_some lat Hlat0), (geo_truthy_some lon Hlon0). cbn [negb orb].
  destruct (find_street_analysis db p) as [zone|]; [|contradiction].
  destruct (find_market_heat db p) as [heat|]; [|contradiction].
  reflexivity.
Qed.

(** A parcel stopped by one of the first three filters is rejected and the
    repository is returned as it was. *)
Lemma evaluate_rejects (cfg : Config) (now utcnow : Z) (db : DB) (p : Property) :
  ~ has_records db p ->
  evaluate_land_opportunity cfg now utcnow db p = Py.Return (None, db).
Proof.
  intros Hno. unfold evaluate_land_opportunity.
  destruct (Geo.truthy (latitude p)) eqn:Elat; [|reflexivity].
  destruct (Geo.truthy (longitude p)) eqn:Elon; [|reflexivity].
  cbn [negb orb].
  destruct (geo_truthy_inv _ Elat) as [lat [Hlat Hlat0]].
  destruct (geo_truthy_inv _ Elon) as [lon [Hlon Hlon0]].
  rewrite Hlat, Hlon.
  destruct (find_street_analysis db p) as [zone|] eqn:Ez; [|reflexivity].
  destruct (find_market_heat db p) as [heat|] eqn:Eh; [|reflexivity].
  exfalso. apply Hno. unfold has_records. rewrite Ez, Eh.
  split; [exists lat; split; assumption|].
  split; [exists lon; split; assumption|].
  split; discriminate.
Qed.

(** No call returns anything but a rejection. *)
Lemma evaluate_cases (cfg : Config) (now utcnow : Z) (db : DB) (p : Property) :
  evaluate_land_opportunity cfg now utcnow db p = Py.Raise Py.AttributeError \/
  evaluate_land_opportunity cfg now utcnow db p = Py.Return (None, db).
Proof.
  unfold evaluate_land_opportunity.
  destruct (negb (Geo.truthy (latitude p)) || negb (Geo.truthy (longitude p)));
    [right; reflexivity|].
  destruct (latitude p) as [lat|]; [|right; reflexivity].
  destruct (longitude p) as [lon|]; [|right; reflexivity].
  destruct (find_street_analysis db p) as [zone|]; [|right; reflexivity].
  destruct (find_market_heat db p) as [heat|]; [|right; reflexivity].
  left. reflexivity.
Qed.

(** The price filter in terms of the list-first price. *)
Lemma price_filter_value (cfg : Config) (p : Property) :
  price_filter cfg p
  = match price_list_first p with
    | None => None
    | Some price =>
        if Qeq_bool price 0 || Py.ltb (max_price cfg) price then None else Some price
    end.
Proof. unfold price_filter. rewrite or_else_list_first. reflexivity. Qed.

End LandScoreFacts.

(** A worked scenario: a one-acre parcel on a green street of a growing
    postal area, with six comparables sold at 300 dollars per square foot,
    ten days before the evaluation, at the parcel's own coordinate. *)
Module LandScenario.
Import Database.
Open Scope Q_scope.

Definition lat0 : R := (355951 / 10000)%R.
Definition lon0 : R := (- (825515 / 10000))%R.
Definition today : Z := Py.days 100.

Definition comparable : Property := {|
  id := 1; street_name := Some "Main St"%string; city := "Asheville";
  zip := Some "28801"%string; latitude := Some lat0; longitude := Some lon0;
  sale_price := Some 450000; list_price := Some 460000; sqft := Some 1500;
  price_per_sqft := Some 300; lot_size := Some (1 # 2); status := "sold";
  sale_date := Some (Py.days 90); days_on_market := Some 30%Z; archived := false |}.

Definition parcel (list_price sale_price : option Q) : Property := {|
  id := 7; street_name := Some "Main St"%string; city := "Asheville";
  zip := Some "28801"%string; latitude := Some lat0; longitude := Some lon0;
  sale_price := sale_price; list_price := list_price; sqft := None;
  price_per_sqft := None; lot_size := Some 1; status := "active";
  sale_date := None; days_on_market := None; archived := false |}.

Definition green_street : StreetAnalysis := {|
  sa_street_name := "Main St"; sa_city := "Asheville";
  median_price_sqft := 360; min_price_sqft := 300; max_price_sqft := 400;
  avg_dom := Some 30; min_dom := Some 30%Z; max_dom := Some 30%Z;
  color := "green"; sample_size := 12; confidence_score := 1;
  sa_last_updated := 0 |}.

Definition growing_area : MarketHeatZone := {|
  zip_code := "28801"; active_listings := 5; sold_last_90d := 6;
  inventory_months := 5 # 2; price_change_90d := Some 0; dom_change := Some 0;
  mh_status := "growing"; recommendation := None; mh_last_updated := 0 |}.

Definition db0 : DB := {|
  properties := repeat comparable 6;
  street_analysis := [green_street];
  market_heat_zones := [growing_area];
  land_opportunities := [] |}.

End LandScenario.

Section LandOpportunityFacts.
Import Database LandScorer LandSpec.
Open Scope Q_scope.


End LandOpportunityFacts.

Section LandScenarioFacts.
Import Database LandScorer LandSpec LandScenario StreetSpec.
Open Scope Q_scope.

(** Rows at the query point that are active, or sold within the year, are
    all returned by the radius query. *)
Lemma get_nearby_properties_at_point (now : Z) (db : DB) (lat lon radius : R) :
  (0 <= radius)%R ->
  Forall (fun q =>
    latitude q = Some lat /\ longitude q = Some lon /\ archived q = false /\
    (status q = "active"%string \/
     status q = "sold"%string /\
     exists d, sale_date q = Some d /\ (now - Py.days 365 <= d)%Z)) (properties db) ->
  get_nearby_properties now db lat lon radius = properties db.
Proof.
  intros Hr. unfold get_nearby_properties.
  induction (properties db) as [|q qs IH]; intros Hall; [reflexivity|].
  inversion Hall as [|q' qs' Hq Hqs]; subst.
  cbn [flat_map]. rewrite (IH Hqs).
  destruct Hq as (-> & -> & -> & Hstatus).
  rewrite haversine_distance_same, (geo_leb_true _ _ Hr).
  destruct Hstatus as [-> | [-> [d [-> Hd]]]].
  - reflexivity.
  - apply Z.leb_le in Hd. rewrite Hd. reflexivity.
Qed.

Lemma scenario_comparables :
  get_nearby_properties today db0 lat0 lon0 5 = repeat comparable 6.
Proof.
  rewrite get_nearby_properties_at_point; [reflexivity | lra |].
  apply List.Forall_forall. intros q Hq. apply repeat_spec in Hq. subst q.
  repeat split. right. split; [reflexivity|].
  exists (Py.days 90). split; [reflexivity|]. unfold today. vm_compute. discriminate.
Qed.

(** The scenario parcel has a coordinate, a street record and a market-heat
    record, whatever its prices. *)
Lemma scenario_has_records (list sale : option Q) : has_records db0 (parcel list sale).
Proof.
  split; [exists lat0; split; [reflexivity | unfold lat0; lra]|].
  split; [exists lon0; split; [reflexivity | unfold lon0; lra]|].
  split; discriminate.
Qed.

(** C1 (what the code does). A parcel without a coordinate, without a street
    record or without a market-heat record is rejected: the call returns
    None and the repository as it was. For every other parcel step 3 reads
    the attribute market_status of the market-heat row, which the row does
    not have, and the call raises AttributeError, whether filters 4 to 10
    would pass or not; no call writes to the repository. The example of the
    specification, a parcel priced at 200000 dollars against a maximum of
    150000, fails the price filter, and its evaluation raises instead of
    returning None. *)
Theorem evaluate_raises_past_market_heat :
  (forall cfg now utcnow db p,
      has_records db p ->
      evaluate_land_opportunity cfg now utcnow db p = Py.Raise Py.AttributeError) /\
  (forall cfg now utcnow db p,
      ~ has_records db p ->
      evaluate_land_opportunity cfg now utcnow db p = Py.Return (None, db)) /\
  (forall cfg now utcnow db p result db',
      evaluate_land_opportunity cfg now utcnow db p = Py.Return (result, db') ->
      result = None /\ db' = db) /\
  (has_records db0 (parcel (Some 200000) None) /\
   max_price sample_config = 150000 /\
   price_filter sample_config (parcel (Some 200000) None) = None /\
   evaluate_land_opportunity sample_config today today db0 (parcel (Some 200000) None)
   = Py.Raise Py.AttributeError).
Proof.
  split; [exact evaluate_raises|].
  split; [exact evaluate_rejects|].
  split.
  - intros cfg now utcnow db p result db' Heval.
    destruct (evaluate_cases cfg now utcnow db p) as [H | H];
      rewrite H in Heval; [discriminate|].
    injection Heval as <- <-. split; reflexivity.
  - split; [apply scenario_has_records|].
    split; [reflexivity|].
    split; [reflexivity|].
    apply evaluate_raises. apply scenario_has_records.
Qed.



(** C5 (what the code does). The scenario of the specification: 80000
    dollars for one acre on a green street of a growing area, comparables at
    300 dollars per square foot and six recent sales. The parcel passes the
    price and lot-size filters, its zone colour and the status of its area
    are allowed, and the nearby average and the recent sales reach their
    minima; the four factors score 100 each, which the land score rounds to
    100. The evaluation raises AttributeError at the read of market_status
    and computes neither score nor level. *)
Theorem scored_parcel_evaluation_raises :
  has_records db0 (parcel (Some 80000) None) /\
  price_filter sample_config (parcel (Some 80000) None) = Some 80000 /\
  min_lot_size sample_config <= 1 /\
  In (color green_street) (allowed_zone_colors sample_config) /\
  In (mh_status growing_area) (market_heat_allowed sample_config) /\
  min_nearby_price_sqft sample_config
  <= calculate_avg_nearby_price_sqft (get_nearby_properties today db0 lat0 lon0 5) /\
  (min_recent_sales sample_config
   <= count_recent_sales today (get_nearby_properties today db0 lat0 lon0 5))%Z /\
  land_price_per_sqft (parcel (Some 80000) None) 80000 1 = Py.Return (80000 / 43560) /\
  calculate_land_score sample_config "green" "growing" 300 (80000 / 43560) 6
  = Py.Return 100%Z /\
  evaluate_land_opportunity sample_config today today db0 (parcel (Some 80000) None)
  = Py.Raise Py.AttributeError.
Proof.
  rewrite scenario_comparables.
  split; [apply scenario_has_records|].
  split; [reflexivity|].
  split; [unfold Qle; vm_compute; discriminate|].
  split; [left; reflexivity|].
  split; [left; reflexivity|].
  split; [unfold Qle; vm_compute; discriminate|].
  split; [vm_compute; discriminate|].
  split; [reflexivity|].
  split; [vm_compute; reflexivity|].
  apply evaluate_raises. apply scenario_has_records.
Qed.

End LandScenarioFacts.

Section TotalityFacts.
Import Database LandScorer LandSpec.
Open Scope Q_scope.

Lemma truthy_prices_none (ps : list Property) :
  Forall (fun p => price_per_sqft p = None) ps -> StreetAnalyzer.truthy_prices ps = [].
Proof.
  induction 1 as [|p ps Hp _ IH]; [reflexivity|].
  unfold StreetAnalyzer.truthy_prices in *. cbn [flat_map]. rewrite Hp, IH. reflexivity.
Qed.

(** C10. The price-opportunity score always returns: it is 0 when the nearby
    average is 0, and the division by that average is reached only when it
    is not 0. The nearby average is 0 for a list in which no row has a
    price-per-area. Hence the land score never raises a division error. *)
Theorem price_opportunity_never_divides_by_zero :
  (forall land_price_sqft avg,
      exists score, score_price_opportunity land_price_sqft avg = Py.Return score) /\
  (forall land_price_sqft avg,
      avg == 0 -> score_price_opportunity land_price_sqft avg = Py.Return 0%Z) /\
  (forall properties,
      Forall (fun p => price_per_sqft p = None) properties ->
      calculate_avg_nearby_price_sqft properties = 0) /\
  (forall cfg zone_color market_status avg land_price_sqft recent,
      exists score,
        calculate_land_score cfg zone_color market_status avg land_price_sqft recent
        = Py.Return score).
Proof.
  split; [|split; [|split]].
  - intros l a. destruct (score_price_opportunity_cases l a) as [[_ ->] | [_ ->]];
      eexists; reflexivity.
  - intros l a Ha. destruct (score_price_opportunity_cases l a) as [[_ H] | [H _]];
      [exact H | contradiction].
  - intros ps Hps. unfold calculate_avg_nearby_price_sqft.
    rewrite (truthy_prices_none ps Hps). reflexivity.
  - intros. rewrite calculate_land_score_value. eexists; reflexivity.
Qed.

Example score_price_opportunity_zero_average :
  score_price_opportunity 10 0 = Py.Return 0%Z.
Proof. reflexivity. Qed.

Example calculate_avg_nearby_price_sqft_empty :
  calculate_avg_nearby_price_sqft [] = 0.
Proof. reflexivity. Qed.

End TotalityFacts.

(** ** The geocode cache *)

Module GeocoderSpec.
Import Geocoder.
Open Scope R_scope.

(** The cache a call works on: [_cache] when loaded, else the file's
    content, else empty. *)
Definition loaded_cache (w : World) : gmap string coords :=
  match mem_cache w with
  | Some cache => cache
  | None => match cache_file w with Some data => data | None => ∅ end
  end.

(** The world once the cache is loaded. *)
Definition loaded (w : World) : World := {|
  mem_cache := Some (loaded_cache w); cache_file := cache_file w; calls := calls w;
  draws := draws w; writes := writes w; slept := slept w |}.

(** Within 0.05 degrees of the city centre on each axis. *)
Definition near_center (cfg : Config) (xy : coords) : Prop :=
  Rabs (fst xy - city_center_lat cfg) <= 5 / 100 /\
  Rabs (snd xy - city_center_lon cfg) <= 5 / 100.

(** Within the validity radius of the city centre. *)
Definition plausible (cfg : Config) (xy : coords) : Prop :=
  Geo.haversine_distance (city_center_lat cfg) (city_center_lon cfg) (fst xy) (snd xy)
  <= radius_miles cfg.

(** Every cached coordinate, in memory and in the file, is plausible. *)
Definition plausible_caches (cfg : Config) (w : World) : Prop :=
  (forall m, mem_cache w = Some m -> map_Forall (fun _ xy => plausible cfg xy) m) /\
  (forall m, cache_file w = Some m -> map_Forall (fun _ xy => plausible cfg xy) m).

(** A geocoder that knows no address, and a world that has not started. *)
Definition no_match (n : nat) (query : string) : reply := NoMatch.

(** An address that is already normalized, and is its own street. *)
Definition as_is (address : string) : string := address.

Definition fresh : World := {|
  mem_cache := None; cache_file := None; calls := []; draws := 0; writes := 0; slept := 0 |}.

End GeocoderSpec.

Section GeocoderFacts.
Import Geocoder GeocoderSpec.

Variable cfg : Config.
Variable geocode : nat -> string -> reply.
Variable random : nat -> R.
Variable write_ok : nat -> bool.
Variable strip_title : string -> string.
Variable extract_street_name : string -> string.
Variable search_zip : string -> option string.

Local Abbreviation fallback_center := (Geocoder.fallback_center cfg random).
Local Abbreviation fallback_zip := (Geocoder.fallback_zip cfg geocode random search_zip).
Local Abbreviation fallback_geocode :=
  (Geocoder.fallback_geocode cfg geocode random extract_street_name search_zip).
Local Abbreviation primary_geocode := (Geocoder.primary_geocode cfg geocode write_ok).
Local Abbreviation geocode_address :=
  (Geocoder.geocode_address cfg geocode random write_ok strip_title
     extract_street_name search_zip).

(** What a step of the fallback chain leaves behind: some coordinate that
    satisfies [P], the caches as they were, and at most [n] more calls to
    the geocoder. *)
Definition falls_back (P : coords -> Prop) (n : nat) (c : M (option coords)) : Prop :=
  forall w, exists xy w',
    c w = (Some xy, w') /\ P xy /\
    mem_cache w' = mem_cache w /\ cache_file w' = cache_file w /\
    writes w' = writes w /\
    (length (calls w) <= length (calls w') <= length (calls w) + n)%nat.

Lemma falls_back_after_sleep P (n : nat) (seconds : Z) (c : M (option coords)) :
  falls_back P n c -> falls_back P n (time_sleep seconds ;; c).
Proof.
  intros Hc w. unfold bind, time_sleep.
  destruct (Hc {| mem_cache := mem_cache w; cache_file := cache_file w; calls := calls w;
                  draws := draws w; writes := writes w;
                  slept := (slept w + seconds)%Z |})
    as (xy & w' & E & HP & Hm & Hf & Hw & Hcalls).
  exists xy, w'. rewrite E. cbn in Hm, Hf, Hw, Hcalls.
  repeat split; try assumption; lia.
Qed.

Lemma falls_back_after_call P (n : nat) (query : string) (k : reply -> M (option coords)) :
  (forall r, falls_back P n (k r)) ->
  falls_back P (S n) (do location <- geolocator_geocode geocode query; k location).
Proof.
  intros Hk w. unfold bind, geolocator_geocode.
  destruct (Hk (geocode (length (calls w)) query)
               {| mem_cache := mem_cache w; cache_file := cache_file w;
                  calls := query :: calls w; draws := draws w; writes := writes w;
                  slept := slept w |})
    as (xy & w' & E & HP & Hm & Hf & Hw & Hcalls).
  exists xy, w'. rewrite E. cbn in Hm, Hf, Hw, Hcalls.
  repeat split; try assumption; lia.
Qed.

Lemma falls_back_weaken P (n m : nat) (c : M (option coords)) :
  (n <= m)%nat -> falls_back P n c -> falls_back P m c.
Proof.
  intros Hnm Hc w. destruct (Hc w) as (xy & w' & E & HP & Hm & Hf & Hw & Hcalls).
  exists xy, w'. repeat split; try assumption; lia.
Qed.

Lemma falls_back_return_after_sleep (P : coords -> Prop) (seconds : Z) (xy : coords) :
  P xy -> falls_back P 0 (time_sleep seconds ;; ret (Some xy)).
Proof.
  intros HP w. eexists; eexists. split; [reflexivity|]. cbn.
  repeat split; try assumption; lia.
Qed.

Lemma falls_back_after_draws P (n : nat) (a b a' b' : R)
    (k : R -> R -> M (option coords)) :
  (forall x y, falls_back P n (k x y)) ->
  falls_back P n (do x <- random_uniform random a b;
                  do y <- random_uniform random a' b'; k x y).
Proof.
  intros Hk w. unfold bind, random_uniform. cbn.
  match goal with
  | |- context [k ?x ?y ?w0] =>
      destruct (Hk x y w0) as (xy & w' & E & HP & Hm & Hf & Hw & Hcalls)
  end.
  exists xy, w'. rewrite E. cbn in Hm, Hf, Hw, Hcalls.
  repeat split; try assumption; lia.
Qed.

Section Chain.
(** [P] holds of every coordinate that passed the plausibility check and of
    the last resort. *)
Variable P : coords -> Prop.
Hypothesis P_validated :
  forall lat lon, validate_coordinates cfg lat lon = true -> P (lat, lon).
Hypothesis P_center : falls_back P 0 fallback_center.

Lemma fallback_zip_falls_back (address : string) : falls_back P 1 (fallback_zip address).
Proof using P_validated P_center.
  unfold Geocoder.fallback_zip.
  destruct (search_zip address) as [zip_code|];
    [|apply falls_back_weaken with (n := 0%nat); [lia | apply P_center]].
  apply falls_back_after_call. intros [latitude longitude| | |].
  - apply falls_back_after_draws. intros x y.
    destruct (validate_coordinates cfg (latitude + x) (longitude + y)) eqn:E.
    + apply falls_back_return_after_sleep, P_validated, E.
    + apply falls_back_after_sleep, P_center.
  - apply falls_back_after_sleep, P_center.
  - apply falls_back_after_sleep, P_center.
  - apply falls_back_after_sleep, P_center.
Qed.

Lemma fallback_geocode_falls_back (address : string) :
  falls_back P 2 (fallback_geocode address).
Proof using P_validated P_center.
  unfold Geocoder.fallback_geocode.
  apply falls_back_after_call. intros [latitude longitude| | |].
  - destruct (validate_coordinates cfg latitude longitude) eqn:E.
    + apply falls_back_weaken with (n := 0%nat); [lia|].
      apply falls_back_return_after_sleep, P_validated, E.
    + apply falls_back_after_sleep, fallback_zip_falls_back.
  - apply falls_back_after_sleep, fallback_zip_falls_back.
  - apply falls_back_after_sleep, fallback_zip_falls_back.
  - apply falls_back_after_sleep, fallback_zip_falls_back.
Qed.

(** The primary loop: a returned coordinate passed the check and is cached
    under the address; otherwise the caches are as they were. *)
Lemma primary_geocode_spec (address : string) (remaining attempt : nat) (w : World) :
  mem_cache w = Some (loaded_cache w) ->
  exists found w',
    primary_geocode address remaining attempt w = (found, w') /\
    (length (calls w) <= length (calls w') <= length (calls w) + remaining)%nat /\
    match found with
    | Some xy =>
        validate_coordinates cfg (fst xy) (snd xy) = true /\
        mem_cache w' = Some (<[address := xy]> (loaded_cache w)) /\
        (cache_file w' = cache_file w \/ cache_file w' = mem_cache w')
    | None =>
        mem_cache w' = mem_cache w /\ cache_file w' = cache_file w
    end.
Proof.
  revert attempt w. induction remaining as [|remaining IH]; intros attempt w Hloaded.
  { exists None, w. cbn. repeat split; lia. }
  cbn [Geocoder.primary_geocode]. unfold bind at 1. unfold geolocator_geocode at 1.
  destruct (geocode (length (calls w)) (address ++ ", Asheville, NC")%string)
    as [latitude longitude| | |].
  - destruct (validate_coordinates cfg latitude longitude) eqn:E.
    + eexists; eexists. split; [reflexivity|]. cbn. rewrite Hloaded.
      split; [lia|]. split; [exact E|]. split; [reflexivity|].
      destruct (write_ok (writes w)); [right | left]; reflexivity.
    + eexists; eexists. split; [reflexivity|]. cbn. repeat split; lia.
  - eexists; eexists. split; [reflexivity|]. cbn. repeat split; lia.
  - destruct (attempt <? 2)%nat.
    + unfold bind, time_sleep.
      match goal with
      | |- context [Geocoder.primary_geocode _ _ _ _ _ _ ?w0] =>
          destruct (IH (S attempt) w0) as (found & w' & E & Hcalls & Hfound);
          [exact Hloaded|]
      end.
      exists found, w'. rewrite E. cbn in Hcalls. split; [reflexivity|].
      split; [lia|]. exact Hfound.
    + eexists; eexists. split; [reflexivity|]. cbn. repeat split; lia.
  - eexists; eexists. split; [reflexivity|]. cbn. repeat split; lia.
Qed.

(** One resolution: some coordinate comes back after at most five calls to
    the geocoder; it is the cached one on a hit, and on a miss it satisfies
    [P] and is cached under the normalized address. *)
Lemma geocode_address_spec (address : string) (w : World) :
  exists xy w',
    geocode_address address w = (Some xy, w') /\
    (length (calls w) <= length (calls w') <= length (calls w) + 5)%nat /\
    ((loaded_cache w !! strip_title address = Some xy /\ w' = loaded w) \/
     (loaded_cache w !! strip_title address = None /\ P xy /\
      mem_cache w' = Some (<[strip_title address := xy]> (loaded_cache w)) /\
      (cache_file w' = cache_file w \/ cache_file w' = mem_cache w'))).
Proof using P_validated P_center.
  unfold Geocoder.geocode_address.
  assert (Hload : load_geocode_cache w = (loaded_cache w, loaded w)).
  { unfold load_geocode_cache, loaded_cache, loaded.
    destruct w as [[m|] f c d wr s]; reflexivity. }
  unfold bind at 1. rewrite Hload.
  destruct (loaded_cache w !! strip_title address) as [xy|] eqn:Ehit.
  { exists xy, (loaded w). split; [reflexivity|]. cbn. split; [lia|]. left. split; reflexivity. }
  unfold bind at 1.
  destruct (primary_geocode_spec (strip_title address) 3 0 (loaded w))
    as (found & w1 & E1 & Hcalls1 & Hfound); [reflexivity|].
  rewrite E1. cbn [calls loaded] in Hcalls1.
  destruct found as [xy|].
  - destruct Hfound as (Hv & Hm & Hf).
    exists xy, w1. split; [reflexivity|]. split; [lia|]. right.
    split; [reflexivity|]. split; [destruct xy; apply P_validated, Hv|].
    split; [exact Hm | exact Hf].
  - destruct Hfound as (Hm & Hf). unfold bind at 1.
    destruct (fallback_geocode_falls_back (strip_title address) w1)
      as (xy & w2 & E2 & HP & Hm2 & Hf2 & Hw2 & Hcalls2).
    rewrite E2. eexists; eexists. split; [reflexivity|]. cbn.
    split; [lia|]. right. split; [reflexivity|]. split; [exact HP|].
    rewrite Hm2, Hm. cbn [mem_cache loaded]. split; [reflexivity|].
    rewrite Hw2, Hf2, Hf. cbn [cache_file loaded].
    destruct (write_ok (writes w1)); [right | left]; reflexivity.
Qed.

End Chain.

Lemma fallback_center_returns : falls_back (fun _ => True) 0 fallback_center.
Proof.
  intros w. eexists; eexists. split; [reflexivity|]. cbn. repeat split; lia.
Qed.

Lemma loaded_idempotent (w : World) (m : gmap string coords) :
  mem_cache w = Some m -> loaded_cache w = m /\ loaded w = w.
Proof.
  destruct w as [mc f c d wr s]. cbn. intros ->. split; reflexivity.
Qed.

(** C6 (as the code has it). Resolving the same normalized address twice
    returns the identical coordinate both times; the second call is answered
    from the cache, sends nothing to the geocoder and leaves the state as it
    was; the first call sends at most five queries (three primary attempts
    and two fallback tiers). *)
Theorem resolve_twice_same_coordinate (w : World) (address1 address2 : string) :
  strip_title address1 = strip_title address2 ->
  exists xy w1,
    geocode_address address1 w = (Some xy, w1) /\
    geocode_address address2 w1 = (Some xy, w1) /\
    (exists cache,
        mem_cache w1 = Some cache /\ cache !! strip_title address2 = Some xy) /\
    (length (calls w) <= length (calls w1) <= length (calls w) + 5)%nat.
Proof.
  intros Hsame.
  destruct (geocode_address_spec (fun _ => True) (fun _ _ _ => I)
              fallback_center_returns address1 w)
    as (xy & w1 & E1 & Hcalls & Hcase).
  assert (Hcached : exists cache,
             mem_cache w1 = Some cache /\ cache !! strip_title address2 = Some xy).
  { rewrite <- Hsame. destruct Hcase as [[Hhit ->]|(_ & _ & Hm & _)].
    - exists (loaded_cache w). split; [reflexivity | exact Hhit].
    - eexists. split; [exact Hm | apply lookup_insert_eq]. }
  exists xy, w1. split; [exact E1|]. split; [|split; [exact Hcached | exact Hcalls]].
  destruct Hcached as (cache & Hm & Hlookup).
  destruct (loaded_idempotent w1 cache Hm) as [Hlc Hl].
  destruct (geocode_address_spec (fun _ => True) (fun _ _ _ => I)
              fallback_center_returns address2 w1)
    as (xy2 & w2 & E2 & _ & [[Hhit ->]|(Hmiss & _)]).
  - rewrite Hlc, Hlookup in Hhit. injection Hhit as <-. rewrite Hl in E2. exact E2.
  - rewrite Hlc, Hlookup in Hmiss. discriminate.
Qed.

End GeocoderFacts.

Section GeocoderExamples.
Import Geocoder GeocoderSpec StreetSpec.

Lemma resolve_twice_same_coordinate_witness :
  as_is "12 Main St"%string = as_is "12 Main St"%string /\
  exists xy w1,
    geocode_address sample_config no_match (fun _ => 1 / 2)%R (fun _ => true) as_is as_is
      (fun _ => None) "12 Main St" fresh = (Some xy, w1) /\
    geocode_address sample_config no_match (fun _ => 1 / 2)%R (fun _ => true) as_is as_is
      (fun _ => None) "12 Main St" w1 = (Some xy, w1) /\
    (exists cache, mem_cache w1 = Some cache /\ cache !! as_is "12 Main St"%string = Some xy) /\
    (length (calls fresh) <= length (calls w1) <= length (calls fresh) + 5)%nat.
Proof.
  split; [reflexivity|].
  exact (resolve_twice_same_coordinate sample_config no_match (fun _ => 1 / 2)%R
           (fun _ => true) as_is as_is (fun _ => None) fresh "12 Main St" "12 Main St" eq_refl).
Defined.

(** C6 fails as stated: when the geocoder finds nothing for an address, the
    first resolution sends the full address and then the street alone, two
    outbound calls, before it settles on the last resort. *)
Lemma resolve_twice_two_calls_counterexample :
  exists xy w1 w2,
    geocode_address sample_config no_match (fun _ => 1 / 2)%R (fun _ => true) as_is as_is
      (fun _ => None) "Nowhere" fresh = (Some xy, w1) /\
    geocode_address sample_config no_match (fun _ => 1 / 2)%R (fun _ => true) as_is as_is
      (fun _ => None) "Nowhere" w1 = (Some xy, w2) /\
    calls w2 = ["Nowhere, Asheville, NC"; "Nowhere, Asheville, NC"]%string /\
    ~ (length (calls w2) <= 1)%nat.
Proof.
  eexists; eexists; eexists.
  split.
  { unfold geocode_address, bind, load_geocode_cache, fresh. cbn [mem_cache cache_file].
    rewrite lookup_empty. cbn. reflexivity. }
  split.
  { unfold geocode_address, bind, load_geocode_cache. cbn [mem_cache].
    rewrite lookup_insert_eq. reflexivity. }
  split; [reflexivity|]. cbn. lia.
Qed.

End GeocoderExamples.

(** ** Great-circle distance: bounds *)

Module GeoSpec.
Open Scope R_scope.

(** The quantity [a] of the haversine formula. *)
Definition hav (lat1 lon1 lat2 lon2 : R) : R :=
  sin (Geo.radians (lat2 - lat1) / 2) ^ 2 +
  cos (Geo.radians lat1) * cos (Geo.radians lat2) * sin (Geo.radians (lon2 - lon1) / 2) ^ 2.

End GeoSpec.

Section GeoBounds.
Import GeoSpec.
Open Scope R_scope.

(** Two terms of the series for 2 atan(1/3) + atan(1/7) on each side. *)
Lemma PI_bounds : 31415 / 10000 < PI < 31421 / 10000.
Proof.
  pose proof (PI_2_3_7_ineq 1) as [Hlo Hhi].
  unfold tg_alt, PI_2_3_7_tg, Ratan_seq in Hlo, Hhi. simpl in Hlo, Hhi.
  split; lra.
Qed.

(** The first terms of the alternating series bound sine and cosine from
    below. *)
Lemma sin_lower (t : R) : 0 <= t -> t <= PI -> t - t ^ 3 / 6 <= sin t.
Proof.
  intros H0 H1. pose proof (sin_bound t 0 H0 H1) as [Hlo _].
  unfold sin_approx, sin_term in Hlo. simpl in Hlo.
  lra.
Qed.

Lemma cos_lower (t : R) : - (PI / 2) <= t -> t <= PI / 2 -> 1 - t ^ 2 / 2 <= cos t.
Proof.
  intros H0 H1.
  assert (H0' : - PI / 2 <= t) by lra.
  pose proof (cos_bound t 0 H0' H1) as [Hlo _].
  unfold cos_approx, cos_term in Hlo. simpl in Hlo.
  lra.
Qed.

Lemma sin_upper (t : R) : 0 <= t -> sin t <= t.
Proof.
  intros [H|<-]; [left; apply sin_lt_x; exact H | rewrite sin_0; lra].
Qed.

Lemma sin_sq_le (x : R) : sin x ^ 2 <= x ^ 2.
Proof.
  destruct (Rle_dec 0 x) as [H|H].
  - destruct (Rle_dec x PI) as [Hp|Hp].
    + assert (0 <= sin x) by (apply sin_ge_0; lra).
      pose proof (sin_upper x H). nra.
    + pose proof (SIN_bound x). pose proof PI_bounds. nra.
  - assert (Hx : 0 <= - x) by lra.
    destruct (Rle_dec (- x) PI) as [Hp|Hp].
    + assert (0 <= sin (- x)) by (apply sin_ge_0; lra).
      pose proof (sin_upper (- x) Hx). rewrite sin_neg in *. nra.
    + pose proof (SIN_bound x). pose proof PI_bounds. nra.
Qed.

Lemma haversine_distance_hav (lat1 lon1 lat2 lon2 : R) :
  Geo.haversine_distance lat1 lon1 lat2 lon2
  = 3959 * (2 * Geo.atan2 (sqrt (hav lat1 lon1 lat2 lon2))
                          (sqrt (1 - hav lat1 lon1 lat2 lon2))).
Proof. reflexivity. Qed.

(** For [a] in [0, 1) the central angle is twice the arcsine of its root;
    outside that range [math.atan2] gives 0 (below) or [PI / 2] (above). *)
Lemma central_angle_asin (a : R) :
  0 <= a < 1 -> Geo.atan2 (sqrt a) (sqrt (1 - a)) = asin (sqrt a).
Proof.
  intros [H0 H1].
  assert (Hs : 0 < sqrt (1 - a)) by (apply sqrt_lt_R0; lra).
  rewrite atan2_pos by exact Hs.
  assert (Hr : 0 <= sqrt a < 1).
  { split; [apply sqrt_pos|]. rewrite <- sqrt_1. apply sqrt_lt_1; lra. }
  rewrite asin_atan by lra.
  rewrite Rsqr_sqrt by exact H0. reflexivity.
Qed.

Lemma central_angle_nonpos (a : R) : a <= 0 -> Geo.atan2 (sqrt a) (sqrt (1 - a)) = 0.
Proof.
  intros Ha. rewrite (sqrt_neg_0 a Ha).
  assert (Hs : 0 < sqrt (1 - a)) by (apply sqrt_lt_R0; lra).
  rewrite atan2_pos by exact Hs.
  unfold Rdiv. rewrite Rmult_0_l. apply atan_0.
Qed.

Lemma asin_le_iff (y t : R) :
  0 <= y <= 1 -> 0 <= t <= PI / 2 -> (asin y <= t <-> y <= sin t).
Proof.
  intros Hy Ht.
  assert (Hb : - (PI / 2) <= asin y <= PI / 2) by (apply asin_bound).
  assert (Hsin : sin (asin y) = y) by (apply sin_asin; lra).
  split; intros H.
  - rewrite <- Hsin. apply sin_incr_1; lra.
  - apply sin_incr_0; try lra.
Qed.

Lemma sqrt_le_iff (a s : R) : 0 <= a -> 0 <= s -> (sqrt a <= s <-> a <= s ^ 2).
Proof.
  intros Ha Hs. split; intros H.
  - pose proof (sqrt_pos a). rewrite <- (sqrt_sqrt a Ha). nra.
  - rewrite <- (sqrt_pow2 s Hs). apply sqrt_le_1_alt. exact H.
Qed.

(** The distance is within [r] exactly when the haversine of the central
    angle is at most the squared sine of [r / (2 * 3959)]. *)
Lemma haversine_le_iff (a r : R) :
  0 <= a < 1 -> 0 <= r -> r / 7918 <= PI / 2 ->
  (3959 * (2 * Geo.atan2 (sqrt a) (sqrt (1 - a))) <= r <-> a <= sin (r / 7918) ^ 2).
Proof.
  intros Ha Hr Hr2.
  rewrite central_angle_asin by exact Ha.
  assert (Ht : 0 <= r / 7918) by (apply Rmult_le_pos; lra).
  assert (Hy : 0 <= sqrt a <= 1).
  { split; [apply sqrt_pos|]. rewrite <- sqrt_1. apply sqrt_le_1_alt; lra. }
  assert (Hs : 0 <= sin (r / 7918)) by (apply sin_ge_0; pose proof PI_bounds; lra).
  rewrite <- (sqrt_le_iff a (sin (r / 7918))) by lra.
  rewrite <- (asin_le_iff (sqrt a) (r / 7918)) by lra.
  split; intros H; lra.
Qed.

Lemma central_angle_ge_1 (a : R) : 1 <= a -> Geo.atan2 (sqrt a) (sqrt (1 - a)) = PI / 2.
Proof.
  intros Ha. rewrite (sqrt_neg_0 (1 - a)) by lra.
  assert (Hs : 0 < sqrt a) by (apply sqrt_lt_R0; lra).
  unfold Geo.atan2.
  destruct (Rlt_dec 0 0) as [H|_]; [lra|].
  destruct (Rlt_dec 0 (sqrt a)) as [_|H]; [reflexivity | contradiction].
Qed.

Lemma radians_bound (d b : R) : Rabs d <= b -> Rabs (Geo.radians d / 2) <= b * (PI / 360).
Proof.
  intros H. unfold Geo.radians.
  replace (d * (PI / 180) / 2) with (d * (PI / 360)) by field.
  rewrite Rabs_mult. pose proof PI_bounds.
  rewrite (Rabs_pos_eq (PI / 360)) by lra.
  apply Rmult_le_compat_r; lra.
Qed.

Lemma sq_abs_le (x b : R) : Rabs x <= b -> x ^ 2 <= b ^ 2.
Proof.
  intros H. pose proof (Rabs_pos x). rewrite <- (pow2_abs x). nra.
Qed.

(** A point within 0.05 degrees of another on each axis is within 5 miles
    of it. *)
Lemma jitter_within_5_miles (lat lon dlat dlon : R) :
  Rabs dlat <= 5 / 100 -> Rabs dlon <= 5 / 100 ->
  Geo.haversine_distance lat lon (lat + dlat) (lon + dlon) <= 5.
Proof.
  intros Hlat Hlon. rewrite haversine_distance_hav.
  set (a := hav lat lon (lat + dlat) (lon + dlon)).
  destruct (Rle_dec a 0) as [Ha|Ha].
  { rewrite central_angle_nonpos by exact Ha. lra. }
  assert (Hbound : a <= 2 * (437 / 1000000) ^ 2).
  { unfold a, hav.
    replace (lat + dlat - lat) with dlat by ring.
    replace (lon + dlon - lon) with dlon by ring.
    pose proof PI_bounds as HPI.
    assert (Hx : sin (Geo.radians dlat / 2) ^ 2 <= (437 / 1000000) ^ 2).
    { apply Rle_trans with (1 := sin_sq_le _). apply sq_abs_le.
      apply Rle_trans with (1 := radians_bound dlat (5 / 100) Hlat). lra. }
    assert (Hy : sin (Geo.radians dlon / 2) ^ 2 <= (437 / 1000000) ^ 2).
    { apply Rle_trans with (1 := sin_sq_le _). apply sq_abs_le.
      apply Rle_trans with (1 := radians_bound dlon (5 / 100) Hlon). lra. }
    assert (Hy0 : 0 <= sin (Geo.radians dlon / 2) ^ 2) by apply pow2_ge_0.
    pose proof (COS_bound (Geo.radians lat)) as [Hc1 Hc1'].
    pose proof (COS_bound (Geo.radians (lat + dlat))) as [Hc2 Hc2'].
    assert (Hcc : cos (Geo.radians lat) * cos (Geo.radians (lat + dlat)) <= 1) by nra.
    assert (cos (Geo.radians lat) * cos (Geo.radians (lat + dlat))
            * sin (Geo.radians dlon / 2) ^ 2 <= (437 / 1000000) ^ 2) by nra.
    lra. }
  assert (Hsin : 631 / 1000000 <= sin (5 / 7918)).
  { pose proof PI_bounds.
    apply Rle_trans with (2 := sin_lower (5 / 7918) ltac:(lra) ltac:(lra)). lra. }
  apply haversine_le_iff; try lra.
  - pose proof PI_bounds. lra.
  - apply Rle_trans with (1 := Hbound). 
    apply Rle_trans with ((631 / 1000000) ^ 2); [lra|].
    apply pow_incr. lra.
Qed.

(** A point 0.05 degrees south on the same meridian is more than 3 miles
    away. *)
Lemma meridian_step_beyond_3_miles (lat lon : R) :
  3 < Geo.haversine_distance lat lon (lat + - (5 / 100)) lon.
Proof.
  apply Rnot_le_lt. intros Hle. rewrite haversine_distance_hav in Hle.
  pose proof PI_bounds as HPI.
  assert (Ha : hav lat lon (lat + - (5 / 100)) lon = sin (5 / 100 * (PI / 360)) ^ 2).
  { unfold hav, Geo.radians.
    replace (lat + - (5 / 100) - lat) with (- (5 / 100)) by ring.
    replace (lon - lon) with 0 by ring.
    replace (0 * (PI / 180) / 2) with 0 by field. rewrite sin_0.
    replace (- (5 / 100) * (PI / 180) / 2) with (- (5 / 100 * (PI / 360))) by field.
    rewrite sin_neg. ring. }
  rewrite Ha in Hle.
  set (x := 5 / 100 * (PI / 360)) in *.
  assert (Hx : 436 / 1000000 <= x <= 437 / 1000000) by (unfold x; lra).
  assert (Hlo : 435 / 1000000 <= sin x).
  { apply Rle_trans with (2 := sin_lower x ltac:(lra) ltac:(lra)).
    assert (x ^ 3 <= (437 / 1000000) ^ 3) by (apply pow_incr; lra). lra. }
  assert (Hhi : sin x <= 437 / 1000000).
  { apply Rle_trans with (1 := sin_upper x ltac:(lra)). lra. }
  assert (Hrange : 0 <= sin x ^ 2 < 1) by nra.
  apply haversine_le_iff in Hle; try lra.
  assert (Hs : 0 <= sin (3 / 7918) <= 379 / 1000000).
  { split; [apply sin_ge_0; lra|].
    apply Rle_trans with (1 := sin_upper (3 / 7918) ltac:(lra)). lra. }
  nra.
Qed.

Lemma abs_le_inv (x b : R) : Rabs x <= b -> - b <= x <= b.
Proof. unfold Rabs. destruct (Rcase_abs x); lra. Qed.

Lemma sin_sq_le_inv (x t : R) :
  Rabs x <= PI / 2 -> 0 <= t <= PI / 2 -> sin x ^ 2 <= sin t ^ 2 -> Rabs x <= t.
Proof.
  intros Hx Ht Hsq.
  assert (Hst : 0 <= sin t) by (apply sin_ge_0; pose proof PI_bounds; lra).
  assert (Habs : sin (Rabs x) ^ 2 = sin x ^ 2).
  { unfold Rabs. destruct (Rcase_abs x); [rewrite sin_neg; ring | reflexivity]. }
  pose proof (Rabs_pos x) as Hpos.
  assert (Hsx : 0 <= sin (Rabs x)) by (apply sin_ge_0; pose proof PI_bounds; lra).
  apply sin_incr_0; try lra.
  rewrite <- Habs in Hsq. nra.
Qed.

Lemma sin_sq_ge (u v : R) : 0 <= v <= u -> u <= PI / 2 -> sin v ^ 2 <= sin u ^ 2.
Proof.
  intros Hv Hu. pose proof PI_bounds.
  assert (0 <= sin v) by (apply sin_ge_0; lra).
  assert (sin v <= sin u) by (apply sin_incr_1; lra).
  nra.
Qed.

Lemma sin_sq_abs (x : R) : sin (Rabs x) ^ 2 = sin x ^ 2.
Proof. unfold Rabs. destruct (Rcase_abs x); [rewrite sin_neg; ring | reflexivity]. Qed.

(** Further terms of the series bound sine and cosine from above. *)
Lemma sin_upper5 (t : R) : 0 <= t -> t <= PI -> sin t <= t - t ^ 3 / 6 + t ^ 5 / 120.
Proof.
  intros H0 H1. pose proof (sin_bound t 0 H0 H1) as [_ Hhi].
  unfold sin_approx, sin_term in Hhi. simpl in Hhi. lra.
Qed.

Lemma cos_upper4 (t : R) :
  - (PI / 2) <= t -> t <= PI / 2 -> cos t <= 1 - t ^ 2 / 2 + t ^ 4 / 24.
Proof.
  intros H0 H1.
  assert (H0' : - PI / 2 <= t) by lra.
  pose proof (cos_bound t 0 H0' H1) as [_ Hhi].
  unfold cos_approx, cos_term in Hhi. simpl in Hhi. lra.
Qed.

(** At 36 degrees the cosine is still above 0.8089. *)
Lemma cos_36_lower (f : R) : Rabs f <= 62842 / 100000 -> 8089 / 10000 <= cos f.
Proof.
  intros H. apply abs_le_inv in H. pose proof PI_bounds.
  pose proof (cos_bound f 1 ltac:(lra) ltac:(lra)) as [Hlo _].
  unfold cos_approx, cos_term in Hlo. simpl in Hlo.
  set (y := f * f).
  assert (Hy : 0 <= y <= 39492 / 100000) by (unfold y; nra).
  assert (Hp : 1 - y / 2 + y * y / 24 - y * y * y / 720 <= cos f).
  { apply Rle_trans with (2 := Hlo). unfold y. right. field. }
  apply Rle_trans with (2 := Hp).
  assert (H3 : y * y * y <= y * y * (39492 / 100000)) by nra.
  assert (H2 : 0 <= (39492 / 100000 - y) * (1 / 2 - 4111 / 100000 * (y + 39492 / 100000)))
    by (apply Rmult_le_pos; lra).
  nra.
Qed.

(** Twice 36 degrees: the sine is at most 0.9521. *)
Lemma sin_72_upper (f : R) : Rabs f <= 62842 / 100000 -> Rabs (sin (2 * f)) <= 9521 / 10000.
Proof.
  intros H. apply abs_le_inv in H. pose proof PI_bounds as HPI.
  assert (Htop : sin (125684 / 100000) <= 9521 / 10000).
  { apply Rle_trans with (1 := sin_upper5 (125684 / 100000) ltac:(lra) ltac:(lra)). lra. }
  apply Rabs_le. split.
  - apply Rle_trans with (- sin (125684 / 100000)); [lra|].
    rewrite <- sin_neg. apply sin_incr_1; lra.
  - apply Rle_trans with (2 := Htop). apply sin_incr_1; lra.
Qed.

(** The product of the cosines of two latitudes, in terms of the sine of
    half their difference. *)
Lemma cos_product_lower (f1 f2 b : R) :
  Rabs (sin (2 * f1)) <= b ->
  cos f1 ^ 2 * (1 - 2 * sin ((f2 - f1) / 2) ^ 2) - b * Rabs (sin ((f2 - f1) / 2))
  <= cos f1 * cos f2.
Proof.
  intros Hb.
  set (h := (f2 - f1) / 2).
  assert (E : cos f2 = cos f1 * (1 - 2 * sin h * sin h) - sin f1 * (2 * sin h * cos h)).
  { replace f2 with (f1 + 2 * h) by (unfold h; field).
    rewrite cos_plus, cos_2a_sin, sin_2a.
    replace ((f1 + 2 * h - f1) / 2) with h by field. reflexivity. }
  rewrite E.
  rewrite sin_2a in Hb. apply abs_le_inv in Hb.
  pose proof (COS_bound h) as Hc.
  set (x := sin h) in *. set (cd := cos h) in *.
  set (c := cos f1) in *. set (s := sin f1) in *.
  assert (Hb0 : 0 <= b) by lra.
  assert (Hz : - b <= 2 * s * c * cd <= b) by nra.
  pose proof (Rabs_pos x) as Hw. pose proof (Rle_abs x) as Hx1.
  pose proof (Rle_abs (- x)) as Hx2. rewrite Rabs_Ropp in Hx2.
  set (w := Rabs x) in *. set (z := 2 * s * c * cd) in *.
  assert (H2 : z * x <= b * w) by nra.
  replace (c * (c * (1 - 2 * x * x) - s * (2 * x * cd)))
    with (c ^ 2 * (1 - 2 * x ^ 2) - z * x) by (unfold z; ring).
  lra.
Qed.

(** The margin that a degree of longitude of at least 55 miles leaves,
    for half central angles [t] up to 1500 miles: [K] is the squared sine
    of the half-width of the box, [S] that of the half central angle. *)
Lemma box_margin (t w K S c2 : R) :
  0 <= t <= 18945 / 100000 -> 0 <= w <= t ->
  15782 / 10000 * t ^ 2 * (1 - 5263 / 10000 * t ^ 2) <= K ->
  S <= t ^ 2 * (1 - t ^ 2 / 3 + 445 / 10000 * t ^ 4) ->
  6543 / 10000 <= c2 ->
  S + 1 / 1000 * t ^ 2 <= w ^ 2 + K * (c2 * (1 - 2 * w ^ 2) - 9521 / 10000 * w).
Proof.
  intros Ht Hw HK HS Hc.
  set (s := t ^ 2) in *.
  assert (Hs : 0 <= s <= 35892 / 1000000) by (unfold s; nra).
  assert (Hw2 : 0 <= w ^ 2 <= s) by (unfold s; nra).
  set (E0 := 6543 / 10000 * (1 - 2 * w ^ 2) - 9521 / 10000 * w).
  assert (HE0 : 0 <= E0) by (unfold E0; nra).
  assert (HE : E0 <= c2 * (1 - 2 * w ^ 2) - 9521 / 10000 * w) by (unfold E0; nra).
  set (Klo := 15782 / 10000 * s * (1 - 5263 / 10000 * s)) in *.
  assert (HKlo : 0 <= Klo <= 15782 / 10000 * s) by (unfold Klo; nra).
  assert (H1 : Klo * E0 <= K * (c2 * (1 - 2 * w ^ 2) - 9521 / 10000 * w)).
  { apply Rle_trans with (K * E0).
    - apply Rmult_le_compat_r; assumption.
    - apply Rmult_le_compat_l; [lra | exact HE]. }
  apply Rle_trans with (w ^ 2 + Klo * E0); [|lra].
  apply Rle_trans with (s * (1 - s / 3 + 445 / 10000 * s ^ 2) + 1 / 1000 * s).
  { replace (t ^ 4) with (s ^ 2) in HS by (unfold s; ring). lra. }
  (* the terms in w *)
  assert (HA : 9258 / 10000 * w ^ 2 <= w ^ 2 - Klo * (13086 / 10000) * w ^ 2).
  { assert (Klo * (13086 / 10000) <= 742 / 10000) by nra. nra. }
  assert (HB : Klo * (9521 / 10000) * w <= 150261 / 100000 * s * w).
  { apply Rmult_le_compat_r; [lra|]. nra. }
  assert (Hsq : 0 <= (w - 8116 / 10000 * s) ^ 2) by apply pow2_ge_0.
  assert (Hw3 : - (6098 / 10000) * s ^ 2 <= 9258 / 10000 * w ^ 2 - 150261 / 100000 * s * w)
    by nra.
  assert (HC : 103261 / 100000 * s - 5435 / 10000 * s ^ 2 <= Klo * (6543 / 10000)).
  { unfold Klo. nra. }
  replace (w ^ 2 + Klo * E0)
    with (w ^ 2 - Klo * (13086 / 10000) * w ^ 2 - Klo * (9521 / 10000) * w
          + Klo * (6543 / 10000)) by (unfold E0; field).
  assert (Hs2 : 0 <= s ^ 2 <= 35892 / 1000000 * s) by nra.
  assert (Hs3 : 0 <= s ^ 3 <= (35892 / 1000000) * s ^ 2)
    by (replace (s ^ 3) with (s * s ^ 2) by ring; nra).
  nra.
Qed.

Lemma central_angle_ge_0 (a : R) : 0 <= Geo.atan2 (sqrt a) (sqrt (1 - a)).
Proof.
  pose proof PI_bounds.
  destruct (Rle_dec a 0) as [H0 | H0]; [rewrite central_angle_nonpos; lra|].
  destruct (Rle_dec 1 a) as [H1 | H1]; [rewrite central_angle_ge_1; lra|].
  rewrite central_angle_asin by lra.
  assert (Hs : 0 <= sqrt a <= 1).
  { split; [apply sqrt_pos|]. rewrite <- sqrt_1. apply sqrt_le_1_alt; lra. }
  pose proof (asin_bound (sqrt a)) as Hb.
  apply sin_incr_0; try lra.
  rewrite sin_0, sin_asin by lra. lra.
Qed.

(** At latitudes up to 36 degrees and for radii up to 1500 miles, a point
    within the radius differs from the centre by at most radius/69 degrees
    of latitude and radius/55 degrees of longitude. *)
Lemma box_conservative (lat lng plat plng r : R) :
  Rabs lat <= 36 -> r <= 1500 -> Rabs plat <= 90 -> Rabs (plng - lng) <= 180 ->
  Geo.haversine_distance lat lng plat plng <= r ->
  Rabs (plat - lat) <= r / 69 /\ Rabs (plng - lng) <= r / 55.
Proof.
  intros Hlat Hr1500 Hplat Hdlng Hd.
  pose proof PI_bounds as HPI.
  rewrite haversine_distance_hav in Hd.
  set (a := hav lat lng plat plng) in *.
  assert (Hr0 : 0 <= r) by (pose proof (central_angle_ge_0 a); lra).
  set (f1 := Geo.radians lat). set (f2 := Geo.radians plat).
  set (sn := sin (Geo.radians (plat - lat) / 2)).
  set (T := sin (Geo.radians (plng - lng) / 2)).
  assert (Ha : a = sn ^ 2 + cos f1 * cos f2 * T ^ 2) by reflexivity.
  assert (Hhalf : Geo.radians (plat - lat) / 2 = (f2 - f1) / 2)
    by (unfold f1, f2, Geo.radians; field).
  assert (Hf1 : Rabs f1 <= 62842 / 100000).
  { unfold f1, Geo.radians. rewrite Rabs_mult, (Rabs_pos_eq (PI / 180)) by lra.
    pose proof (Rabs_pos lat). nra. }
  assert (Hf2 : Rabs f2 <= 90 * (PI / 180)).
  { unfold f2, Geo.radians. rewrite Rabs_mult, (Rabs_pos_eq (PI / 180)) by lra.
    apply Rmult_le_compat_r; lra. }
  pose proof (cos_36_lower f1 Hf1) as Hc1.
  pose proof (cos_product_lower f1 f2 _ (sin_72_upper f1 Hf1)) as Hprod.
  apply abs_le_inv in Hf1. apply abs_le_inv in Hf2.
  assert (Hc2 : 0 <= cos f2) by (apply cos_ge_0; lra).
  assert (HS : 0 <= sn ^ 2) by apply pow2_ge_0.
  assert (HT : 0 <= T ^ 2) by apply pow2_ge_0.
  assert (HP : 0 <= cos f1 * cos f2) by (apply Rmult_le_pos; lra).
  assert (Hcc : 0 <= cos f1 * cos f2 * T ^ 2) by (apply Rmult_le_pos; assumption).
  assert (Ha1 : a < 1).
  { apply Rnot_le_lt. intros H1. rewrite central_angle_ge_1 in Hd by exact H1. lra. }
  apply haversine_le_iff in Hd; [|lra|lra|lra].
  set (t := r / 7918) in *.
  assert (Ht : 0 <= t <= 18945 / 100000) by (unfold t; lra).
  assert (Hst : 0 <= sin t <= t).
  { split; [apply sin_ge_0; lra | apply sin_upper; lra]. }
  (* latitude *)
  assert (Hdlat : Rabs (Geo.radians (plat - lat) / 2) <= t).
  { apply sin_sq_le_inv; [|lra|fold sn; lra].
    rewrite Hhalf. apply Rabs_le. lra. }
  assert (Hlatdeg : Rabs (plat - lat) * (PI / 360) <= t).
  { unfold Geo.radians in Hdlat.
    replace ((plat - lat) * (PI / 180) / 2) with ((plat - lat) * (PI / 360)) in Hdlat by field.
    rewrite Rabs_mult, (Rabs_pos_eq (PI / 360)) in Hdlat by lra. exact Hdlat. }
  assert (Hlatres : Rabs (plat - lat) <= r / 69).
  { pose proof (Rabs_pos (plat - lat)). unfold t in Hlatdeg. nra. }
  split; [exact Hlatres|].
  (* longitude *)
  apply Rnot_lt_le. intros Hfar.
  set (u := Rabs (Geo.radians (plng - lng) / 2)).
  set (v := r / 55 * (PI / 360)).
  assert (Hu : u = Rabs (plng - lng) * (PI / 360)).
  { unfold u, Geo.radians.
    replace ((plng - lng) * (PI / 180) / 2) with ((plng - lng) * (PI / 360)) by field.
    rewrite Rabs_mult, (Rabs_pos_eq (PI / 360)) by lra. reflexivity. }
  assert (Hvu : v < u) by (rewrite Hu; unfold v; apply Rmult_lt_compat_r; lra).
  assert (Hu2 : u <= PI / 2) by (rewrite Hu; nra).
  assert (Hvt : 125628 / 100000 * t <= v <= 1256523 / 1000000 * t)
    by (unfold v, t; nra).
  assert (Hv0 : 0 <= v <= 2381 / 10000) by nra.
  assert (HTu : T ^ 2 = sin u ^ 2) by (unfold T, u; rewrite sin_sq_abs; reflexivity).
  assert (HTv : sin v ^ 2 <= T ^ 2) by (rewrite HTu; apply sin_sq_ge; lra).
  (* the squared sine of the half-width of the box, from below *)
  assert (HK : 15782 / 10000 * t ^ 2 * (1 - 5263 / 10000 * t ^ 2) <= sin v ^ 2).
  { pose proof (sin_lower v ltac:(lra) ltac:(lra)) as Hsv.
    assert (Hv2 : 15782 / 10000 * t ^ 2 <= v ^ 2 <= 157886 / 100000 * t ^ 2) by nra.
    assert (Hq : 0 <= 1 - v ^ 2 / 6) by nra.
    assert (Hsv' : v * (1 - v ^ 2 / 6) <= sin v) by (apply Rle_trans with (2 := Hsv); right; field).
    assert (Hsq : (v * (1 - v ^ 2 / 6)) ^ 2 <= sin v ^ 2)
      by (apply pow_incr; split; [apply Rmult_le_pos; lra | exact Hsv']).
    assert (Hq2 : 1 - v ^ 2 / 3 <= (1 - v ^ 2 / 6) ^ 2) by nra.
    assert (Hq3 : 1 - 5263 / 10000 * t ^ 2 <= 1 - v ^ 2 / 3) by nra.
    assert (Hq4 : 0 <= 1 - 5263 / 10000 * t ^ 2) by nra.
    apply Rle_trans with (2 := Hsq).
    replace ((v * (1 - v ^ 2 / 6)) ^ 2) with (v ^ 2 * (1 - v ^ 2 / 6) ^ 2) by ring.
    apply Rle_trans with (v ^ 2 * (1 - 5263 / 10000 * t ^ 2)).
    - apply Rmult_le_compat_r; lra.
    - apply Rmult_le_compat_l; [nra | lra]. }
  (* the squared sine of half the central angle, from above *)
  assert (HSt : sin t ^ 2 <= t ^ 2 * (1 - t ^ 2 / 3 + 445 / 10000 * t ^ 4)).
  { pose proof (sin_upper5 t ltac:(lra) ltac:(lra)) as Hup.
    set (p := 1 - t ^ 2 / 6 + t ^ 4 / 120).
    assert (Hup' : sin t <= t * p) by (apply Rle_trans with (1 := Hup); right; unfold p; field).
    assert (Ht2 : 0 <= t ^ 2 <= 36 / 1000) by nra.
    assert (Ht4 : 0 <= t ^ 4 <= 36 / 1000 * t ^ 2)
      by (replace (t ^ 4) with (t ^ 2 * t ^ 2) by ring; nra).
    assert (Hp : 0 <= p <= 1) by (unfold p; lra).
    assert (Hsq : sin t ^ 2 <= (t * p) ^ 2) by (apply pow_incr; lra).
    apply Rle_trans with (1 := Hsq).
    replace ((t * p) ^ 2) with (t ^ 2 * p ^ 2) by ring.
    apply Rmult_le_compat_l; [lra|].
    set (q := t ^ 2 / 6 - t ^ 4 / 120).
    assert (Hq : 0 <= q <= t ^ 2 / 6) by (unfold q; lra).
    replace p with (1 - q) by (unfold p, q; ring).
    assert (Hqq : q ^ 2 <= (t ^ 2 / 6) ^ 2) by (apply pow_incr; lra).
    replace ((t ^ 2 / 6) ^ 2) with (t ^ 4 / 36) in Hqq by field.
    unfold q in *. nra. }
  (* the haversine from below *)
  set (w := Rabs sn).
  assert (Hw : 0 <= w <= t).
  { split; [apply Rabs_pos|]. unfold w.
    assert (Hsn2 : sn ^ 2 <= sin t ^ 2) by lra.
    rewrite <- (pow2_abs sn) in Hsn2. pose proof (Rabs_pos sn). nra. }
  assert (Hww : w ^ 2 = sn ^ 2) by (unfold w; apply pow2_abs).
  rewrite <- Hhalf in Hprod. fold sn in Hprod. fold w in Hprod.
  assert (Hc12 : 6543 / 10000 <= cos f1 ^ 2) by nra.
  pose proof (box_margin t w (sin v ^ 2) (sin t ^ 2) (cos f1 ^ 2) Ht Hw HK HSt Hc12)
    as Hmargin.
  assert (Hlow : w ^ 2 + sin v ^ 2 * (cos f1 ^ 2 * (1 - 2 * w ^ 2) - 9521 / 10000 * w) <= a).
  { rewrite Ha, Hww.
    assert (sin v ^ 2 * (cos f1 ^ 2 * (1 - 2 * sn ^ 2) - 9521 / 10000 * w)
            <= cos f1 * cos f2 * T ^ 2).
    { apply Rle_trans with (sin v ^ 2 * (cos f1 * cos f2)).
      - apply Rmult_le_compat_l; [apply pow2_ge_0 | lra].
      - rewrite (Rmult_comm (sin v ^ 2)). apply Rmult_le_compat_l; assumption. }
    lra. }
  assert (Ht0 : t = 0) by nra.
  assert (Hrz : r = 0) by (unfold t in Ht0; lra).
  assert (Hsu : 0 < sin u) by (apply sin_gt_0; lra).
  rewrite Ht0, sin_0 in Hd.
  assert (Hw0 : w = 0) by lra.
  assert (Hsn0 : sn ^ 2 = 0) by (rewrite <- Hww, Hw0; ring).
  rewrite Hw0, Hsn0 in Hprod.
  assert (Hpos : 0 < cos f1 * cos f2) by lra.
  assert (Hsu2 : 0 < sin u ^ 2) by nra.
  rewrite Ha, HTu in Hd.
  assert (0 < cos f1 * cos f2 * sin u ^ 2) by (apply Rmult_lt_0_compat; assumption).
  lra.
Qed.

End GeoBounds.

(** ** Plausibility of resolved coordinates *)

Module PlausibilitySpec.
Import Geocoder GeocoderSpec StreetSpec.
Open Scope R_scope.

(** The sample configuration with a validity radius of 3 miles. *)
Definition tight_config : Config := {|
  threshold_green := threshold_green sample_config;
  threshold_light_green := threshold_light_green sample_config;
  threshold_yellow := threshold_yellow sample_config;
  max_price := max_price sample_config;
  min_lot_size := min_lot_size sample_config;
  allowed_zone_colors := allowed_zone_colors sample_config;
  market_heat_allowed := market_heat_allowed sample_config;
  min_nearby_price_sqft := min_nearby_price_sqft sample_config;
  min_recent_sales := min_recent_sales sample_config;
  weight_zone_color := weight_zone_color sample_config;
  weight_market_heat := weight_market_heat sample_config;
  weight_price_opportunity := weight_price_opportunity sample_config;
  weight_recent_sales := weight_recent_sales sample_config;
  level_urgent := level_urgent sample_config;
  level_good := level_good sample_config;
  city_center_lat := city_center_lat sample_config;
  city_center_lon := city_center_lon sample_config;
  radius_miles := 3 |}.

(** Random numbers that put the last resort 0.05 degrees south of the
    centre, on its meridian. *)
Definition south_draw (n : nat) : R :=
  match n with
  | O => 0
  | S _ => 1 / 2
  end.

(** The coordinate passed the plausibility check, or it lies within 0.05
    degrees of the centre on each axis. *)
Definition checked_or_near_center (cfg : Config) (xy : coords) : Prop :=
  validate_coordinates cfg (fst xy) (snd xy) = true \/ near_center cfg xy.

End PlausibilitySpec.

Section PlausibilityFacts.
Import Geocoder GeocoderSpec PlausibilitySpec.
Open Scope R_scope.

Variable cfg : Config.
Variable geocode : nat -> string -> reply.
Variable random : nat -> R.
Variable write_ok : nat -> bool.
Variable strip_title : string -> string.
Variable extract_street_name : string -> string.
Variable search_zip : string -> option string.

Lemma validated_is_plausible (lat lon : R) :
  validate_coordinates cfg lat lon = true -> plausible cfg (lat, lon).
Proof.
  unfold validate_coordinates, plausible, Geo.leb. cbn [fst snd].
  destruct (Rle_dec _ _) as [H|H]; [intros _; exact H | discriminate].
Qed.

Lemma near_center_is_plausible (xy : coords) :
  5 <= radius_miles cfg -> near_center cfg xy -> plausible cfg xy.
Proof.
  intros Hr [Hlat Hlon]. unfold plausible.
  replace (fst xy) with (city_center_lat cfg + (fst xy - city_center_lat cfg)) at 1 by ring.
  replace (snd xy) with (city_center_lon cfg + (snd xy - city_center_lon cfg)) at 1 by ring.
  apply Rle_trans with (2 := Hr). apply jitter_within_5_miles; assumption.
Qed.

Lemma checked_or_near_center_is_plausible (xy : coords) :
  5 <= radius_miles cfg -> checked_or_near_center cfg xy -> plausible cfg xy.
Proof.
  intros Hr [H|H].
  - destruct xy as [lat lon]. apply validated_is_plausible, H.
  - apply near_center_is_plausible; assumption.
Qed.

Hypothesis random_unit : forall n, 0 <= random n < 1.

Lemma fallback_center_near_center :
  falls_back (checked_or_near_center cfg) 0 (fallback_center cfg random).
Proof using random_unit.
  intros w. eexists; eexists. split; [reflexivity|]. cbn.
  split; [|repeat split; lia].
  right. unfold near_center. cbn [fst snd].
  pose proof (random_unit (draws w)). pose proof (random_unit (S (draws w))).
  split; apply Rabs_le; lra.
Qed.

(** C2 (as the code has it). Resolving an address always returns some
    coordinate. On a cache miss that coordinate either passed the
    plausibility check (primary geocoder, street tier or postal-code tier) or
    is the last resort, the centre moved by at most 0.05 degrees on each
    axis, which is returned unchecked. When the validity radius is at least
    5 miles the coordinate of a miss is within the radius of the centre, and
    a cache whose entries are all within the radius answers within the
    radius and stays that way. *)
Theorem resolve_returns_plausible_coordinate (w : World) (address : string) :
  exists xy w',
    geocode_address cfg geocode random write_ok strip_title extract_street_name
      search_zip address w = (Some xy, w') /\
    (loaded_cache w !! strip_title address = None -> checked_or_near_center cfg xy) /\
    (5 <= radius_miles cfg ->
     loaded_cache w !! strip_title address = None -> plausible cfg xy) /\
    (5 <= radius_miles cfg ->
     plausible_caches cfg w -> plausible cfg xy /\ plausible_caches cfg w').
Proof using random_unit.
  destruct (geocode_address_spec cfg geocode random write_ok strip_title
              extract_street_name search_zip (checked_or_near_center cfg)
              (fun lat lon H => or_introl H) fallback_center_near_center address w)
    as (xy & w' & E & _ & Hcase).
  exists xy, w'. split; [exact E|].
  assert (Hmiss : loaded_cache w !! strip_title address = None ->
                  checked_or_near_center cfg xy).
  { intros Hnone. destruct Hcase as [[Hhit _]|(_ & HP & _)]; [congruence | exact HP]. }
  split; [exact Hmiss|]. split.
  { intros Hr Hnone. apply checked_or_near_center_is_plausible; auto. }
  intros Hr [Hmem Hfile].
  assert (Hloaded : map_Forall (fun _ xy => plausible cfg xy) (loaded_cache w)).
  { unfold loaded_cache. destruct (mem_cache w) as [m|]; [apply Hmem; reflexivity|].
    destruct (cache_file w) as [m|]; [apply Hfile; reflexivity | apply map_Forall_empty]. }
  destruct Hcase as [[Hhit ->]|(Hnone & HP & Hm & Hf)].
  - split; [exact (Hloaded _ _ Hhit)|].
    split; cbn [mem_cache cache_file loaded]; [intros m [= <-]; exact Hloaded | exact Hfile].
  - assert (Hxy : plausible cfg xy) by (apply checked_or_near_center_is_plausible; auto).
    assert (Hnew : map_Forall (fun _ xy => plausible cfg xy)
                     (<[strip_title address := xy]> (loaded_cache w)))
      by (apply map_Forall_insert_2; assumption).
    split; [exact Hxy|]. split.
    + intros m Hm'. rewrite Hm in Hm'. injection Hm' as <-. exact Hnew.
    + intros m Hf'. destruct Hf as [Hf|Hf]; rewrite Hf in Hf'.
      * apply Hfile; exact Hf'.
      * rewrite Hm in Hf'. injection Hf' as <-. exact Hnew.
Qed.

End PlausibilityFacts.

Section PlausibilityExamples.
Import Geocoder GeocoderSpec PlausibilitySpec StreetSpec.
Open Scope R_scope.

Lemma resolve_returns_plausible_coordinate_witness :
  (forall n : nat, 0 <= (fun _ : nat => 1 / 2) n < 1) /\
  exists xy w',
    geocode_address sample_config no_match (fun _ => 1 / 2) (fun _ => true) as_is as_is
      (fun _ => None) "Nowhere" fresh = (Some xy, w') /\
    (loaded_cache fresh !! as_is "Nowhere"%string = None ->
     checked_or_near_center sample_config xy) /\
    (5 <= radius_miles sample_config ->
     loaded_cache fresh !! as_is "Nowhere"%string = None -> plausible sample_config xy) /\
    (5 <= radius_miles sample_config ->
     plausible_caches sample_config fresh ->
     plausible sample_config xy /\ plausible_caches sample_config w').
Proof.
  assert (H : forall n : nat, 0 <= (fun _ : nat => 1 / 2) n < 1) by (intros n; lra).
  split; [exact H|].
  exact (resolve_returns_plausible_coordinate sample_config no_match (fun _ => 1 / 2)
           (fun _ => true) as_is as_is (fun _ => None) H fresh "Nowhere").
Defined.

(** C2 fails as stated: with a validity radius of 3 miles and an address the
    geocoder does not know, the last resort can fall 0.05 degrees south of
    the centre, about 3.45 miles away, and is returned all the same. *)
Lemma resolve_last_resort_counterexample :
  (forall n, 0 <= south_draw n < 1) /\
  exists xy w',
    geocode_address tight_config no_match south_draw (fun _ => true) as_is as_is
      (fun _ => None) "Nowhere" fresh = (Some xy, w') /\
    ~ plausible tight_config xy.
Proof.
  split; [intros [|n]; cbn; lra|].
  eexists; eexists. split.
  { unfold geocode_address, bind, load_geocode_cache, fresh. cbn [mem_cache cache_file].
    rewrite lookup_empty. cbn. reflexivity. }
  unfold plausible. cbn [fst snd city_center_lat city_center_lon radius_miles
                         tight_config south_draw draws].
  intros Hle.
  pose proof (meridian_step_beyond_3_miles (355951 / 10000) (- (825515 / 10000))) as Hfar.
  change (city_center_lat sample_config) with (355951 / 10000) in Hle.
  change (city_center_lon sample_config) with (- (825515 / 10000)) in Hle.
  replace (355951 / 10000 + (- (5 / 100) + (5 / 100 - - (5 / 100)) * 0))
    with (355951 / 10000 + - (5 / 100)) in Hle by ring.
  replace (- (825515 / 10000) + (- (5 / 100) + (5 / 100 - - (5 / 100)) * (1 / 2)))
    with (- (825515 / 10000)) in Hle by field.
  lra.
Qed.

End PlausibilityExamples.

(** ** The bounding box of the radius query *)

Module ZoneSpec.
Import Database ZoneAnalyzer.
Open Scope R_scope.

(** The radius query without the bounding box: the priced, current rows
    within the radius by the exact distance. *)
Definition pure_haversine_filter (db : DB) (lat lng radius_miles : R) : list Property :=
  List.filter (fun prop =>
    priced_and_current prop &&
    match latitude prop, longitude prop with
    | Some plat, Some plng => Geo.leb (calculate_distance lat lng plat plng) radius_miles
    | _, _ => false
    end) (properties db).

(** A listing two degrees east of a centre at 60 degrees north. *)
Definition northern_listing : Property := {|
  id := 1; street_name := Some "Storgata"%string; city := "Oslo";
  zip := None; latitude := Some 60; longitude := Some 2;
  sale_price := None; list_price := Some 500000%Q; sqft := Some 1500%Q;
  price_per_sqft := Some 333%Q; lot_size := None; status := "active";
  sale_date := None; days_on_market := None; archived := false |}.

Definition northern_db : DB := {|
  properties := [northern_listing];
  street_analysis := []; market_heat_zones := []; land_opportunities := [] |}.

(** A repository with one priced listing at a coordinate. *)
Definition listing_at (plat plng : R) : Property := {|
  id := 1; street_name := Some "Main St"%string; city := "Asheville";
  zip := None; latitude := Some plat; longitude := Some plng;
  sale_price := None; list_price := Some 500000%Q; sqft := Some 1500%Q;
  price_per_sqft := Some 333%Q; lot_size := None; status := "active";
  sale_date := None; days_on_market := None; archived := false |}.

Definition single_db (plat plng : R) : DB := {|
  properties := [listing_at plat plng];
  street_analysis := []; market_heat_zones := []; land_opportunities := [] |}.

End ZoneSpec.

Section BoundingBoxFacts.
Import Database ZoneAnalyzer ZoneSpec GeoSpec.
Open Scope R_scope.

Lemma calculate_distance_haversine (lat1 lon1 lat2 lon2 : R) :
  calculate_distance lat1 lon1 lat2 lon2 = Geo.haversine_distance lat1 lon1 lat2 lon2.
Proof.
  unfold calculate_distance, Geo.haversine_distance, Geo.radians.
  replace (lat2 * (PI / 180) - lat1 * (PI / 180)) with ((lat2 - lat1) * (PI / 180)) by ring.
  replace (lon2 * (PI / 180) - lon1 * (PI / 180)) with ((lon2 - lon1) * (PI / 180)) by ring.
  reflexivity.
Qed.

Lemma filter_filter_andb {A} (f g : A -> bool) (l : list A) :
  List.filter f (List.filter g l) = List.filter (fun x => g x && f x) l.
Proof.
  induction l as [|x l IH]; [reflexivity|].
  cbn [List.filter]. destruct (g x); cbn [List.filter andb]; rewrite IH; reflexivity.
Qed.

Lemma nearby_properties_filter (db : DB) (lat lng radius_miles : R) :
  nearby_properties db lat lng radius_miles
  = List.filter (fun prop =>
      (in_bounding_box lat lng radius_miles prop && priced_and_current prop) &&
      match latitude prop, longitude prop with
      | Some plat, Some plng => Geo.leb (calculate_distance lat lng plat plng) radius_miles
      | _, _ => false
      end) (properties db).
Proof. unfold nearby_properties, bounding_box_query. apply filter_filter_andb. Qed.

Lemma geo_leb_inv (x y : R) : Geo.leb x y = true -> x <= y.
Proof. unfold Geo.leb. destruct (Rle_dec x y); [trivial | discriminate]. Qed.

(** The pre-filter only ever removes rows: what the radius query returns,
    the exact filter returns too. *)
Lemma nearby_properties_subset (db : DB) (lat lng radius_miles : R) (prop : Property) :
  In prop (nearby_properties db lat lng radius_miles) ->
  In prop (pure_haversine_filter db lat lng radius_miles).
Proof.
  rewrite nearby_properties_filter. unfold pure_haversine_filter.
  rewrite !filter_In. intros [Hin H]. split; [exact Hin|].
  apply andb_true_iff in H. destruct H as [H1 H2].
  apply andb_true_iff in H1. destruct H1 as [_ H1]. rewrite H1, H2. reflexivity.
Qed.

(** C7 (as the code has it). For a centre at a latitude within 36 degrees of
    the equator and a radius of at most 1500 miles, the bounding box of
    radius/69 degrees of latitude and radius/55 degrees of longitude
    excludes no row that the exact distance check includes, when the row's
    latitude is within 90 degrees and its longitude within 180 degrees of
    the centre's; the box never adds a row. Hence the radius query returns
    what the pure haversine filter returns when the rows within the radius
    have such coordinates. *)
Theorem bounding_box_keeps_every_nearby_row (db : DB) (lat lng radius_miles : R) :
  Rabs lat <= 36 ->
  radius_miles <= 1500 ->
  (forall prop plat plng,
      In prop (pure_haversine_filter db lat lng radius_miles) ->
      latitude prop = Some plat -> longitude prop = Some plng ->
      Rabs plat <= 90 -> Rabs (plng - lng) <= 180 ->
      In prop (nearby_properties db lat lng radius_miles)) /\
  (forall prop,
      In prop (nearby_properties db lat lng radius_miles) ->
      In prop (pure_haversine_filter db lat lng radius_miles)) /\
  ((forall prop plat plng,
       In prop (pure_haversine_filter db lat lng radius_miles) ->
       latitude prop = Some plat -> longitude prop = Some plng ->
       Rabs plat <= 90 /\ Rabs (plng - lng) <= 180) ->
   nearby_properties db lat lng radius_miles
   = pure_haversine_filter db lat lng radius_miles).
Proof.
  intros Hlat Hr.
  assert (Hbox : forall prop plat plng,
             latitude prop = Some plat -> longitude prop = Some plng ->
             Rabs plat <= 90 -> Rabs (plng - lng) <= 180 ->
             Geo.leb (calculate_distance lat lng plat plng) radius_miles = true ->
             in_bounding_box lat lng radius_miles prop = true).
  { intros prop plat plng Eplat Eplng Hplat Hplng Ed.
    unfold in_bounding_box. rewrite Eplat, Eplng.
    apply geo_leb_inv in Ed. rewrite calculate_distance_haversine in Ed.
    destruct (box_conservative lat lng plat plng radius_miles Hlat Hr Hplat Hplng Ed)
      as [Hdlat Hdlng].
    apply abs_le_inv in Hdlat. apply abs_le_inv in Hdlng.
    rewrite !geo_leb_true by lra. reflexivity. }
  split; [|split].
  - intros prop plat plng Hin Eplat Eplng Hplat Hplng.
    rewrite nearby_properties_filter. unfold pure_haversine_filter in Hin.
    apply filter_In in Hin. destruct Hin as [Hin H]. apply filter_In.
    split; [exact Hin|].
    apply andb_true_iff in H. destruct H as [Hpriced Hd]. rewrite Hpriced, Hd.
    rewrite Eplat, Eplng in Hd.
    rewrite (Hbox prop plat plng Eplat Eplng Hplat Hplng Hd). reflexivity.
  - apply nearby_properties_subset.
  - intros Hvalid. rewrite nearby_properties_filter. unfold pure_haversine_filter.
    apply filter_ext_in. intros prop Hin.
    destruct (priced_and_current prop) eqn:Epriced;
      [|rewrite andb_false_r; reflexivity].
    destruct (latitude prop) as [plat|] eqn:Eplat;
      [|rewrite !andb_false_r; reflexivity].
    destruct (longitude prop) as [plng|] eqn:Eplng;
      [|rewrite !andb_false_r; reflexivity].
    destruct (Geo.leb (calculate_distance lat lng plat plng) radius_miles) eqn:Ed;
      [|rewrite !andb_false_r; reflexivity].
    assert (Hpure : In prop (pure_haversine_filter db lat lng radius_miles)).
    { unfold pure_haversine_filter. apply filter_In. split; [exact Hin|].
      rewrite Epriced, Eplat, Eplng, Ed. reflexivity. }
    destruct (Hvalid prop plat plng Hpure Eplat Eplng) as [Hplat Hplng].
    rewrite (Hbox prop plat plng Eplat Eplng Hplat Hplng Ed). reflexivity.
Qed.

Lemma northern_listing_within_100_miles : calculate_distance 60 0 60 2 <= 100.
Proof.
  rewrite calculate_distance_haversine, haversine_distance_hav.
  pose proof PI_bounds as HPI.
  assert (Ha : hav 60 0 60 2 = / 4 * sin (PI / 180) ^ 2).
  { unfold hav, Geo.radians.
    replace ((60 - 60) * (PI / 180) / 2) with 0 by field. rewrite sin_0.
    replace (60 * (PI / 180)) with (PI / 3) by field. rewrite cos_PI3.
    replace ((2 - 0) * (PI / 180) / 2) with (PI / 180) by field. field. }
  rewrite Ha.
  assert (Hs : 0 <= sin (PI / 180) <= 1746 / 100000).
  { split; [apply sin_ge_0; lra|].
    apply Rle_trans with (1 := sin_upper (PI / 180) ltac:(lra)). lra. }
  assert (Ht : 126 / 10000 <= sin (100 / 7918)).
  { apply Rle_trans with (2 := sin_lower (100 / 7918) ltac:(lra) ltac:(lra)). lra. }
  apply haversine_le_iff; [nra | lra | lra | nra].
Qed.

(** Across the antimeridian: 0.2 degrees of longitude at the equator. *)
Lemma dateline_listing_within_100_miles :
  calculate_distance 0 (1799 / 10) 0 (- (1799 / 10)) <= 100.
Proof.
  rewrite calculate_distance_haversine, haversine_distance_hav.
  pose proof PI_bounds as HPI.
  assert (Ha : hav 0 (1799 / 10) 0 (- (1799 / 10)) = sin (PI / 1800) ^ 2).
  { unfold hav, Geo.radians.
    replace ((0 - 0) * (PI / 180) / 2) with 0 by field. rewrite sin_0.
    replace (0 * (PI / 180)) with 0 by field. rewrite cos_0.
    replace ((- (1799 / 10) - 1799 / 10) * (PI / 180) / 2)
      with (- (PI - PI / 1800)) by field.
    rewrite sin_neg, sin_PI_x. ring. }
  rewrite Ha.
  assert (Hs : 0 <= sin (PI / 1800) <= 175 / 100000).
  { split; [apply sin_ge_0; lra|].
    apply Rle_trans with (1 := sin_upper (PI / 1800) ltac:(lra)). lra. }
  assert (Ht : 126 / 10000 <= sin (100 / 7918)).
  { apply Rle_trans with (2 := sin_lower (100 / 7918) ltac:(lra) ltac:(lra)). lra. }
  apply haversine_le_iff; [nra | lra | lra | nra].
Qed.

(** From 36 degrees north to a point 6.2 degrees further north and 36.6
    degrees to the east: about 1990 miles. *)
Lemma far_listing_within_2000_miles :
  calculate_distance 36 0 (211 / 5) (183 / 5) <= 2000.
Proof.
  rewrite calculate_distance_haversine, haversine_distance_hav.
  pose proof PI_bounds as HPI.
  unfold hav, Geo.radians.
  replace ((211 / 5 - 36) * (PI / 180) / 2) with (31 * PI / 1800) by field.
  replace ((183 / 5 - 0) * (PI / 180) / 2) with (61 * PI / 600) by field.
  replace (36 * (PI / 180)) with (PI / 5) by field.
  replace (211 / 5 * (PI / 180)) with (211 * PI / 900) by field.
  assert (H3 : 0 <= sin (31 * PI / 1800) <= 54115 / 1000000).
  { split; [apply sin_ge_0; lra|].
    apply Rle_trans with (1 := sin_upper (31 * PI / 1800) ltac:(lra)). lra. }
  assert (H36 : 0 <= cos (PI / 5) <= 80912 / 100000).
  { split; [apply cos_ge_0; lra|].
    apply Rle_trans with (1 := cos_upper4 (PI / 5) ltac:(lra) ltac:(lra)).
    set (x := PI / 5). assert (Hx : 6283 / 10000 <= x <= 62842 / 100000) by (unfold x; lra).
    assert (Hx2 : 39476 / 100000 <= x ^ 2 <= 39492 / 100000) by nra.
    assert (Hx4 : x ^ 4 <= (39492 / 100000) ^ 2)
      by (replace (x ^ 4) with ((x ^ 2) ^ 2) by ring; apply pow_incr; lra).
    lra. }
  assert (H42 : 0 <= cos (211 * PI / 900) <= 74111 / 100000).
  { split; [apply cos_ge_0; lra|].
    apply Rle_trans with (1 := cos_upper4 (211 * PI / 900) ltac:(lra) ltac:(lra)).
    set (x := 211 * PI / 900).
    assert (Hx : 73650 / 100000 <= x <= 73665 / 100000) by (unfold x; lra).
    assert (Hx2 : 54243 / 100000 <= x ^ 2 <= 54266 / 100000) by nra.
    assert (Hx4 : x ^ 4 <= (54266 / 100000) ^ 2)
      by (replace (x ^ 4) with ((x ^ 2) ^ 2) by ring; apply pow_incr; lra).
    lra. }
  assert (H18 : 0 <= sin (61 * PI / 600) <= 31406 / 100000).
  { split; [apply sin_ge_0; lra|].
    apply Rle_trans with (1 := sin_upper5 (61 * PI / 600) ltac:(lra) ltac:(lra)).
    set (x := 61 * PI / 600).
    assert (Hx : 319385 / 1000000 <= x <= 319447 / 1000000) by (unfold x; lra).
    assert (Hx2 : 102006 / 1000000 <= x ^ 2 <= 102047 / 1000000) by nra.
    assert (Hx3 : 102006 / 1000000 * (319385 / 1000000) <= x ^ 3)
      by (replace (x ^ 3) with (x ^ 2 * x) by ring; nra).
    assert (Hx5 : x ^ 5 <= (102047 / 1000000) ^ 2 * (319447 / 1000000)).
    { replace (x ^ 5) with ((x ^ 2) ^ 2 * x) by ring.
      assert ((x ^ 2) ^ 2 <= (102047 / 1000000) ^ 2) by (apply pow_incr; lra).
      nra. }
    lra. }
  assert (Ht : 2499 / 10000 <= sin (2000 / 7918)).
  { apply Rle_trans with (2 := sin_lower (2000 / 7918) ltac:(lra) ltac:(lra)). lra. }
  set (s3 := sin (31 * PI / 1800)) in *. set (c36 := cos (PI / 5)) in *.
  set (c42 := cos (211 * PI / 900)) in *. set (s18 := sin (61 * PI / 600)) in *.
  assert (Hcc : 0 <= c36 * c42 <= 80912 / 100000 * (74111 / 100000)) by nra.
  assert (Hss : 0 <= s18 ^ 2 <= (31406 / 100000) ^ 2) by nra.
  assert (Hprod : 0 <= c36 * c42 * s18 ^ 2 <= 59146 / 1000000).
  { split; [apply Rmult_le_pos; lra|].
    apply Rle_trans with (80912 / 100000 * (74111 / 100000) * s18 ^ 2).
    - apply Rmult_le_compat_r; lra.
    - nra. }
  assert (H3s : 0 <= s3 ^ 2 <= 29285 / 10000000) by nra.
  assert (Hts : 6245 / 100000 <= sin (2000 / 7918) ^ 2) by nra.
  apply haversine_le_iff; [nra | lra | lra | lra].
Qed.

(** One priced, current row at a coordinate. *)
Lemma single_row_queries (lat lng radius_miles plat plng : R) :
  calculate_distance lat lng plat plng <= radius_miles ->
  pure_haversine_filter (single_db plat plng) lat lng radius_miles = [listing_at plat plng] /\
  (lng + radius_miles / 55 < plng \/ plng < lng - radius_miles / 55 ->
   nearby_properties (single_db plat plng) lat lng radius_miles = []).
Proof.
  intros Hd. split.
  - unfold pure_haversine_filter. cbn [single_db properties List.filter].
    cbn [latitude longitude listing_at priced_and_current price_per_sqft archived
         negb andb].
    rewrite (geo_leb_true _ _ Hd). reflexivity.
  - intros Hout. rewrite nearby_properties_filter. cbn [single_db properties List.filter].
    unfold in_bounding_box. cbn [latitude longitude listing_at].
    destruct Hout as [H | H].
    + rewrite (geo_leb_false _ _ H). rewrite !andb_false_r. reflexivity.
    + rewrite (geo_leb_false _ _ H). rewrite !andb_false_r. reflexivity.
Qed.

(** C7 fails as stated. Around a centre at 60 degrees north a degree of
    longitude is about 34.5 miles, so with a radius of 100 miles a listing 2
    degrees to the east is about 69 miles away, inside the radius, but
    outside the box of 100/55 degrees of longitude; the radius query drops
    it and the pure haversine filter keeps it. The same happens across the
    antimeridian, for a centre at longitude 179.9 and a listing at -179.9,
    14 miles apart, and for radii that reach latitudes where a degree of
    longitude is short: from 36 degrees north with a radius of 2000 miles, a
    listing at 42.2 north and 36.6 degrees to the east. *)
Lemma bounding_box_excludes_nearby_row_counterexample :
  (nearby_properties northern_db 60 0 100 = [] /\
   pure_haversine_filter northern_db 60 0 100 = [northern_listing]) /\
  (nearby_properties (single_db 0 (- (1799 / 10))) 0 (1799 / 10) 100 = [] /\
   pure_haversine_filter (single_db 0 (- (1799 / 10))) 0 (1799 / 10) 100
   = [listing_at 0 (- (1799 / 10))]) /\
  (nearby_properties (single_db (211 / 5) (183 / 5)) 36 0 2000 = [] /\
   pure_haversine_filter (single_db (211 / 5) (183 / 5)) 36 0 2000
   = [listing_at (211 / 5) (183 / 5)]).
Proof.
  split; [|split].
  - split.
    + rewrite nearby_properties_filter. cbn [northern_db properties List.filter].
      unfold in_bounding_box. cbn [latitude longitude northern_listing].
      rewrite (geo_leb_false 2 (0 + 100 / 55)) by lra.
      rewrite !andb_false_r. reflexivity.
    + unfold pure_haversine_filter. cbn [northern_db properties List.filter].
      cbn [latitude longitude northern_listing].
      rewrite (geo_leb_true _ _ northern_listing_within_100_miles). reflexivity.
  - destruct (single_row_queries 0 (1799 / 10) 100 0 (- (1799 / 10))
                dateline_listing_within_100_miles) as [Hpure Hbox].
    split; [apply Hbox; right; lra | exact Hpure].
  - destruct (single_row_queries 36 0 2000 (211 / 5) (183 / 5)
                far_listing_within_2000_miles) as [Hpure Hbox].
    split; [apply Hbox; left; lra | exact Hpure].
Qed.

Lemma bounding_box_keeps_every_nearby_row_witness :
  (Rabs LandScenario.lat0 <= 36 /\ 1 <= 1500) /\
  (forall prop,
      In prop (pure_haversine_filter LandScenario.db0 LandScenario.lat0
                 LandScenario.lon0 1) ->
      In prop (nearby_properties LandScenario.db0 LandScenario.lat0
                 LandScenario.lon0 1)) /\
  nearby_properties LandScenario.db0 LandScenario.lat0 LandScenario.lon0 1
  = pure_haversine_filter LandScenario.db0 LandScenario.lat0 LandScenario.lon0 1.
Proof.
  assert (H1 : Rabs LandScenario.lat0 <= 36)
    by (unfold LandScenario.lat0; apply Rabs_le; lra).
  assert (H2 : 1 <= 1500) by lra.
  assert (H3 : forall prop plat plng,
             In prop (pure_haversine_filter LandScenario.db0 LandScenario.lat0
                        LandScenario.lon0 1) ->
             latitude prop = Some plat -> longitude prop = Some plng ->
             Rabs plat <= 90 /\ Rabs (plng - LandScenario.lon0) <= 180).
  { intros prop plat plng Hin Hplat Hplng.
    unfold pure_haversine_filter in Hin. apply filter_In in Hin. destruct Hin as [Hin _].
    apply repeat_spec in Hin. subst prop.
    injection Hplat as <-. injection Hplng as <-.
    unfold LandScenario.lat0, LandScenario.lon0. split; apply Rabs_le; lra. }
  destruct (bounding_box_keeps_every_nearby_row
              LandScenario.db0 LandScenario.lat0 LandScenario.lon0 1 H1 H2)
    as (Hrow & _ & Hsame).
  split; [exact (conj H1 H2)|]. split.
  - intros prop Hin.
    destruct (latitude prop) as [plat|] eqn:Eplat.
    + destruct (longitude prop) as [plng|] eqn:Eplng.
      * destruct (H3 prop plat plng Hin Eplat Eplng) as [Hp Hl].
        exact (Hrow prop plat plng Hin Eplat Eplng Hp Hl).
      * exfalso. unfold pure_haversine_filter in Hin. apply filter_In in Hin.
        destruct Hin as [_ H]. rewrite Eplat, Eplng, andb_false_r in H. discriminate.
    + exfalso. unfold pure_haversine_filter in Hin. apply filter_In in Hin.
      destruct Hin as [_ H]. rewrite Eplat, andb_false_r in H. discriminate.
  - exact (Hsame H3).
Defined.

End BoundingBoxFacts.

(* ===================================================================== *)
(** * Part III: further properties of the analyzers, the geocoder and the  *)
(** *           importer                                                    *)
(* ===================================================================== *)

(** ** The vocabulary of the statements *)

Module ComparableSpec.
Import Database.
(** A comparable of the land scorer: a sale of the last 365 days or an
    active listing. *)
Definition sold_within_year_or_active (now : Z) (p : Property) : Prop :=
  (status p = "sold"%string /\
   exists d, sale_date p = Some d /\ (now - Py.days 365 <= d)%Z) \/
  status p = "active"%string.

End ComparableSpec.

Module SparseAreaSpec.
Import Database MarketHeat.
(** The sold rows of a postal area. *)
Definition sold_in_zip (db : DB) (zip_code : string) : list Property :=
  List.filter (fun p => zip_is zip_code p && String.eqb (status p) "sold") (properties db).

End SparseAreaSpec.

Module StreetRowSpec.
Import Database.
(** The key of a street row. *)
Definition street_key (r : StreetAnalysis) : string * string :=
  (sa_street_name r, sa_city r).

(** The columns an upsert writes, apart from the time stamp. *)
Definition street_figures (r : StreetAnalysis) :=
  (median_price_sqft r, min_price_sqft r, max_price_sqft r,
   avg_dom r, min_dom r, max_dom r, color r, sample_size r, confidence_score r).

End StreetRowSpec.

Module RankingSpec.
Import Database ZoneAnalyzer BestZones.
(** Scores from the highest to the lowest. *)
Fixpoint descending (l : list BestZone) : Prop :=
  match l with
  | [] => True
  | x :: t => (forall y, In y t -> (bz_score y <= bz_score x)%Z) /\ descending t
  end.

(** What every entry of a result says about its sample point. *)
Definition entry_of (db : DB) (min_score : Z) (sample : list Property) (z : BestZone)
    : Prop :=
  (exists prop, In prop sample /\
     latitude prop = Some (bz_lat z) /\ longitude prop = Some (bz_lng z) /\
     bz_city z = Database.city prop) /\
  (min_score <= bz_score z <= 100)%Z /\
  ((0 < bz_score z)%Z -> (5 <= bz_properties_analyzed z)%nat).

End RankingSpec.

Module RestartSpec.
Import Geocoder GeocoderSpec.

(** A new process: [_cache] is [None] again, the file is as it was left. *)
Definition restart (w : World) : World := {|
  mem_cache := None; cache_file := cache_file w; calls := calls w;
  draws := draws w; writes := writes w; slept := slept w |}.

(** The cache in use is the one a new process would load. *)
Definition in_sync (w : World) : Prop := loaded_cache (restart w) = loaded_cache w.

End RestartSpec.

Module ArchiveSpec.
Import Database MlsImporter.
(** One step of the loop. *)
Definition archive_row (cutoff_date : Z) (p : Property) : Property :=
  if to_archive cutoff_date p then set_archived p else p.

End ArchiveSpec.

(** ** Rounding *)

Section RoundingFacts.
Open Scope Q_scope.

Lemma round_compat (x y : Q) : x == y -> Py.round x = Py.round y.
Proof.
  intros H. unfold Py.round. rewrite (Qfloor_comp x y H).
  assert (E : Qcompare (x - inject_Z (Qfloor y)) (1 # 2)
              = Qcompare (y - inject_Z (Qfloor y)) (1 # 2)).
  { apply Qcompare_comp; [rewrite H; reflexivity | reflexivity]. }
  rewrite E. reflexivity.
Qed.

(** [round] moves a number by at most one half. *)
Lemma round_near (x : Q) :
  x - (1 # 2) <= inject_Z (Py.round x) <= x + (1 # 2).
Proof.
  unfold Py.round.
  pose proof (Qfloor_le x) as Hlo. pose proof (Qlt_floor x) as Hhi.
  assert (Hinj : inject_Z (Qfloor x + 1) == inject_Z (Qfloor x) + 1)
    by (rewrite inject_Z_plus; reflexivity).
  rewrite Hinj in Hhi.
  destruct (Qcompare (x - inject_Z (Qfloor x)) (1 # 2)) eqn:E.
  - apply Qeq_alt in E.
    destruct (Z.even (Qfloor x)); [|rewrite Hinj]; split; Lqa.lra.
  - apply Qlt_alt in E. split; Lqa.lra.
  - apply Qgt_alt in E. rewrite Hinj. split; Lqa.lra.
Qed.

Lemma inject_Z_succ_le (a b : Z) : (a + 1 <= b)%Z -> inject_Z a + 1 <= inject_Z b.
Proof.
  intros H. change 1 with (inject_Z 1). rewrite <- inject_Z_plus, <- Zle_Qle. exact H.
Qed.

Lemma round_monotone (x y : Q) : x <= y -> (Py.round x <= Py.round y)%Z.
Proof.
  intros Hxy.
  destruct (Z_le_gt_dec (Py.round x) (Py.round y)) as [H|H]; [exact H|exfalso].
  assert (H1 : (Py.round y + 1 <= Py.round x)%Z) by lia.
  pose proof (round_near x) as [_ Hx]. pose proof (round_near y) as [Hy _].
  pose proof (inject_Z_succ_le _ _ H1) as Hq.
  assert (Heq : x == y) by Lqa.lra.
  rewrite (round_compat x y Heq) in H. lia.
Qed.

Lemma round_inject_Z (n : Z) : Py.round (inject_Z n) = n.
Proof.
  pose proof (round_near (inject_Z n)) as [Hlo Hhi].
  destruct (Z.compare_spec (Py.round (inject_Z n)) n) as [H|H|H]; [exact H| |]; exfalso.
  - pose proof (inject_Z_succ_le (Py.round (inject_Z n)) n ltac:(lia)). Lqa.lra.
  - pose proof (inject_Z_succ_le n (Py.round (inject_Z n)) ltac:(lia)). Lqa.lra.
Qed.

End RoundingFacts.

(** ** The urgency score: range and monotonicity *)

Section ScoreRangeFacts.
Import Database LandScorer LandSpec.
Open Scope Q_scope.

Lemma lookup_zone_range (color : string) :
  (0 <= lookup_score zone_scores color <= 100)%Z.
Proof.
  unfold zone_scores, lookup_score.
  repeat (destruct (String.eqb color _); [lia|]). lia.
Qed.

Lemma lookup_market_range (status : string) :
  (0 <= lookup_score market_scores status <= 100)%Z.
Proof.
  unfold market_scores, lookup_score.
  repeat (destruct (String.eqb status _); [lia|]). lia.
Qed.

Lemma price_ladder_range (ratio : Q) : (0 <= price_ladder ratio <= 100)%Z.
Proof.
  unfold price_ladder. repeat (destruct (Qlt_le_dec ratio _); [lia|]). lia.
Qed.

Lemma price_score_range (land avg : Q) : (0 <= price_score land avg <= 100)%Z.
Proof.
  unfold price_score. destruct (Qeq_bool avg 0); [lia | apply price_ladder_range].
Qed.

Lemma activity_ladder_range (n : Z) : (0 <= activity_ladder n <= 100)%Z.
Proof.
  unfold activity_ladder. repeat (destruct (Z_le_dec _ n); [lia|]). lia.
Qed.

Lemma inject_Z_range (n : Z) : (0 <= n <= 100)%Z -> 0 <= inject_Z n <= 100.
Proof.
  intros [H0 H1]. split.
  - change 0 with (inject_Z 0). rewrite <- Zle_Qle. exact H0.
  - change 100 with (inject_Z 100). rewrite <- Zle_Qle. exact H1.
Qed.

Lemma weighted_total_range (cfg : Config) (z m p a : Z) :
  0 <= weight_zone_color cfg -> 0 <= weight_market_heat cfg ->
  0 <= weight_price_opportunity cfg -> 0 <= weight_recent_sales cfg ->
  weight_zone_color cfg + weight_market_heat cfg
    + weight_price_opportunity cfg + weight_recent_sales cfg <= 1 ->
  (0 <= z <= 100)%Z -> (0 <= m <= 100)%Z -> (0 <= p <= 100)%Z -> (0 <= a <= 100)%Z ->
  0 <= weighted_total cfg z m p a <= 100.
Proof.
  intros Hz Hm Hp Ha Hsum Rz Rm Rp Ra. unfold weighted_total.
  apply inject_Z_range in Rz, Rm, Rp, Ra.
  split; Lqa.nra.
Qed.

(** X1. With weights that are not negative and sum to at most 1, the urgency
    score lies between 0 and 100. *)
Theorem land_score_between_0_and_100 (cfg : Config)
    (zone_color market_status : string) (avg land_price_sqft : Q) (recent : Z) :
  0 <= weight_zone_color cfg -> 0 <= weight_market_heat cfg ->
  0 <= weight_price_opportunity cfg -> 0 <= weight_recent_sales cfg ->
  weight_zone_color cfg + weight_market_heat cfg
    + weight_price_opportunity cfg + weight_recent_sales cfg <= 1 ->
  exists score,
    calculate_land_score cfg zone_color market_status avg land_price_sqft recent
    = Py.Return score /\ (0 <= score <= 100)%Z.
Proof.
  intros Hz Hm Hp Ha Hsum. rewrite calculate_land_score_value.
  eexists. split; [reflexivity|].
  match goal with
  | |- (0 <= Py.round ?t <= 100)%Z =>
      assert (Ht : 0 <= t <= 100)
        by (apply weighted_total_range; auto using lookup_zone_range, lookup_market_range,
              price_score_range, activity_ladder_range);
      pose proof (round_monotone 0 t (proj1 Ht)) as H0;
      pose proof (round_monotone t 100 (proj2 Ht)) as H1
  end.
  change 0 with (inject_Z 0) in H0. change 100 with (inject_Z 100) in H1.
  rewrite round_inject_Z in H0, H1. lia.
Qed.

Lemma activity_ladder_monotone (n m : Z) :
  (n <= m)%Z -> (activity_ladder n <= activity_ladder m)%Z.
Proof.
  intros H. unfold activity_ladder.
  repeat (destruct (Z_le_dec _ n)); repeat (destruct (Z_le_dec _ m)); lia.
Qed.

Lemma price_ladder_antitone (r1 r2 : Q) :
  r1 <= r2 -> (price_ladder r2 <= price_ladder r1)%Z.
Proof.
  intros H. unfold price_ladder.
  repeat (destruct (Qlt_le_dec r1 _)); repeat (destruct (Qlt_le_dec r2 _));
    try lia; exfalso; Lqa.lra.
Qed.

Lemma price_score_antitone (land1 land2 avg : Q) :
  0 <= avg -> land1 <= land2 -> (price_score land2 avg <= price_score land1 avg)%Z.
Proof.
  intros Havg H. unfold price_score.
  destruct (Qeq_bool avg 0) eqn:E; [lia|].
  apply price_ladder_antitone.
  assert (Hpos : 0 < avg).
  { apply Qle_lt_or_eq in Havg. destruct Havg as [Hlt|Heq]; [exact Hlt|].
    symmetry in Heq. apply Qeq_bool_iff in Heq. congruence. }
  unfold Qdiv. apply Qmult_le_compat_r; [exact H|].
  apply Qlt_le_weak, Qinv_lt_0_compat, Hpos.
Qed.

(** X2. With weights that are not negative, more recent sales and a lower
    price-per-area of the parcel never lower the score. *)
Theorem land_score_monotone (cfg : Config) (zone_color market_status : string)
    (avg land1 land2 : Q) (recent1 recent2 : Z) :
  0 <= weight_price_opportunity cfg -> 0 <= weight_recent_sales cfg ->
  0 <= avg -> land1 <= land2 -> (recent1 <= recent2)%Z ->
  exists lower higher,
    calculate_land_score cfg zone_color market_status avg land2 recent1 = Py.Return lower /\
    calculate_land_score cfg zone_color market_status avg land1 recent2 = Py.Return higher /\
    (lower <= higher)%Z.
Proof.
  intros Hp Ha Havg Hland Hrecent. rewrite !calculate_land_score_value.
  eexists; eexists. split; [reflexivity|]. split; [reflexivity|].
  apply round_monotone. unfold weighted_total.
  pose proof (activity_ladder_monotone _ _ Hrecent) as H1.
  pose proof (price_score_antitone _ _ avg Havg Hland) as H2.
  rewrite Zle_Qle in H1, H2. Lqa.nra.
Qed.

End ScoreRangeFacts.

(** ** Upserts *)

Section UpsertFacts.
Import Database.

Lemma first_none_forall {A} (P : A -> bool) (rows : list A) :
  first P rows = None -> forall r, In r rows -> P r = false.
Proof. unfold first. intros H r Hr. exact (find_none P rows H r Hr). Qed.

Lemma update_first_length {A} (P : A -> bool) (f : A -> A) (rows : list A) :
  length (update_first P f rows) = length rows.
Proof.
  induction rows as [|r rows IH]; [reflexivity|].
  cbn [update_first]. destruct (P r); cbn [length]; [|rewrite IH]; reflexivity.
Qed.

Lemma update_first_keeps {A} (P : A -> bool) (f : A -> A) (rows : list A) (r : A) :
  In r rows -> P r = false -> In r (update_first P f rows).
Proof.
  induction rows as [|x rows IH]; [contradiction|].
  intros [->|Hin] Hr; cbn [update_first].
  - rewrite Hr. left. reflexivity.
  - destruct (P x); right; [exact Hin | apply IH; assumption].
Qed.

Lemma first_app_new {A} (P : A -> bool) (rows : list A) (x : A) :
  first P rows = None -> P x = true -> first P (rows ++ [x]) = Some x.
Proof.
  unfold first. induction rows as [|r rows IH]; cbn [find app].
  - intros _ ->. reflexivity.
  - destruct (P r); [discriminate|]. exact IH.
Qed.

Lemma update_first_map_on {A B} (P : A -> bool) (f : A -> A) (g : A -> B)
    (rows : list A) :
  (forall r, P r = true -> g (f r) = g r) ->
  map g (update_first P f rows) = map g rows.
Proof.
  intros Hg. induction rows as [|r rows IH]; [reflexivity|].
  cbn [update_first]. destruct (P r) eqn:E; cbn [map]; [rewrite Hg by exact E | rewrite IH];
    reflexivity.
Qed.

Lemma first_update_first_on {A} (P : A -> bool) (f : A -> A) (rows : list A) :
  (forall r, P r = true -> P (f r) = true) ->
  forall e, first P rows = Some e -> first P (update_first P f rows) = Some (f e).
Proof.
  intros HP e. unfold first. induction rows as [|r rows IH]; [discriminate|].
  cbn [find update_first]. destruct (P r) eqn:E.
  - intros [= ->]. cbn [find]. rewrite (HP _ E). reflexivity.
  - intros H. cbn [find]. rewrite E. apply IH, H.
Qed.

Lemma first_ext {A} (P Q : A -> bool) (rows : list A) :
  (forall r, P r = Q r) -> first P rows = first Q rows.
Proof.
  intros H. unfold first. induction rows as [|r rows IH]; [reflexivity|].
  cbn [find]. rewrite H, IH. reflexivity.
Qed.

Lemma NoDup_snoc {A} (l : list A) (x : A) :
  List.NoDup l -> ~ In x l -> List.NoDup (l ++ [x]).
Proof.
  induction 1 as [|y l Hy Hl IH]; intros Hx; cbn [app].
  - constructor; [intros [] | constructor].
  - constructor.
    + rewrite in_app_iff. intros [H|[H|[]]]; [contradiction|].
      apply Hx. left. symmetry. exact H.
    + apply IH. intros H. apply Hx. right. exact H.
Qed.

End UpsertFacts.

(** ** The two distance functions *)

Section DistanceFacts.
Import GeoSpec.
Open Scope R_scope.

Lemma hav_symmetric (lat1 lon1 lat2 lon2 : R) :
  hav lat1 lon1 lat2 lon2 = hav lat2 lon2 lat1 lon1.
Proof.
  unfold hav, Geo.radians.
  replace ((lat2 - lat1) * (PI / 180) / 2) with (- ((lat1 - lat2) * (PI / 180) / 2)) by field.
  replace ((lon2 - lon1) * (PI / 180) / 2) with (- ((lon1 - lon2) * (PI / 180) / 2)) by field.
  rewrite !sin_neg. ring.
Qed.

Lemma radians_latitude (lat : R) :
  -90 <= lat <= 90 -> - (PI / 2) <= Geo.radians lat <= PI / 2.
Proof. intros H. unfold Geo.radians. pose proof PI_RGT_0. split; nra. Qed.

Lemma hav_range (lat1 lon1 lat2 lon2 : R) :
  -90 <= lat1 <= 90 -> -90 <= lat2 <= 90 -> 0 <= hav lat1 lon1 lat2 lon2 <= 1.
Proof.
  intros H1 H2. unfold hav.
  pose proof (radians_latitude lat1 H1) as R1.
  pose proof (radians_latitude lat2 H2) as R2.
  assert (C1 : 0 <= cos (Geo.radians lat1)) by (apply cos_ge_0; lra).
  assert (C2 : 0 <= cos (Geo.radians lat2)) by (apply cos_ge_0; lra).
  set (u := Geo.radians (lat2 - lat1) / 2).
  set (v := (Geo.radians lat1 + Geo.radians lat2) / 2).
  assert (E1 : Geo.radians lat1 = v - u) by (unfold u, v, Geo.radians; field).
  assert (E2 : Geo.radians lat2 = v + u) by (unfold u, v, Geo.radians; field).
  rewrite E1, E2 in *. rewrite cos_minus, cos_plus in *.
  pose proof (sin2_cos2 u) as Su. pose proof (sin2_cos2 v) as Sv.
  pose proof (sin2_cos2 (Geo.radians (lon2 - lon1) / 2)) as Sl.
  unfold Rsqr in *.
  set (A := sin u) in *. set (B := cos u) in *.
  set (C := sin v) in *. set (D := cos v) in *.
  set (S := sin (Geo.radians (lon2 - lon1) / 2)) in *.
  set (T := cos (Geo.radians (lon2 - lon1) / 2)) in *.
  assert (HS : 0 <= S * S <= 1) by nra.
  assert (HP : 0 <= (D * B + C * A) * (D * B - C * A)) by (apply Rmult_le_pos; assumption).
  assert (HPS : 0 <= (D * B + C * A) * (D * B - C * A) * (S * S))
    by (apply Rmult_le_pos; lra).
  assert (HPS' : (D * B + C * A) * (D * B - C * A) * (S * S)
                 <= (D * B + C * A) * (D * B - C * A)) by nra.
  assert (HB : (D * B + C * A) * (D * B - C * A) = B * B - C * C) by nra.
  cbn [pow]. rewrite !Rmult_1_r. split; nra.
Qed.

Lemma central_angle_range (a : R) :
  0 <= a <= 1 -> 0 <= Geo.atan2 (sqrt a) (sqrt (1 - a)) <= PI / 2.
Proof.
  intros [H0 H1]. pose proof PI_RGT_0 as Hpi.
  destruct (Rle_lt_or_eq_dec a 1 H1) as [Hlt | ->].
  - assert (Hs : 0 < sqrt (1 - a)) by (apply sqrt_lt_R0; lra).
    rewrite atan2_pos by exact Hs.
    pose proof (atan_bound (sqrt a / sqrt (1 - a))) as [_ Hb].
    split; [|lra].
    destruct (Rle_lt_or_eq_dec 0 a H0) as [Hpos | <-].
    + rewrite <- atan_0. apply Rlt_le, atan_increasing.
      apply Rdiv_lt_0_compat; [apply sqrt_lt_R0; exact Hpos | exact Hs].
    + rewrite sqrt_0. unfold Rdiv. rewrite Rmult_0_l, atan_0. lra.
  - rewrite central_angle_ge_1 by lra. lra.
Qed.

(** X14. The distance between two points does not depend on their order, and
    for latitudes between -90 and 90 degrees it lies between 0 and half
    the circumference of the sphere of radius 3959 miles. *)
Theorem haversine_distance_symmetric_bounded (lat1 lon1 lat2 lon2 : R) :
  Geo.haversine_distance lat1 lon1 lat2 lon2 = Geo.haversine_distance lat2 lon2 lat1 lon1 /\
  (-90 <= lat1 <= 90 -> -90 <= lat2 <= 90 ->
   0 <= Geo.haversine_distance lat1 lon1 lat2 lon2 <= 3959 * PI).
Proof.
  split.
  - rewrite !haversine_distance_hav, (hav_symmetric lat1 lon1 lat2 lon2). reflexivity.
  - intros H1 H2. rewrite haversine_distance_hav.
    pose proof (central_angle_range _ (hav_range lat1 lon1 lat2 lon2 H1 H2)) as [Hlo Hhi].
    split; nra.
Qed.

(** X15. The zone analyzer and the land scorer measure the same distance: the
    two implementations of the haversine formula agree on every input. *)
Theorem distance_implementations_agree (lat1 lon1 lat2 lon2 : R) :
  ZoneAnalyzer.calculate_distance lat1 lon1 lat2 lon2
  = Geo.haversine_distance lat1 lon1 lat2 lon2.
Proof.
  unfold ZoneAnalyzer.calculate_distance, Geo.haversine_distance, Geo.radians.
  replace (lat2 * (PI / 180) - lat1 * (PI / 180)) with ((lat2 - lat1) * (PI / 180)) by ring.
  replace (lon2 * (PI / 180) - lon1 * (PI / 180)) with ((lon2 - lon1) * (PI / 180)) by ring.
  reflexivity.
Qed.

End DistanceFacts.

(** ** The comparables of a parcel *)

Section NearbyFacts.
Import Database LandScorer ComparableSpec.
Open Scope R_scope.

(** X5. The comparables of a point are exactly the rows of the repository that
    are not archived, have both coordinates, lie within the radius and are
    recent sales or active listings; a larger radius keeps all of them. *)
Theorem nearby_properties_characterised (now : Z) (db : DB) (lat lon radius : R)
    (p : Property) :
  (In p (get_nearby_properties now db lat lon radius) <->
   In p (properties db) /\ archived p = false /\
   (exists plat plon, latitude p = Some plat /\ longitude p = Some plon /\
                      Geo.haversine_distance lat lon plat plon <= radius) /\
   sold_within_year_or_active now p) /\
  (forall radius', radius <= radius' ->
     In p (get_nearby_properties now db lat lon radius) ->
     In p (get_nearby_properties now db lat lon radius')).
Proof.
  assert (Hiff : forall r,
    In p (get_nearby_properties now db lat lon r) <->
    In p (properties db) /\ archived p = false /\
    (exists plat plon, latitude p = Some plat /\ longitude p = Some plon /\
                       Geo.haversine_distance lat lon plat plon <= r) /\
    sold_within_year_or_active now p).
  { intros r. unfold get_nearby_properties, sold_within_year_or_active.
    rewrite in_flat_map. split.
    - intros (q & Hq & Hin).
      destruct (latitude q) as [plat|] eqn:Elat; [|contradiction].
      destruct (longitude q) as [plon|] eqn:Elon; [|contradiction].
      destruct (archived q) eqn:Earch; [contradiction|].
      destruct (Geo.leb _ r) eqn:Eleb; [|contradiction].
      unfold Geo.leb in Eleb. destruct (Rle_dec _ r) as [Hle|]; [|discriminate].
      destruct (String.eqb (status q) "sold" && _) eqn:Esold.
      + destruct Hin as [<-|[]]. split; [exact Hq|]. split; [exact Earch|].
        split; [exists plat, plon; auto|]. left.
        apply andb_true_iff in Esold. destruct Esold as [Es Ed].
        split; [apply String.eqb_eq, Es|].
        destruct (sale_date q) as [d|]; [|discriminate].
        exists d. split; [reflexivity | apply Z.leb_le, Ed].
      + destruct (String.eqb (status q) "active") eqn:Eact; [|contradiction].
        destruct Hin as [<-|[]]. split; [exact Hq|]. split; [exact Earch|].
        split; [exists plat, plon; auto|]. right. apply String.eqb_eq, Eact.
    - intros (Hin & Harch & (plat & plon & Hlat & Hlon & Hd) & Hkind).
      exists p. split; [exact Hin|]. rewrite Hlat, Hlon, Harch.
      rewrite (geo_leb_true _ _ Hd).
      destruct Hkind as [[Hs (d & Hdate & Hd365)]|Hact].
      + rewrite Hs, Hdate. apply Z.leb_le in Hd365. rewrite Hd365. cbn. left. reflexivity.
      + rewrite Hact. cbn. left. reflexivity. }
  split; [apply Hiff|].
  intros r' Hle Hin. apply Hiff. apply Hiff in Hin.
  destruct Hin as (H1 & H2 & (plat & plon & Hlat & Hlon & Hd) & H4).
  split; [exact H1|]. split; [exact H2|]. split; [|exact H4].
  exists plat, plon. split; [exact Hlat|]. split; [exact Hlon|]. lra.
Qed.

End NearbyFacts.

(** ** The market-heat analysis, and sparse areas *)

Section MarketHeatMore.
Import Database MarketHeat MarketHeatSpec SparseAreaSpec.
Open Scope Q_scope.

Lemma filter_length_le {A} (f g : A -> bool) (l : list A) :
  (forall x, g x = true -> f x = true) ->
  (length (List.filter g l) <= length (List.filter f l))%nat.
Proof.
  intros Hfg. induction l as [|x l IH]; [cbn; lia|].
  cbn [List.filter]. destruct (g x) eqn:Eg.
  - rewrite (Hfg x Eg). cbn [length]. lia.
  - destruct (f x); cbn [length]; lia.
Qed.

Lemma window_change_sparse (metric : Property -> option Q) (now : Z) (db : DB)
    (zip_code : string) :
  (length (sold_in_zip db zip_code) < 2)%nat ->
  window_change metric now db zip_code = 0.
Proof.
  intros Hfew. unfold window_change.
  match goal with
  | |- context [(length (List.filter ?g (properties db)) <? 2)%nat || _] =>
      assert (Hlen : (length (List.filter g (properties db)) < 2)%nat)
  end.
  { eapply Nat.le_lt_trans; [|exact Hfew]. unfold sold_in_zip.
    apply filter_length_le. intros p Hp.
    apply andb_true_iff in Hp. destruct Hp as [Hp _].
    apply andb_true_iff in Hp. destruct Hp as [Hp _]. exact Hp. }
  apply Nat.ltb_lt in Hlen. rewrite Hlen. reflexivity.
Qed.

(** X8. A postal area with fewer than two sold comparables reports a price
    change and a days-on-market change of 0, and is never classified as
    overheated: neither by the status the analysis computes from that price
    change, whatever the inventory, nor in a row it returns. *)
Theorem sparse_area_never_overheated (now utcnow : Z) (db : DB) (zip_code : string) :
  (length (sold_in_zip db zip_code) < 2)%nat ->
  calculate_price_change_90d now db zip_code = 0 /\
  calculate_dom_change now db zip_code = 0 /\
  (forall inventory,
     determine_market_status inventory (calculate_price_change_90d now db zip_code)
       (calculate_dom_change now db zip_code) <> "overheated"%string) /\
  forall heat_zone db',
    analyze_market_heat_by_zip now utcnow db zip_code = Py.Return (Some heat_zone, db') ->
    mh_status heat_zone <> "overheated"%string.
Proof.
  intros Hfew.
  assert (Hp : calculate_price_change_90d now db zip_code = 0)
    by (apply window_change_sparse; exact Hfew).
  split; [exact Hp|]. split; [apply window_change_sparse; exact Hfew|].
  split.
  - intros inv. rewrite Hp. unfold determine_market_status.
    destruct (Py.ltb 12 inv); [discriminate|].
    destruct (Py.leb 6 inv); [discriminate|].
    cbn. discriminate.
  - intros hz db' H. unfold analyze_market_heat_by_zip in H.
    destruct (get_sold_last_90d_count now db zip_code =? 0)%Z; discriminate.
Qed.


(** Twenty active listings and four sales: the analysis raises; without a
    sale it returns None. *)
Example analyze_market_heat_20_4 :
  analyze_market_heat_by_zip (Py.days 100) (Py.days 100) (postal_area 20 4) "28801"
  = Py.Raise Py.TypeError.
Proof. vm_compute. reflexivity. Qed.

Example analyze_market_heat_20_0 :
  analyze_market_heat_by_zip (Py.days 100) (Py.days 100) (postal_area 20 0) "28801"
  = Py.Return (None, postal_area 20 0).
Proof. vm_compute. reflexivity. Qed.

End MarketHeatMore.

(** ** Street samples, metrics and confidence *)

Section StreetMore.
Import Database StreetAnalyzer.
Open Scope Q_scope.

Lemma min_list_spec (l : list Q) : forall x,
  In (Py.min_list x l) (x :: l) /\ forall e, In e (x :: l) -> Py.min_list x l <= e.
Proof.
  unfold Py.min_list. induction l as [|y l IH]; intros x; cbn [fold_left].
  - split; [left; reflexivity|]. intros e [<-|[]]. apply Qle_refl.
  - destruct (Qlt_le_dec y x) as [Hlt|Hle].
    + destruct (IH y) as [Hin Hmin]. split.
      * right. exact Hin.
      * intros e [<-|He]; [|apply Hmin, He].
        apply Qle_trans with y; [apply Hmin; left; reflexivity | apply Qlt_le_weak, Hlt].
    + destruct (IH x) as [Hin Hmin]. split.
      * destruct Hin as [<-|Hin]; [left; reflexivity | right; right; exact Hin].
      * intros e [<-|[<-|He]].
        -- apply Hmin. left. reflexivity.
        -- apply Qle_trans with x; [apply Hmin; left; reflexivity | exact Hle].
        -- apply Hmin. right. exact He.
Qed.

Lemma max_list_spec (l : list Q) : forall x,
  In (Py.max_list x l) (x :: l) /\ forall e, In e (x :: l) -> e <= Py.max_list x l.
Proof.
  unfold Py.max_list. induction l as [|y l IH]; intros x; cbn [fold_left].
  - split; [left; reflexivity|]. intros e [<-|[]]. apply Qle_refl.
  - destruct (Qlt_le_dec x y) as [Hlt|Hle].
    + destruct (IH y) as [Hin Hmax]. split.
      * right. exact Hin.
      * intros e [<-|He]; [|apply Hmax, He].
        apply Qle_trans with y; [apply Qlt_le_weak, Hlt | apply Hmax; left; reflexivity].
    + destruct (IH x) as [Hin Hmax]. split.
      * destruct Hin as [<-|Hin]; [left; reflexivity | right; right; exact Hin].
      * intros e [<-|[<-|He]].
        -- apply Hmax. left. reflexivity.
        -- apply Qle_trans with x; [exact Hle | apply Hmax; left; reflexivity].
        -- apply Hmax. right. exact He.
Qed.

Lemma insert_sorted_In (x : Q) (l : list Q) (e : Q) :
  In e (Py.insert_sorted x l) <-> e = x \/ In e l.
Proof.
  induction l as [|y l IH]; cbn [Py.insert_sorted].
  - cbn. intuition.
  - destruct (Qle_bool x y); cbn [In]; [intuition|]. rewrite IH. intuition.
Qed.

Lemma insert_sorted_length (x : Q) (l : list Q) :
  length (Py.insert_sorted x l) = S (length l).
Proof.
  induction l as [|y l IH]; cbn [Py.insert_sorted]; [reflexivity|].
  destruct (Qle_bool x y); cbn [length]; [|rewrite IH]; reflexivity.
Qed.

Lemma sorted_In (l : list Q) (e : Q) : In e (Py.sorted l) <-> In e l.
Proof.
  unfold Py.sorted. induction l as [|y l IH]; cbn [fold_right]; [reflexivity|].
  rewrite insert_sorted_In, IH. cbn. intuition.
Qed.

Lemma sorted_length (l : list Q) : length (Py.sorted l) = length l.
Proof.
  unfold Py.sorted. induction l as [|y l IH]; cbn [fold_right]; [reflexivity|].
  rewrite insert_sorted_length, IH. reflexivity.
Qed.

Lemma median_between (l : list Q) (lo hi : Q) :
  l <> [] -> (forall e, In e l -> lo <= e <= hi) -> lo <= Py.median l <= hi.
Proof.
  intros Hne Hb. unfold Py.median.
  assert (Hlen : (0 < length (Py.sorted l))%nat).
  { rewrite sorted_length. destruct l; [congruence | cbn; lia]. }
  assert (Hnth : forall i, (i < length (Py.sorted l))%nat ->
                           lo <= nth i (Py.sorted l) 0 <= hi).
  { intros i Hi. apply Hb, sorted_In, nth_In, Hi. }
  set (n := length (Py.sorted l)) in *.
  assert (Hhalf : (n / 2 < n)%nat) by (apply Nat.div_lt; lia).
  destruct (Nat.even n) eqn:E.
  - assert (Hprev : (n / 2 - 1 < n)%nat) by lia.
    pose proof (Hnth _ Hhalf) as [H1 H2]. pose proof (Hnth _ Hprev) as [H3 H4].
    split.
    + apply Qle_shift_div_l; [reflexivity | Lqa.lra].
    + apply Qle_shift_div_r; [reflexivity | Lqa.lra].
  - apply Hnth, Hhalf.
Qed.

Lemma truthy_prices_length (ps : list Property) :
  (length (truthy_prices ps) <= length ps)%nat.
Proof.
  unfold truthy_prices. induction ps as [|p ps IH]; [cbn; lia|].
  cbn [flat_map length]. rewrite length_app.
  destruct (price_per_sqft p) as [v|]; [destruct (Py.truthy (Some v))|]; cbn [length]; lia.
Qed.

Lemma truthy_prices_In (ps : list Property) (v : Q) :
  In v (truthy_prices ps) <->
  exists p, In p ps /\ price_per_sqft p = Some v /\ ~ v == 0.
Proof.
  unfold truthy_prices. rewrite in_flat_map. split.
  - intros (p & Hp & Hv). exists p. split; [exact Hp|].
    destruct (price_per_sqft p) as [w|]; [|contradiction].
    destruct (Py.truthy (Some w)) eqn:T; [|contradiction].
    destruct Hv as [<-|[]]. split; [reflexivity|].
    unfold Py.truthy in T. apply negb_true_iff in T.
    intros H0. apply Qeq_bool_iff in H0. congruence.
  - intros (p & Hp & Hv & Hnz). exists p. split; [exact Hp|]. rewrite Hv.
    assert (T : Py.truthy (Some v) = true).
    { unfold Py.truthy. apply negb_true_iff. destruct (Qeq_bool v 0) eqn:Q0; [|reflexivity].
      exfalso. apply Hnz, Qeq_bool_iff, Q0. }
    rewrite T. left. reflexivity.
Qed.

(** The shape of the metrics. *)
Lemma street_metrics_shape (ps : list Property) (m : Metrics) :
  calculate_street_metrics ps = Some m ->
  In (m_min_price_sqft m) (truthy_prices ps) /\
  In (m_max_price_sqft m) (truthy_prices ps) /\
  (forall v, In v (truthy_prices ps) -> m_min_price_sqft m <= v <= m_max_price_sqft m) /\
  m_min_price_sqft m <= m_median_price_sqft m <= m_max_price_sqft m /\
  m_sample_size m = length ps /\
  (0 < length (truthy_prices ps) <= m_sample_size m)%nat.
Proof.
  unfold calculate_street_metrics. pose proof (truthy_prices_length ps) as Hlen.
  destruct (truthy_prices ps) as [|x rest] eqn:E; [discriminate|].
  intros [= <-]. cbn [m_min_price_sqft m_max_price_sqft m_median_price_sqft m_sample_size].
  destruct (min_list_spec rest x) as [Hmin_in Hmin]. destruct (max_list_spec rest x) as [Hmax_in Hmax].
  assert (Hb : forall v, In v (x :: rest) -> Py.min_list x rest <= v <= Py.max_list x rest)
    by (intros v Hv; split; [apply Hmin | apply Hmax]; exact Hv).
  split; [exact Hmin_in|]. split; [exact Hmax_in|]. split; [exact Hb|].
  split; [apply median_between; [discriminate | exact Hb]|].
  split; [reflexivity|]. cbn [length] in *. lia.
Qed.

(** The value of the confidence. *)
Lemma confidence_value (sample_size : nat) :
  calculate_confidence sample_size ==
    inject_Z (Z.of_nat (Nat.min sample_size 10)) / 10 /\
  0 <= calculate_confidence sample_size <= 1.
Proof.
  assert (Hsmall : forall n, (n <= 10)%nat ->
            calculate_confidence n == inject_Z (Z.of_nat n) / 10 /\
            0 <= calculate_confidence n <= 1).
  { intros n Hn. do 11 (destruct n as [|n]; [vm_compute; intuition discriminate|]). lia. }
  destruct (Nat.le_gt_cases sample_size 10) as [Hle|Hgt].
  - rewrite Nat.min_l by exact Hle. apply Hsmall, Hle.
  - rewrite Nat.min_r by lia.
    assert (E : calculate_confidence sample_size = calculate_confidence 10).
    { unfold calculate_confidence.
      assert (H1 : Py.ltb 1 (inject_Z (Z.of_nat sample_size) / 10) = true).
      { unfold Py.ltb. apply negb_true_iff. destruct (Qle_bool _ 1) eqn:Q1; [|reflexivity].
        exfalso. apply Qle_bool_iff in Q1.
        assert (H10 : inject_Z 10 < inject_Z (Z.of_nat sample_size))
          by (rewrite <- Zlt_Qlt; lia).
        assert (H : 1 < inject_Z (Z.of_nat sample_size) / 10)
          by (apply Qlt_shift_div_l; [reflexivity | exact H10]).
        exact (Qlt_not_le _ _ H Q1). }
      rewrite H1. reflexivity. }
    rewrite E. apply (Hsmall 10%nat). lia.
Qed.

(** X10. The rows a street is analysed on are rows of the repository on that
    street in that city, none archived, and of one kind: the sales of the
    last 365 days when there are three or more of them, else the active
    listings. *)
Theorem street_sample_is_homogeneous (now : Z) (db : DB) (street city : string) :
  let sample := get_properties_by_street now db street city in
  (forall p, In p sample ->
     In p (properties db) /\ Database.street_name p = Some street /\
     Database.city p = city /\ archived p = false) /\
  ((3 <= length sample)%nat /\
   (forall p, In p sample ->
      status p = "sold"%string /\
      exists d, sale_date p = Some d /\ (now - Py.days 365 <= d)%Z)
   \/
   (forall p, In p sample -> status p = "active"%string)).
Proof.
  assert (Hcol : forall a b, col_is a b = true -> a = Some b).
  { intros [a|] b H; [|discriminate]. cbn in H. apply String.eqb_eq in H. congruence. }
  cbv zeta. unfold get_properties_by_street.
  match goal with
  | |- context [(3 <=? length ?s)%nat] => destruct (3 <=? length s)%nat eqn:E
  end.
  - split.
    + intros p Hp. apply filter_In in Hp. destruct Hp as [Hin Hp].
      repeat (apply andb_true_iff in Hp; destruct Hp as [Hp ?]).
      split; [exact Hin|]. split; [apply Hcol; assumption|].
      split; [apply String.eqb_eq; assumption | apply negb_true_iff; assumption].
    + left. split; [apply Nat.leb_le, E|].
      intros p Hp. apply filter_In in Hp. destruct Hp as [Hin Hp].
      repeat (apply andb_true_iff in Hp; destruct Hp as [Hp ?]).
      split; [apply String.eqb_eq; assumption|].
      destruct (sale_date p) as [d|]; [|discriminate].
      exists d. split; [reflexivity | apply Z.leb_le; assumption].
  - split.
    + intros p Hp. apply filter_In in Hp. destruct Hp as [Hin Hp].
      repeat (apply andb_true_iff in Hp; destruct Hp as [Hp ?]).
      split; [exact Hin|]. split; [apply Hcol; assumption|].
      split; [apply String.eqb_eq; assumption | apply negb_true_iff; assumption].
    + right. intros p Hp. apply filter_In in Hp. destruct Hp as [Hin Hp].
      repeat (apply andb_true_iff in Hp; destruct Hp as [Hp ?]).
      apply String.eqb_eq; assumption.
Qed.


(** X12. Confidence grows by 0.1 per row up to ten rows and is 1 from ten rows
    on. *)
Theorem confidence_is_capped_tenth (sample_size : nat) :
  calculate_confidence sample_size ==
    inject_Z (Z.of_nat (Nat.min sample_size 10)) / 10 /\
  0 <= calculate_confidence sample_size <= 1.
Proof. apply confidence_value. Qed.


End StreetMore.

(** ** Saving a street analysis *)

Section StreetUpsertFacts.
Import Database StreetAnalyzer StreetRowSpec.
Open Scope Q_scope.

Lemma find_street_analysis_by_key (db : DB) (p : Property) (analysis : StreetAnalysis) :
  Database.street_name p = Some (sa_street_name analysis) ->
  Database.city p = sa_city analysis ->
  LandScorer.find_street_analysis db p
  = first (fun r => String.eqb (sa_street_name r) (sa_street_name analysis) &&
                    String.eqb (sa_city r) (sa_city analysis)) (street_analysis db).
Proof.
  intros Hs Hc. unfold LandScorer.find_street_analysis. apply first_ext.
  intros r. rewrite Hs, Hc. cbn [col_is]. f_equal. apply String.eqb_sym.
Qed.

(** X13. Saving a street analysis makes it the row the land scorer finds for a
    parcel on that street: the row has the key and the figures of the
    analysis. The other tables and the rows of other streets stay, at most
    one row is added, and distinct keys stay distinct. *)
Theorem save_street_analysis_upserts (utcnow : Z) (db : DB) (analysis : StreetAnalysis) :
  let db' := save_street_analysis utcnow db analysis in
  (forall p, Database.street_name p = Some (sa_street_name analysis) ->
             Database.city p = sa_city analysis ->
             exists row, LandScorer.find_street_analysis db' p = Some row /\
                         street_key row = street_key analysis /\
                         street_figures row = street_figures analysis) /\
  properties db' = properties db /\
  market_heat_zones db' = market_heat_zones db /\
  land_opportunities db' = land_opportunities db /\
  (forall r, In r (street_analysis db) -> street_key r <> street_key analysis ->
             In r (street_analysis db')) /\
  (List.NoDup (map street_key (street_analysis db)) ->
   List.NoDup (map street_key (street_analysis db'))) /\
  (length (street_analysis db) <= length (street_analysis db')
   <= length (street_analysis db) + 1)%nat.
Proof.
  cbv zeta.
  assert (Hkey : forall r,
            String.eqb (sa_street_name r) (sa_street_name analysis) &&
            String.eqb (sa_city r) (sa_city analysis) = true <->
            street_key r = street_key analysis).
  { intros r. unfold street_key. rewrite andb_true_iff, !String.eqb_eq.
    split; [intros [-> ->]; reflexivity | intros [= -> ->]; split; reflexivity]. }
  split; [|split; [reflexivity|split; [reflexivity|split; [reflexivity|]]]].
  - intros p Hs Hc. rewrite (find_street_analysis_by_key _ p analysis Hs Hc).
    unfold save_street_analysis. cbn [street_analysis].
    destruct (first _ (street_analysis db)) as [existing|] eqn:E.
    + eexists. split.
      * apply first_update_first_on; [|exact E]. intros r Hr. exact Hr.
      * split; [|reflexivity]. cbn. unfold first in E. apply find_some in E.
        apply Hkey. exact (proj2 E).
    + exists analysis. split; [|split; reflexivity].
      apply first_app_new; [exact E|]. apply Hkey. reflexivity.
  - unfold save_street_analysis. cbn [street_analysis].
    destruct (first _ (street_analysis db)) as [existing|] eqn:E.
    + split; [|split].
      * intros r Hr Hne. apply update_first_keeps; [exact Hr|].
        apply not_true_is_false. intros H. apply Hne, Hkey, H.
      * rewrite update_first_map_on; [trivial|]. intros r _. reflexivity.
      * rewrite update_first_length. lia.
    + split; [|split].
      * intros r Hr _. apply in_or_app. left. exact Hr.
      * intros Hnd. rewrite map_app. cbn [map]. apply NoDup_snoc; [exact Hnd|].
        rewrite in_map_iff. intros (r & Hid & Hr).
        pose proof (first_none_forall _ _ E r Hr) as Hfalse. cbn beta in Hfalse.
        apply Hkey in Hid. congruence.
      * rewrite length_app. cbn [length]. lia.
Qed.

End StreetUpsertFacts.

(** ** The zone analysis *)

Section ZoneFacts.
Import Database ZoneAnalyzer.
Open Scope Q_scope.

Lemma get_zone_color_cases (v : Q) :
  get_zone_color v = "green"%string \/ get_zone_color v = "light_green"%string \/
  get_zone_color v = "yellow"%string \/ get_zone_color v = "red"%string.
Proof.
  unfold get_zone_color.
  destruct (Py.leb 350 v); [tauto|]. destruct (Py.leb 300 v); [tauto|].
  destruct (Py.leb 220 v); tauto.
Qed.

Lemma zone_of_cons (color : string) (p : Property) (l : list Property) (v : Q) :
  price_per_sqft p = Some v ->
  zone_of color (p :: l)
  = if String.eqb (get_zone_color v) color then p :: zone_of color l else zone_of color l.
Proof. intros H. unfold zone_of. cbn [List.filter]. rewrite H. reflexivity. Qed.

Lemma zones_partition (l : list Property) :
  (forall p, In p l -> exists v, price_per_sqft p = Some v) ->
  (length l = length (zone_of "green" l) + length (zone_of "light_green" l)
              + length (zone_of "yellow" l) + length (zone_of "red" l))%nat.
Proof.
  induction l as [|p l IH]; intros Hpriced; [reflexivity|].
  destruct (Hpriced p (or_introl eq_refl)) as [v Hv].
  rewrite !(zone_of_cons _ p l v Hv).
  specialize (IH (fun q Hq => Hpriced q (or_intror Hq))).
  destruct (get_zone_color_cases v) as [E|[E|[E|E]]]; rewrite E; cbn [String.eqb Ascii.eqb Bool.eqb length];
    cbn [length]; lia.
Qed.

Lemma nearby_properties_priced (db : DB) (lat lng radius : R) (p : Property) :
  In p (nearby_properties db lat lng radius) -> exists v, price_per_sqft p = Some v.
Proof.
  rewrite nearby_properties_filter. intros H. apply filter_In in H. destruct H as [_ H].
  apply andb_true_iff in H. destruct H as [H _].
  apply andb_true_iff in H. destruct H as [_ H].
  unfold priced_and_current in H. apply andb_true_iff in H. destruct H as [H _].
  destruct (price_per_sqft p) as [v|]; [exists v; reflexivity | discriminate].
Qed.

Lemma percents_add_up (a b c d t : Q) :
  t == a + b + c + d -> ~ t == 0 ->
  a / t * 100 + b / t * 100 + c / t * 100 + d / t * 100 == 100 /\
  (a + b) / t * 100 == a / t * 100 + b / t * 100.
Proof.
  intros Ht Hnz. split.
  - rewrite Ht in Hnz |- *. field. exact Hnz.
  - field. exact Hnz.
Qed.

(** X9. The classifiers only produce keys of the dictionaries indexed by
    them: a computed market status is one of the four statuses, so its
    recommendation is never the text for missing data, and the colour of
    either colour ladder is one of the four zone colours. *)
Theorem classifications_are_known_keys :
  (forall inventory price_change dom_change,
     In (MarketHeat.determine_market_status inventory price_change dom_change)
        ["cold"; "stable"; "growing"; "overheated"]%string /\
     MarketHeat.generate_recommendation
       (MarketHeat.determine_market_status inventory price_change dom_change)
     <> "Недостаточно данных для рекомендации."%string) /\
  (forall cfg median,
     In (StreetAnalyzer.determine_color cfg median)
        ["green"; "light_green"; "yellow"; "red"]%string) /\
  (forall price_per_sqft,
     In (get_zone_color price_per_sqft) ["green"; "light_green"; "yellow"; "red"]%string).
Proof.
  split; [|split].
  - intros inventory price_change dom_change. unfold MarketHeat.determine_market_status.
    destruct (Py.ltb 12 inventory); [|destruct (Py.leb 6 inventory);
      [|destruct (Py.ltb 15 price_change)]];
      (split; [cbn; tauto | vm_compute; discriminate]).
  - intros cfg median. unfold StreetAnalyzer.determine_color.
    destruct (Py.leb (threshold_green cfg) median); [cbn; tauto|].
    destruct (Py.leb (threshold_light_green cfg) median); [cbn; tauto|].
    destruct (Py.leb (threshold_yellow cfg) median); cbn; tauto.
  - intros v. destruct (get_zone_color_cases v) as [-> | [-> | [-> | ->]]]; cbn; tauto.
Qed.

(** The shape of a returned analysis. *)
Lemma analysis_shape (db : DB) (lat lng radius : R) (min_properties : Z)
    (a : Analysis) :
  analyze_nearby_zones db lat lng radius min_properties = Py.Return a ->
  (properties_analyzed a
   = length (green_zone a) + length (light_green_zone a)
     + length (yellow_zone a) + length (red_zone a))%nat /\
  (forall s, statistics a = Some s ->
     (min_properties <= Z.of_nat (properties_analyzed a))%Z /\
     green_percent s + light_green_percent s + yellow_percent s + red_percent s == 100 /\
     green_zones_percent s == green_percent s + light_green_percent s /\
     green_zones_total s = (length (green_zone a) + length (light_green_zone a))%nat) /\
  (statistics a = None ->
   (Z.of_nat (properties_analyzed a) < min_properties)%Z /\ score a = 0%Z) /\
  (0 <= score a <= 100)%Z.
Proof.
  unfold analyze_nearby_zones.
  pose proof (zones_partition (nearby_properties db lat lng radius)
                (nearby_properties_priced db lat lng radius)) as Hpart.
  set (nearby := nearby_properties db lat lng radius) in *.
  destruct (min_properties <=? Z.of_nat (length nearby))%Z eqn:Emin.
  - destruct (length nearby =? 0)%nat eqn:E0; [discriminate|].
    intros [= <-]. cbn [properties_analyzed green_zone light_green_zone yellow_zone
                        red_zone statistics score].
    split; [exact Hpart|]. split; [|split].
    + intros s [= <-]. cbn [green_percent light_green_percent yellow_percent red_percent
                            green_zones_percent green_zones_total].
      split; [apply Z.leb_le, Emin|].
      apply Nat.eqb_neq in E0.
      assert (Hnz : ~ inject_Z (Z.of_nat (length nearby)) == 0).
      { intros H. unfold Qeq in H. cbn [Qnum Qden inject_Z] in H. lia. }
      assert (Ht : inject_Z (Z.of_nat (length nearby))
                   == inject_Z (Z.of_nat (length (zone_of "green" nearby)))
                      + inject_Z (Z.of_nat (length (zone_of "light_green" nearby)))
                      + inject_Z (Z.of_nat (length (zone_of "yellow" nearby)))
                      + inject_Z (Z.of_nat (length (zone_of "red" nearby)))).
      { rewrite <- !inject_Z_plus, <- !Nat2Z.inj_add, <- Hpart. reflexivity. }
      destruct (percents_add_up _ _ _ _ _ Ht Hnz) as [Hsum Hgz].
      split; [exact Hsum|]. split; [|reflexivity].
      rewrite Nat2Z.inj_add, inject_Z_plus. exact Hgz.
    + discriminate.
    + unfold calculate_investment_score. lia.
  - intros [= <-]. cbn [properties_analyzed green_zone light_green_zone yellow_zone
                        red_zone statistics score].
    split; [exact Hpart|]. split; [discriminate|]. split; [|lia].
    intros _. split; [apply Z.leb_gt, Emin | reflexivity].
Qed.

(** When the analysis raises: the guard [len(nearby) >= min_properties]
    lets an empty sample through for a minimum of 0 or below. *)
Lemma analysis_raises_iff (db : DB) (lat lng radius : R) (min_properties : Z) :
  (analyze_nearby_zones db lat lng radius min_properties = Py.Raise Py.ZeroDivisionError <->
   (min_properties <= 0)%Z /\ nearby_properties db lat lng radius = []) /\
  ((0 < min_properties)%Z \/ nearby_properties db lat lng radius <> [] ->
   exists a, analyze_nearby_zones db lat lng radius min_properties = Py.Return a).
Proof.
  unfold analyze_nearby_zones.
  set (nearby := nearby_properties db lat lng radius).
  destruct (min_properties <=? Z.of_nat (length nearby))%Z eqn:Emin.
  - destruct (length nearby =? 0)%nat eqn:E0.
    + apply Nat.eqb_eq in E0. apply Z.leb_le in Emin. split.
      * split; [|reflexivity]. intros _. split; [lia|].
        destruct nearby; [reflexivity | discriminate].
      * intros [H | H]; [lia|]. destruct nearby; [congruence | discriminate].
    + apply Nat.eqb_neq in E0. split.
      * split; [discriminate|]. intros [_ H]. rewrite H in E0. cbn in E0. congruence.
      * intros _. eexists. reflexivity.
  - apply Z.leb_gt in Emin. split.
    + split; [discriminate|]. intros [H0 H]. rewrite H in Emin. cbn in Emin. lia.
    + intros _. eexists. reflexivity.
Qed.

(** X19. With the thresholds 350, 300 and 220 the street analyzer assigns the
    colours of the zone analyzer. *)
Theorem get_zone_color_is_determine_color (cfg : Config) (v : Q) :
  threshold_green cfg == 350 -> threshold_light_green cfg == 300 ->
  threshold_yellow cfg == 220 ->
  StreetAnalyzer.determine_color cfg v = get_zone_color v.
Proof.
  intros Hg Hl Hy. unfold StreetAnalyzer.determine_color, get_zone_color, Py.leb.
  assert (E : forall a b, a == b -> Qle_bool a v = Qle_bool b v).
  { intros a b Hab. destruct (Qle_bool a v) eqn:Ea; destruct (Qle_bool b v) eqn:Eb;
      try reflexivity.
    - apply Qle_bool_iff in Ea. rewrite Hab in Ea. apply Qle_bool_iff in Ea. congruence.
    - apply Qle_bool_iff in Eb. rewrite <- Hab in Eb. apply Qle_bool_iff in Eb. congruence. }
  rewrite (E _ _ Hg), (E _ _ Hl), (E _ _ Hy). reflexivity.
Qed.

(** X16. Every row within the radius falls in exactly one of the four colour
    zones, so the zone counts add up to the number of rows analysed. The
    statistics are there exactly when the rows reach the minimum, and then
    the total of the green zones is the number of green and light-green
    rows; without them the score is 0. The score is between 0 and 100. *)
Theorem zones_partition_the_sample (db : DB) (lat lng radius : R) (min_properties : Z)
    (a : Analysis) :
  analyze_nearby_zones db lat lng radius min_properties = Py.Return a ->
  (properties_analyzed a
   = length (green_zone a) + length (light_green_zone a)
     + length (yellow_zone a) + length (red_zone a))%nat /\
  (forall s, statistics a = Some s ->
     (min_properties <= Z.of_nat (properties_analyzed a))%Z /\
     green_zones_total s = (length (green_zone a) + length (light_green_zone a))%nat) /\
  (statistics a = None ->
   (Z.of_nat (properties_analyzed a) < min_properties)%Z /\ score a = 0%Z) /\
  (0 <= score a <= 100)%Z.
Proof.
  intros Ha.
  destruct (analysis_shape db lat lng radius min_properties a Ha)
    as (Hpart & Hsome & Hnone & Hrange).
  split; [exact Hpart|]. split; [|split; [exact Hnone | exact Hrange]].
  intros s Hs. destruct (Hsome s Hs) as (Hmin & _ & _ & Htotal).
  split; [exact Hmin | exact Htotal].
Qed.

(** X17. The analysis raises [ZeroDivisionError] exactly when no row lies
    within the radius and the minimum is 0 or negative; in every other case
    it returns. *)
Theorem analyze_nearby_zones_raises_iff (db : DB) (lat lng radius : R)
    (min_properties : Z) :
  (analyze_nearby_zones db lat lng radius min_properties = Py.Raise Py.ZeroDivisionError <->
   (min_properties <= 0)%Z /\ nearby_properties db lat lng radius = []) /\
  ((0 < min_properties)%Z \/ nearby_properties db lat lng radius <> [] ->
   exists a, analyze_nearby_zones db lat lng radius min_properties = Py.Return a).
Proof. apply analysis_raises_iff. Qed.

End ZoneFacts.

(** ** The search for the best zones *)

Section BestZonesFacts.
Import Database ZoneAnalyzer BestZones RankingSpec.

Lemma insert_by_score_In (x : BestZone) (l : list BestZone) (z : BestZone) :
  In z (insert_by_score x l) <-> z = x \/ In z l.
Proof.
  induction l as [|y l IH]; cbn [insert_by_score].
  - cbn. intuition.
  - destruct (bz_score y <=? bz_score x)%Z; cbn [In]; [intuition|]. rewrite IH. intuition.
Qed.

Lemma insert_by_score_length (x : BestZone) (l : list BestZone) :
  length (insert_by_score x l) = S (length l).
Proof.
  induction l as [|y l IH]; cbn [insert_by_score]; [reflexivity|].
  destruct (bz_score y <=? bz_score x)%Z; cbn [length]; [|rewrite IH]; reflexivity.
Qed.

Lemma insert_by_score_descending (x : BestZone) (l : list BestZone) :
  descending l -> descending (insert_by_score x l).
Proof.
  induction l as [|y l IH]; cbn [insert_by_score descending].
  - intros _. split; [intros ? []|exact I].
  - intros [Hy Hl]. destruct (bz_score y <=? bz_score x)%Z eqn:E.
    + apply Z.leb_le in E. cbn [descending]. split; [|split; assumption].
      intros z [<-|Hz]; [exact E|]. specialize (Hy z Hz). lia.
    + apply Z.leb_gt in E. cbn [descending]. split; [|apply IH, Hl].
      intros z Hz. apply (proj1 (insert_by_score_In _ _ _)) in Hz. destruct Hz as [->|Hz]; [lia|].
      apply Hy, Hz.
Qed.

Lemma sort_by_score_In (l : list BestZone) (z : BestZone) :
  In z (sort_by_score l) <-> In z l.
Proof.
  unfold sort_by_score. induction l as [|y l IH]; cbn [fold_right]; [reflexivity|].
  rewrite insert_by_score_In, IH. cbn. intuition.
Qed.

Lemma sort_by_score_length (l : list BestZone) : length (sort_by_score l) = length l.
Proof.
  unfold sort_by_score. induction l as [|y l IH]; cbn [fold_right]; [reflexivity|].
  rewrite insert_by_score_length, IH. reflexivity.
Qed.

Lemma sort_by_score_descending (l : list BestZone) : descending (sort_by_score l).
Proof.
  unfold sort_by_score. induction l as [|y l IH]; cbn [fold_right]; [exact I|].
  apply insert_by_score_descending, IH.
Qed.

Lemma In_firstn {A} (n : nat) (l : list A) (x : A) : In x (firstn n l) -> In x l.
Proof.
  revert l. induction n as [|n IH]; intros [|y l]; cbn [firstn]; try contradiction.
  intros [->|H]; [left; reflexivity | right; apply IH, H].
Qed.

Lemma scan_returns (db : DB) (min_score : Z) (sample : list Property) :
  exists zones, scan db min_score sample = Py.Return zones /\
    (length zones <= length sample)%nat /\
    forall z, In z zones -> entry_of db min_score sample z.
Proof.
  induction sample as [|prop rest (zones & Hscan & Hlen & Hall)]; cbn [scan].
  - exists []. split; [reflexivity|]. split; [cbn; lia|]. intros z [].
  - assert (Hweaken : forall z, entry_of db min_score rest z ->
                                entry_of db min_score (prop :: rest) z).
    { intros z ((q & Hq & Hrest) & Hz). split; [|exact Hz].
      exists q. split; [right; exact Hq | exact Hrest]. }
    destruct (latitude prop) as [lat|] eqn:Elat;
      [destruct (longitude prop) as [lng|] eqn:Elng|].
    + destruct (proj2 (analysis_raises_iff db lat lng 1%R 5)) as [a Ha];
        [left; reflexivity|].
      rewrite Ha, Hscan. cbn [Py.bind].
      destruct (analysis_shape db lat lng 1%R 5 a Ha) as (_ & Hsome & Hnone & Hrange).
      destruct (min_score <=? score a)%Z eqn:E.
      * eexists. split; [reflexivity|]. split; [cbn [length]; lia|].
        intros z [<-|Hz]; [|apply Hweaken, Hall, Hz].
        split; [|split]; cbn [bz_lat bz_lng bz_city bz_score bz_properties_analyzed].
        -- exists prop. split; [left; reflexivity|]. repeat split; assumption.
        -- apply Z.leb_le in E. lia.
        -- intros Hpos. destruct (statistics a) as [s|] eqn:Es.
           ++ pose proof (proj1 (Hsome s eq_refl)) as Hmin. lia.
           ++ destruct (Hnone eq_refl) as [_ H0]. lia.
      * exists zones. split; [reflexivity|]. split; [cbn [length]; lia|].
        intros z Hz. apply Hweaken, Hall, Hz.
    + exists zones. split; [exact Hscan|]. split; [cbn [length]; lia|].
      intros z Hz. apply Hweaken, Hall, Hz.
    + exists zones. split; [exact Hscan|]. split; [cbn [length]; lia|].
      intros z Hz. apply Hweaken, Hall, Hz.
Qed.

(** X20. The search never raises. It returns at most [sample_size] entries, from
    the highest score to the lowest; every entry stands at the coordinates
    of a row of the repository that is not archived, has a score between
    [min_score] and 100, and, when its score is positive, was analysed on
    at least five rows. *)
Theorem find_best_zones_returns_ranked (db : DB) (city : option string) (min_score : Z)
    (sample_size : nat) :
  exists zones, find_best_zones db city min_score sample_size = Py.Return zones /\
    (length zones <= sample_size)%nat /\
    descending zones /\
    forall z, In z zones ->
      (exists prop, In prop (properties db) /\ archived prop = false /\
         latitude prop = Some (bz_lat z) /\ longitude prop = Some (bz_lng z) /\
         bz_city z = Database.city prop) /\
      (min_score <= bz_score z <= 100)%Z /\
      ((0 < bz_score z)%Z -> (5 <= bz_properties_analyzed z)%nat).
Proof.
  unfold find_best_zones.
  destruct (scan_returns db min_score (sample_properties db city sample_size))
    as (zones & Hscan & Hlen & Hall).
  rewrite Hscan. cbn [Py.bind]. eexists. split; [reflexivity|].
  split; [|split; [apply sort_by_score_descending|]].
  - rewrite sort_by_score_length. etransitivity; [exact Hlen|].
    unfold sample_properties. rewrite length_firstn. lia.
  - intros z Hz. apply (proj1 (sort_by_score_In _ _)) in Hz.
    destruct (Hall z Hz) as ((prop & Hprop & Hlat & Hlng & Hcity) & Hscore & Hfive).
    split; [|split; assumption].
    exists prop. unfold sample_properties in Hprop.
    apply In_firstn, filter_In in Hprop. destruct Hprop as [Hin Hf].
    apply andb_true_iff in Hf. destruct Hf as [Hf _].
    apply andb_true_iff in Hf. destruct Hf as [_ Harch].
    apply negb_true_iff in Harch. repeat split; assumption.
Qed.

End BestZonesFacts.

(** ** The investment score and the share of green zones *)

Section ZoneScoreFacts.
Import Database ZoneAnalyzer.
Open Scope Q_scope.

Lemma int_lower_bound (x : Q) (n : Z) : (0 <= n)%Z -> inject_Z n <= x -> (n <= int x)%Z.
Proof.
  intros Hn H. unfold int. unfold Qle in H. cbn [Qnum Qden inject_Z] in H.
  rewrite Z.mul_1_r in H.
  apply Z.quot_le_lower_bound; [reflexivity|]. lia.
Qed.

Lemma percent_nonneg (n total : nat) :
  0 <= inject_Z (Z.of_nat n) / inject_Z (Z.of_nat total) * 100.
Proof.
  apply Qmult_le_0_compat; [|discriminate].
  unfold Qdiv. apply Qmult_le_0_compat.
  - change 0 with (inject_Z 0). rewrite <- Zle_Qle. lia.
  - apply Qinv_le_0_compat. change 0 with (inject_Z 0). rewrite <- Zle_Qle. lia.
Qed.

Lemma investment_score_lower_bound (s : Statistics) (bound : Z) (raw : Q) :
  (0 <= bound <= 100)%Z ->
  inject_Z bound <= raw ->
  (bound <= Z.max 0 (Z.min 100 (int raw)))%Z.
Proof.
  intros Hb Hraw. pose proof (int_lower_bound raw bound (proj1 Hb) Hraw). lia.
Qed.

(** X18. The share of green and light-green rows bounds the score from below:
    three quarters or more give the full 100, 60 percent at least 75, half
    at least 50, and 40 percent at least 25. *)
Theorem green_share_bounds_score (db : DB) (lat lng radius : R) (min_properties : Z)
    (a : Analysis) (s : Statistics) :
  analyze_nearby_zones db lat lng radius min_properties = Py.Return a ->
  statistics a = Some s ->
  (75 <= green_zones_percent s -> score a = 100%Z) /\
  (60 <= green_zones_percent s -> (75 <= score a)%Z) /\
  (50 <= green_zones_percent s -> (50 <= score a)%Z) /\
  (40 <= green_zones_percent s -> (25 <= score a)%Z).
Proof.
  intros Ha Hs.
  destruct (analysis_shape db lat lng radius min_properties a Ha) as (_ & Hsome & _ & Hrange).
  destruct (Hsome s Hs) as (_ & Hsum & Hgz & _).
  assert (Hnn : 0 <= green_percent s /\ 0 <= light_green_percent s /\
                0 <= yellow_percent s /\ 0 <= red_percent s /\
                score a = calculate_investment_score s).
  { revert Ha Hs. unfold analyze_nearby_zones.
    destruct (min_properties <=? _)%Z.
    - destruct (_ =? 0)%nat; [discriminate|]. intros [= <-]. cbn [statistics score].
      intros [= <-]. cbn [green_percent light_green_percent yellow_percent red_percent].
      repeat split; apply percent_nonneg.
    - intros [= <-]. cbn [statistics]. discriminate. }
  destruct Hnn as (Hg & Hl & Hy & Hr & Hscore).
  rewrite Hscore in *. unfold calculate_investment_score in *.
  set (g := green_percent s) in *. set (l := light_green_percent s) in *.
  set (y := yellow_percent s) in *. set (r := red_percent s) in *.
  set (gz := green_zones_percent s) in *.
  set (base := 40 + g / 25 * 35 + l / 25 * 25 + y / 25 * 10 - r / 25 * 25) in *.
  assert (Hbase : base == 40 + g * (7 # 5) + l + y * (2 # 5) - r) by (unfold base; field).
  destruct (Py.leb 75 gz) eqn:E75.
  { apply leb_true in E75.
    assert (Hraw : inject_Z 100 <= base + 25)
      by (change (inject_Z 100) with 100; Lqa.lra).
    pose proof (investment_score_lower_bound s 100 _ ltac:(lia) Hraw) as Hlow.
    repeat split; intros _; lia. }
  apply leb_false in E75.
  destruct (Py.leb 60 gz) eqn:E60.
  { apply leb_true in E60.
    assert (Hraw : inject_Z 75 <= base + 15)
      by (change (inject_Z 75) with 75; Lqa.lra).
    pose proof (investment_score_lower_bound s 75 _ ltac:(lia) Hraw) as Hlow.
    split; [intros H; exfalso; Lqa.lra|]. repeat split; intros _; lia. }
  apply leb_false in E60.
  destruct (Py.leb 50 gz) eqn:E50.
  { apply leb_true in E50.
    assert (Hraw : inject_Z 50 <= base + 10)
      by (change (inject_Z 50) with 50; Lqa.lra).
    pose proof (investment_score_lower_bound s 50 _ ltac:(lia) Hraw) as Hlow.
    split; [intros H; exfalso; Lqa.lra|]. split; [intros H; exfalso; Lqa.lra|].
    repeat split; intros _; lia. }
  apply leb_false in E50.
  destruct (Py.leb 40 gz) eqn:E40.
  { apply leb_true in E40.
    assert (Hraw : inject_Z 25 <= base + 5)
      by (change (inject_Z 25) with 25; Lqa.lra).
    pose proof (investment_score_lower_bound s 25 _ ltac:(lia) Hraw) as Hlow.
    split; [intros H; exfalso; Lqa.lra|]. split; [intros H; exfalso; Lqa.lra|].
    split; [intros H; exfalso; Lqa.lra|]. intros _; lia. }
  apply leb_false in E40.
  repeat split; intros H; exfalso; Lqa.lra.
Qed.

End ZoneScoreFacts.

(** ** Batches and restarts of the geocoder *)

Section GeocoderMore.
Import Geocoder GeocoderSpec GeocoderBatch RestartSpec.

Variable cfg : Config.
Variable geocode : nat -> string -> reply.
Variable random : nat -> R.
Variable write_ok : nat -> bool.
Variable strip_title : string -> string.
Variable extract_street_name : string -> string.
Variable search_zip : string -> option string.

Local Abbreviation geocode_address :=
  (Geocoder.geocode_address cfg geocode random write_ok strip_title
     extract_street_name search_zip).
Local Abbreviation batch_loop :=
  (GeocoderBatch.batch_loop cfg geocode random write_ok strip_title
     extract_street_name search_zip).
Local Abbreviation batch_geocode :=
  (GeocoderBatch.batch_geocode cfg geocode random write_ok strip_title
     extract_street_name search_zip).

Lemma geocode_address_grows (address : string) (w : World) :
  exists xy w' m',
    geocode_address address w = (Some xy, w') /\
    mem_cache w' = Some m' /\ loaded_cache w ⊆ m' /\
    m' !! strip_title address = Some xy /\
    (length (calls w) <= length (calls w') <= length (calls w) + 5)%nat /\
    (loaded_cache w !! strip_title address = Some xy -> w' = loaded w).
Proof.
  destruct (geocode_address_spec cfg geocode random write_ok strip_title
              extract_street_name search_zip (fun _ => True) (fun _ _ _ => I)
              (fallback_center_returns cfg random) address w)
    as (xy & w' & E & Hcalls & [[Hhit ->]|(Hmiss & _ & Hm & _)]).
  - exists xy, (loaded w), (loaded_cache w). repeat split; try assumption; try reflexivity;
      cbn in *; lia.
  - eexists xy, w', _. split; [exact E|]. split; [exact Hm|].
    split; [apply insert_subseteq, Hmiss|]. split; [apply lookup_insert_eq|].
    split; [exact Hcalls|]. intros Hhit. congruence.
Qed.

Lemma batch_loop_spec (addresses : list string) :
  (forall a, strip_title (strip_title a) = strip_title a) ->
  forall w m, mem_cache w = Some m ->
  exists results w' m',
    batch_loop addresses w = (results, w') /\
    mem_cache w' = Some m' /\ m ⊆ m' /\
    results = map (fun a => m' !! strip_title a) addresses /\
    Forall (fun r : option coords => is_Some r) results /\
    (length (calls w) <= length (calls w')
     <= length (calls w) + 5 * length addresses)%nat.
Proof.
  intros Hidem. induction addresses as [|a rest IH]; intros w m Hm.
  - exists [], w, m. repeat split; try reflexivity; try assumption; try constructor.
    all: cbn; lia.
  - cbn [GeocoderBatch.batch_loop]. unfold bind at 1. unfold read_cache at 1. rewrite Hm.
    destruct (m !! strip_title a) as [c|] eqn:Ehit.
    + destruct (IH w m Hm) as (results & w' & m' & E & Hm' & Hsub & Hres & Hall & Hcalls).
      unfold bind. rewrite E. exists (Some c :: results), w', m'.
      split; [reflexivity|]. split; [exact Hm'|]. split; [exact Hsub|].
      split; [|split].
      * cbn [map]. rewrite <- Hres. f_equal. symmetry.
        eapply lookup_weaken; [exact Ehit | exact Hsub].
      * constructor; [eexists; reflexivity | exact Hall].
      * cbn [length]. lia.
    + destruct (geocode_address_grows (strip_title a) w)
        as (xy & w1 & m1 & E1 & Hm1 & Hsub1 & Hkey & Hcalls1 & _).
      rewrite Hidem in Hkey.
      assert (Hlc : loaded_cache w = m) by (unfold loaded_cache; rewrite Hm; reflexivity).
      rewrite Hlc in Hsub1.
      unfold bind at 1. rewrite E1. unfold bind at 1, time_sleep at 1. unfold bind at 1.
      match goal with
      | |- context [GeocoderBatch.batch_loop _ _ _ _ _ _ _ rest ?w0] =>
          destruct (IH w0 m1 Hm1) as (results & w' & m' & E & Hm' & Hsub & Hres & Hall & Hcalls)
      end.
      rewrite E. exists (Some xy :: results), w', m'.
      split; [reflexivity|]. split; [exact Hm'|].
      split; [etransitivity; eassumption|]. split; [|split].
      * cbn [map]. rewrite <- Hres. f_equal. symmetry.
        eapply lookup_weaken; [exact Hkey | exact Hsub].
      * constructor; [eexists; reflexivity | exact Hall].
      * cbn [calls] in Hcalls. cbn [length]. lia.
Qed.

(** X21. A batch returns one coordinate per address, never [None]: each is the
    entry of the final cache under the normalized address, so that equal
    normalized addresses get the identical coordinate; entries cached
    before the batch are kept, and at most five queries per address are
    sent. *)
Theorem batch_geocode_reads_final_cache (addresses : list string) (w : World) :
  (forall a, strip_title (strip_title a) = strip_title a) ->
  exists results w' final,
    batch_geocode addresses w = (results, w') /\
    mem_cache w' = Some final /\
    loaded_cache w ⊆ final /\
    results = map (fun a => final !! strip_title a) addresses /\
    Forall (fun r : option coords => is_Some r) results /\
    (length (calls w) <= length (calls w')
     <= length (calls w) + 5 * length addresses)%nat.
Proof.
  intros Hidem. unfold GeocoderBatch.batch_geocode, bind.
  assert (Hload : load_geocode_cache w = (loaded_cache w, loaded w)).
  { unfold load_geocode_cache, loaded_cache, loaded.
    destruct w as [[m|] f c d wr s]; reflexivity. }
  rewrite Hload.
  destruct (batch_loop_spec addresses Hidem (loaded w) (loaded_cache w) eq_refl)
    as (results & w' & m' & E & Hm' & Hsub & Hres & Hall & Hcalls).
  cbn [calls loaded] in Hcalls. exists results, w', m'.
  split; [exact E|]. split; [exact Hm'|]. split; [exact Hsub|].
  split; [exact Hres|]. split; [exact Hall | exact Hcalls].
Qed.

Lemma primary_geocode_durable (address : string) (remaining : nat) :
  (forall n, write_ok n = true) ->
  forall attempt w xy w',
    Geocoder.primary_geocode cfg geocode write_ok address remaining attempt w
    = (Some xy, w') ->
    cache_file w' = mem_cache w'.
Proof.
  intros Hok. induction remaining as [|remaining IH]; intros attempt w xy w'.
  { cbn. discriminate. }
  cbn [Geocoder.primary_geocode]. unfold bind at 1. unfold geolocator_geocode at 1.
  destruct (geocode (length (calls w)) (address ++ ", Asheville, NC")%string)
    as [latitude longitude| | |].
  - destruct (validate_coordinates cfg latitude longitude).
    + cbn. rewrite Hok. intros [= _ <-]. reflexivity.
    + cbn. discriminate.
  - cbn. discriminate.
  - destruct (attempt <? 2)%nat; [|cbn; discriminate].
    unfold bind, time_sleep. apply IH.
  - cbn. discriminate.
Qed.

(** X22. When writing the cache file never fails, a resolution leaves the file
    with the cache in use, and the same address resolved by a new process
    gets the identical coordinate from the file, without a query to the
    geocoder. *)
Theorem resolution_survives_restart (address : string) (w w1 : World)
    (result : option coords) :
  (forall n, write_ok n = true) ->
  in_sync w ->
  geocode_address address w = (result, w1) ->
  in_sync w1 /\
  exists w2, geocode_address address (restart w1) = (result, w2) /\
             calls w2 = calls w1 /\ in_sync w2.
Proof.
  intros Hok Hsync Hres.
  assert (Hload : forall v, load_geocode_cache v = (loaded_cache v, loaded v)).
  { intros v. unfold load_geocode_cache, loaded_cache, loaded.
    destruct v as [[m|] f c d wr s]; reflexivity. }
  assert (Hkeep : in_sync w1 /\ exists xy m1, result = Some xy /\
            mem_cache w1 = Some m1 /\ m1 !! strip_title address = Some xy).
  { revert Hres. unfold Geocoder.geocode_address. unfold bind at 1. rewrite Hload.
    destruct (loaded_cache w !! strip_title address) as [xy|] eqn:Ehit.
    { intros [= <- <-]. split.
      - exact Hsync.
      - exists xy, (loaded_cache w). repeat split. exact Ehit. }
    unfold bind at 1.
    destruct (primary_geocode_spec cfg geocode write_ok (strip_title address) 3 0 (loaded w))
      as (found & wp & Ep & _ & Hfound); [reflexivity|].
    rewrite Ep. destruct found as [xy|].
    - intros [= <- <-]. destruct Hfound as (_ & Hm & _).
      pose proof (primary_geocode_durable _ _ Hok _ _ _ _ Ep) as Hfile.
      split.
      + unfold in_sync, loaded_cache, restart. cbn [mem_cache cache_file].
        rewrite Hfile, Hm. reflexivity.
      + eexists xy, _. split; [reflexivity|]. split; [exact Hm | apply lookup_insert_eq].
    - destruct Hfound as (Hm & Hf). unfold bind at 1.
      destruct (fallback_geocode_falls_back cfg geocode random extract_street_name search_zip
                  (fun _ => True) (fun _ _ _ => I) (fallback_center_returns cfg random)
                  (strip_title address) wp)
        as (xy & wf & Ef & _ & Hm2 & Hf2 & Hw2 & _).
      rewrite Ef. cbn. rewrite Hok. intros [= <- <-]. split.
      + unfold in_sync, loaded_cache, restart. cbn [mem_cache cache_file]. reflexivity.
      + eexists xy, _. split; [reflexivity|]. split; [reflexivity | apply lookup_insert_eq]. }
  destruct Hkeep as (Hsync1 & xy & m1 & -> & Hm1 & Hkey).
  split; [exact Hsync1|].
  exists (loaded (restart w1)).
  assert (Hlc : loaded_cache (restart w1) = m1).
  { rewrite Hsync1. unfold loaded_cache. rewrite Hm1. reflexivity. }
  split; [|split].
  - unfold Geocoder.geocode_address. unfold bind at 1. rewrite Hload, Hlc, Hkey. reflexivity.
  - reflexivity.
  - unfold in_sync. unfold loaded_cache, restart, loaded. cbn. reflexivity.
Qed.

End GeocoderMore.

(** ** Price per square foot and days on market *)

Section PriceFacts.
Import PriceCalculator.
Open Scope Q_scope.

Lemma scaled_round_near (x k : Q) :
  0 < k ->
  x - (1 # 2) / k <= inject_Z (Py.round (x * k)) / k <= x + (1 # 2) / k.
Proof.
  intros Hk. pose proof (round_near (x * k)) as [Hlo Hhi].
  assert (Hnz : ~ k == 0) by (intros H; rewrite H in Hk; discriminate).
  split.
  - apply Qle_shift_div_l; [exact Hk|].
    assert (E : (x - (1 # 2) / k) * k == x * k - (1 # 2)) by (field; exact Hnz).
    rewrite E. exact Hlo.
  - apply Qle_shift_div_r; [exact Hk|].
    assert (E : (x + (1 # 2) / k) * k == x * k + (1 # 2)) by (field; exact Hnz).
    rewrite E. exact Hhi.
Qed.

Lemma round_nd_2_near (x : Q) :
  x - (1 # 200) <= Py.round_nd x 2 <= x + (1 # 200).
Proof.
  unfold Py.round_nd. change (inject_Z (10 ^ Z.of_nat 2)) with 100.
  pose proof (scaled_round_near x 100 eq_refl) as [Hlo Hhi].
  assert (E : (1 # 2) / 100 == 1 # 200) by reflexivity.
  rewrite E in Hlo, Hhi. split; assumption.
Qed.

Lemma round_nonneg (x : Q) : 0 <= x -> (0 <= Py.round x)%Z.
Proof.
  intros H. change 0%Z with (Py.round 0). apply round_monotone. exact H.
Qed.

Lemma round_nd_2_nonneg (x : Q) : 0 <= x -> 0 <= Py.round_nd x 2.
Proof.
  intros H. unfold Py.round_nd. change (inject_Z (10 ^ Z.of_nat 2)) with 100.
  apply Qle_shift_div_l; [reflexivity|]. rewrite Qmult_0_l.
  change 0 with (inject_Z 0). rewrite <- Zle_Qle. apply round_nonneg.
  apply Qmult_le_0_compat; [exact H | discriminate].
Qed.

Lemma round_nd_2_small (x : Q) : 0 <= x -> x < 1 # 200 -> Py.round_nd x 2 = 0 # 100.
Proof.
  intros H0 H1. unfold Py.round_nd. change (inject_Z (10 ^ Z.of_nat 2)) with 100.
  assert (Hr : Py.round (x * 100) = 0%Z).
  { assert (Hpos : 0 <= x * 100) by (apply Qmult_le_0_compat; [exact H0 | discriminate]).
    pose proof (round_nonneg _ Hpos) as Hge.
    pose proof (round_near (x * 100)) as [_ Hhi].
    destruct (Z_le_gt_dec (Py.round (x * 100)) 0) as [Hle|Hgt]; [lia|exfalso].
    pose proof (inject_Z_succ_le 0 (Py.round (x * 100)) ltac:(lia)) as Hq.
    change (inject_Z 0) with 0 in Hq. Lqa.lra. }
  rewrite Hr. reflexivity.
Qed.


Lemma days_pos : (0 < Py.days 1)%Z.
Proof. reflexivity. Qed.

(** X24. Days on market are never negative and count the whole days between
    listing and sale, or between listing and now while unsold: [d] days
    means at least [d] and less than [d + 1] days elapsed, and a sale on
    or before the listing date gives 0. *)
Theorem days_on_market_whole_days (now list_date : Z) (sale_date : option Z) :
  let until := match sale_date with Some sold => sold | None => now end in
  let d := calculate_days_on_market now list_date sale_date in
  (0 <= d)%Z /\
  (list_date <= until -> Py.days d <= until - list_date < Py.days (d + 1))%Z /\
  (until <= list_date -> d = 0)%Z.
Proof.
  cbv zeta.
  assert (H : forall u, (0 <= Z.max (delta_days u list_date) 0)%Z /\
            (list_date <= u -> Py.days (Z.max (delta_days u list_date) 0) <= u - list_date
                               < Py.days (Z.max (delta_days u list_date) 0 + 1))%Z /\
            (u <= list_date -> Z.max (delta_days u list_date) 0 = 0)%Z).
  { intros u. unfold delta_days, Py.days. rewrite Z.mul_1_l.
    set (day := 86400000000%Z).
    assert (Hday : (0 < day)%Z) by reflexivity.
    pose proof (Z.div_mod (u - list_date) day ltac:(lia)) as Hdm.
    pose proof (Z.mod_pos_bound (u - list_date) day Hday) as Hmod.
    split; [lia|]. split.
    - intros Hle.
      assert (0 <= (u - list_date) / day)%Z by (apply Z.div_pos; lia).
      rewrite Z.max_l by lia. nia.
    - intros Hle. destruct (Z.eq_dec u list_date) as [->|Hne].
      + rewrite Z.sub_diag, Z.div_0_l by lia. reflexivity.
      + assert ((u - list_date) / day < 0)%Z by (apply Z.div_lt_upper_bound; lia).
        lia. }
  destruct sale_date as [sold|]; apply H.
Qed.

End PriceFacts.

(** ** Archiving *)

Section ArchiveFacts.
Import Database MlsImporter ArchiveSpec.

Lemma filter_map_fixed {A} (f : A -> bool) (g : A -> A) (l : list A) :
  (forall p, g p = p \/ (f (g p) = false /\ f p = false)) ->
  List.filter f (map g l) = List.filter f l.
Proof.
  intros H. induction l as [|p l IH]; [reflexivity|].
  cbn [map List.filter]. rewrite IH.
  destruct (H p) as [->|[-> ->]]; reflexivity.
Qed.

Lemma filter_map_commute {A} (f : A -> bool) (g : A -> A) (l : list A) :
  (forall p, f (g p) = f p) ->
  List.filter f (map g l) = map g (List.filter f l).
Proof.
  intros H. induction l as [|p l IH]; [reflexivity|].
  cbn [map List.filter]. rewrite H, IH. destruct (f p); reflexivity.
Qed.

Lemma flat_map_map_fixed {A B} (f : A -> list B) (g : A -> A) (l : list A) :
  (forall p, f (g p) = f p) -> flat_map f (map g l) = flat_map f l.
Proof.
  intros H. induction l as [|p l IH]; [reflexivity|].
  cbn [map flat_map]. rewrite H, IH. reflexivity.
Qed.

Lemma to_archive_inv (cutoff_date : Z) (p : Property) :
  to_archive cutoff_date p = true ->
  status p = "sold"%string /\ archived p = false /\
  exists d, sale_date p = Some d /\ (d < cutoff_date)%Z.
Proof.
  unfold to_archive. intros H.
  apply andb_true_iff in H. destruct H as [H Ha].
  apply andb_true_iff in H. destruct H as [Hs Hd].
  split; [apply String.eqb_eq, Hs|]. split; [apply negb_true_iff, Ha|].
  destruct (sale_date p) as [d|]; [|discriminate].
  exists d. split; [reflexivity | apply Z.ltb_lt, Hd].
Qed.

Lemma to_archive_archive_row (cutoff_date : Z) (p : Property) :
  to_archive cutoff_date (archive_row cutoff_date p) = false.
Proof.
  unfold archive_row. destruct (to_archive cutoff_date p) eqn:E; [|exact E].
  unfold to_archive. cbn [archived set_archived]. apply andb_false_r.
Qed.

Lemma archive_row_fixed (cutoff_date : Z) (p : Property) :
  to_archive cutoff_date p = false -> archive_row cutoff_date p = p.
Proof. unfold archive_row. intros ->. reflexivity. Qed.

Lemma count_archived (cutoff_date : Z) (l : list Property) :
  (length (List.filter archived (map (archive_row cutoff_date) l))
   = length (List.filter archived l) + length (List.filter (to_archive cutoff_date) l))%nat.
Proof.
  induction l as [|p l IH]; [reflexivity|].
  cbn [map List.filter]. unfold archive_row at 1.
  destruct (to_archive cutoff_date p) eqn:E.
  - destruct (to_archive_inv _ _ E) as (_ & Ha & _). rewrite Ha.
    cbn [archived set_archived length]. rewrite IH. lia.
  - destruct (archived p); cbn [length]; rewrite IH; lia.
Qed.

Lemma archive_rows_fixed (cutoff_date : Z) (l : list Property) :
  map (archive_row cutoff_date) (map (archive_row cutoff_date) l)
  = map (archive_row cutoff_date) l.
Proof.
  rewrite map_map. apply map_ext. intros p.
  apply archive_row_fixed, to_archive_archive_row.
Qed.

Lemma archive_rows_none (cutoff_date : Z) (l : list Property) :
  List.filter (to_archive cutoff_date) (map (archive_row cutoff_date) l) = [].
Proof.
  induction l as [|p l IH]; [reflexivity|].
  cbn [map List.filter]. rewrite to_archive_archive_row. exact IH.
Qed.


Lemma days_monotone (a b : Z) : (a <= b)%Z -> (Py.days a <= Py.days b)%Z.
Proof. unfold Py.days. lia. Qed.

Lemma archive_row_same_sale (cutoff_date : Z) (p : Property) :
  zip (archive_row cutoff_date p) = zip p /\
  status (archive_row cutoff_date p) = status p /\
  sale_date (archive_row cutoff_date p) = sale_date p /\
  price_per_sqft (archive_row cutoff_date p) = price_per_sqft p /\
  days_on_market (archive_row cutoff_date p) = days_on_market p.
Proof. unfold archive_row. destruct (to_archive cutoff_date p); repeat split. Qed.

Lemma window_change_archived (metric : Property -> option Q) (cutoff_date now : Z)
    (db : DB) (zip_code : string) :
  (forall p, metric (archive_row cutoff_date p) = metric p) ->
  MarketHeat.window_change metric now
    {| properties := map (archive_row cutoff_date) (properties db);
       street_analysis := street_analysis db;
       market_heat_zones := market_heat_zones db;
       land_opportunities := land_opportunities db |} zip_code
  = MarketHeat.window_change metric now db zip_code.
Proof.
  intros Hmetric. unfold MarketHeat.window_change. cbv zeta. cbn [properties].
  assert (Hsame : forall p,
            MarketHeat.zip_is zip_code (archive_row cutoff_date p)
            = MarketHeat.zip_is zip_code p /\
            status (archive_row cutoff_date p) = status p /\
            sale_date (archive_row cutoff_date p) = sale_date p).
  { intros p. destruct (archive_row_same_sale cutoff_date p) as (Hz & Hs & Hd & _).
    unfold MarketHeat.zip_is. rewrite Hz. repeat split; assumption. }
  rewrite !(filter_map_commute _ (archive_row cutoff_date)).
  - rewrite !length_map, !map_map.
    rewrite !(map_ext (fun x => match metric (archive_row cutoff_date x) with
                                | Some v => v | None => 0%Q end)
                      (fun p => match metric p with Some v => v | None => 0%Q end))
      by (intros p; rewrite Hmetric; reflexivity).
    reflexivity.
  - intros p. destruct (Hsame p) as (-> & -> & ->). rewrite Hmetric. reflexivity.
  - intros p. destruct (Hsame p) as (-> & -> & ->). rewrite Hmetric. reflexivity.
Qed.

(** X26. Archiving leaves every figure of the market-heat analysis as it was.
    When sales are kept at least 365 days before they are archived, it
    also leaves the sample of every street and the comparables of every
    parcel as they were, for an analysis run at the time of the archiving
    or later. *)
Theorem archiving_keeps_analyses (days now : Z) (db : DB) :
  (forall clock zip_code,
     MarketHeat.get_sold_last_90d_count clock (snd (archive_old_properties days now db))
       zip_code
     = MarketHeat.get_sold_last_90d_count clock db zip_code /\
     MarketHeat.get_active_listings_count (snd (archive_old_properties days now db)) zip_code
     = MarketHeat.get_active_listings_count db zip_code /\
     MarketHeat.calculate_price_change_90d clock (snd (archive_old_properties days now db))
       zip_code
     = MarketHeat.calculate_price_change_90d clock db zip_code /\
     MarketHeat.calculate_dom_change clock (snd (archive_old_properties days now db))
       zip_code
     = MarketHeat.calculate_dom_change clock db zip_code) /\
  ((365 <= days)%Z ->
   forall clock, (now <= clock)%Z ->
     (forall street city,
        StreetAnalyzer.get_properties_by_street clock
          (snd (archive_old_properties days now db)) street city
        = StreetAnalyzer.get_properties_by_street clock db street city) /\
     (forall lat lon radius,
        LandScorer.get_nearby_properties clock
          (snd (archive_old_properties days now db)) lat lon radius
        = LandScorer.get_nearby_properties clock db lat lon radius)).
Proof.
  unfold archive_old_properties. cbn [snd].
  fold (archive_row (now - Py.days days)).
  set (cutoff := (now - Py.days days)%Z).
  split.
  - intros clock zip_code. split; [|split; [|split]].
    + unfold MarketHeat.get_sold_last_90d_count. cbn [properties].
      rewrite filter_map_commute, length_map; [reflexivity|].
      intros p. destruct (archive_row_same_sale cutoff p) as (Hz & Hs & Hd & _).
      unfold MarketHeat.zip_is, MarketHeat.sold_since. rewrite Hz, Hs, Hd. reflexivity.
    + unfold MarketHeat.get_active_listings_count. cbn [properties].
      rewrite filter_map_fixed; [reflexivity|].
      intros p. unfold archive_row. destruct (to_archive cutoff p) eqn:E; [right | left; reflexivity].
      destruct (to_archive_inv _ _ E) as (Hs & _).
      cbn [status set_archived]. rewrite Hs. cbn. rewrite !andb_false_r. split; reflexivity.
    + apply window_change_archived.
      intros p. apply (archive_row_same_sale cutoff p).
    + apply window_change_archived.
      intros p. destruct (archive_row_same_sale cutoff p) as (_ & _ & _ & _ & ->). reflexivity.
  - intros Hdays clock Hclock.
    assert (Hcut : (cutoff <= clock - Py.days 365)%Z).
    { unfold cutoff. pose proof (days_monotone 365 days Hdays). lia. }
    split.
    + intros street city. unfold StreetAnalyzer.get_properties_by_street. cbn [properties].
      rewrite !(filter_map_fixed _ (archive_row cutoff)); [reflexivity| |].
      * intros p. unfold archive_row.
        destruct (to_archive cutoff p) eqn:E; [right | left; reflexivity].
        destruct (to_archive_inv _ _ E) as (Hs & _).
        cbn [status set_archived archived]. rewrite Hs. cbn.
        rewrite !andb_false_r. split; reflexivity.
      * intros p. unfold archive_row.
        destruct (to_archive cutoff p) eqn:E; [right | left; reflexivity].
        destruct (to_archive_inv _ _ E) as (Hs & Ha & d & Hd & Hlt).
        cbn [status set_archived archived sale_date]. rewrite Hd.
        assert (Hold : (clock - Py.days 365 <=? d)%Z = false) by (apply Z.leb_gt; lia).
        rewrite Hold. cbn. rewrite !andb_false_r. split; reflexivity.
    + intros lat lon radius. unfold LandScorer.get_nearby_properties. cbn [properties].
      apply flat_map_map_fixed. intros p. unfold archive_row.
      destruct (to_archive cutoff p) eqn:E; [|reflexivity].
      destruct (to_archive_inv _ _ E) as (Hs & Ha & d & Hd & Hlt).
      cbn [latitude longitude archived status sale_date set_archived].
      rewrite Hs, Ha, Hd.
      assert (Hold : (clock - Py.days 365 <=? d)%Z = false) by (apply Z.leb_gt; lia).
      rewrite Hold.
      destruct (latitude p); [|reflexivity]. destruct (longitude p); [|reflexivity].
      cbn. destruct (Geo.leb _ radius); reflexivity.
Qed.

End ArchiveFacts.

(** ** Instances of the properties on the scenarios *)

Section FurtherExamples.
Import Database StreetSpec LandSpec LandScenario MarketHeatSpec.
Open Scope Q_scope.

Lemma land_score_between_0_and_100_witness :
  exists score,
    LandScorer.calculate_land_score sample_config "green" "growing" 300 100 6
    = Py.Return score /\ (0 <= score <= 100)%Z.
Proof.
  apply (land_score_between_0_and_100 sample_config "green" "growing" 300 100 6);
    unfold Qle; vm_compute; discriminate.
Defined.

Lemma land_score_monotone_witness :
  exists lower higher,
    LandScorer.calculate_land_score sample_config "green" "growing" 300 200 1
    = Py.Return lower /\
    LandScorer.calculate_land_score sample_config "green" "growing" 300 100 6
    = Py.Return higher /\
    (lower <= higher)%Z.
Proof.
  apply (land_score_monotone sample_config "green" "growing" 300 100 200 1 6);
    first [lia | unfold Qle; vm_compute; discriminate].
Defined.

Lemma sparse_area_never_overheated_witness :
  (length (SparseAreaSpec.sold_in_zip (postal_area 3 1) "28801") < 2)%nat /\
  MarketHeat.calculate_price_change_90d (Py.days 100) (postal_area 3 1) "28801" = 0 /\
  MarketHeat.calculate_dom_change (Py.days 100) (postal_area 3 1) "28801" = 0.
Proof.
  assert (H : (length (SparseAreaSpec.sold_in_zip (postal_area 3 1) "28801") < 2)%nat)
    by (vm_compute; lia).
  split; [exact H|].
  destruct (sparse_area_never_overheated (Py.days 100) (Py.days 100) (postal_area 3 1)
              "28801" H) as (Hp & Hd & _).
  split; [exact Hp | exact Hd].
Defined.


Lemma get_zone_color_is_determine_color_witness :
  StreetAnalyzer.determine_color sample_config 320 = ZoneAnalyzer.get_zone_color 320.
Proof.
  apply (get_zone_color_is_determine_color sample_config 320); reflexivity.
Defined.


End FurtherExamples.

Section FurtherRealExamples.
Import Database StreetSpec LandScenario ZoneAnalyzer ZoneSpec.
Open Scope R_scope.

Lemma haversine_distance_symmetric_bounded_witness :
  -90 <= 60 <= 90 /\
  Geo.haversine_distance 60 0 60 2 = Geo.haversine_distance 60 2 60 0 /\
  0 <= Geo.haversine_distance 60 0 60 2 <= 3959 * PI.
Proof.
  assert (H : -90 <= 60 <= 90) by lra.
  split; [exact H|].
  destruct (haversine_distance_symmetric_bounded 60 0 60 2) as [Hsym Hrange].
  split; [exact Hsym | exact (Hrange H H)].
Defined.

(** A repository with one priced row, analysed at the row. *)
Lemma nearby_properties_at_row (p : Property) (lat lng radius : R) :
  latitude p = Some lat -> longitude p = Some lng ->
  (exists v, price_per_sqft p = Some v) -> archived p = false -> 0 <= radius ->
  nearby_properties {| properties := [p]; street_analysis := [];
                       market_heat_zones := []; land_opportunities := [] |}
    lat lng radius = [p].
Proof.
  intros Hlat Hlng [v Hv] Harch Hr.
  rewrite nearby_properties_filter. cbn [properties List.filter].
  unfold in_bounding_box, priced_and_current. rewrite Hlat, Hlng, Hv, Harch.
  rewrite calculate_distance_haversine, haversine_distance_same.
  assert (H69 : 0 <= radius / 69) by (apply Rmult_le_pos; lra).
  assert (H55 : 0 <= radius / 55) by (apply Rmult_le_pos; lra).
  rewrite !geo_leb_true by lra. reflexivity.
Qed.

Lemma zones_partition_the_sample_witness :
  exists a s,
    analyze_nearby_zones {| properties := [comparable]; street_analysis := [];
                            market_heat_zones := []; land_opportunities := [] |}
      lat0 lon0 1 1 = Py.Return a /\
    statistics a = Some s /\
    properties_analyzed a = 1%nat /\
    (properties_analyzed a
     = length (green_zone a) + length (light_green_zone a)
       + length (yellow_zone a) + length (red_zone a))%nat /\
    green_zones_total s = (length (green_zone a) + length (light_green_zone a))%nat /\
    (0 <= score a <= 100)%Z.
Proof.
  assert (Hnear : nearby_properties
                    {| properties := [comparable]; street_analysis := [];
                       market_heat_zones := []; land_opportunities := [] |}
                    lat0 lon0 1 = [comparable]).
  { apply nearby_properties_at_row; try reflexivity; [eexists; reflexivity | lra]. }
  destruct (proj2 (analysis_raises_iff
                     {| properties := [comparable]; street_analysis := [];
                        market_heat_zones := []; land_opportunities := [] |}
                     lat0 lon0 1 1)) as [a Ha]; [left; reflexivity|].
  assert (Hstats : exists s, statistics a = Some s /\ properties_analyzed a = 1%nat).
  { revert Ha. unfold analyze_nearby_zones. rewrite Hnear. cbn [length Z.of_nat].
    intros [= <-]. cbn [statistics properties_analyzed]. eexists. split; reflexivity. }
  destruct Hstats as (s & Hs & Hone).
  exists a, s. split; [exact Ha|]. split; [exact Hs|]. split; [exact Hone|].
  destruct (zones_partition_the_sample _ lat0 lon0 1 1 a Ha)
    as (Hpart & Hsome & _ & Hscore).
  split; [exact Hpart|]. split; [exact (proj2 (Hsome s Hs)) | exact Hscore].
Defined.

Lemma green_share_bounds_score_witness :
  exists a s,
    analyze_nearby_zones {| properties := [comparable]; street_analysis := [];
                            market_heat_zones := []; land_opportunities := [] |}
      lat0 lon0 1 1 = Py.Return a /\
    statistics a = Some s /\
    (75 <= green_zones_percent s)%Q /\
    score a = 100%Z.
Proof.
  assert (Hnear : nearby_properties
                    {| properties := [comparable]; street_analysis := [];
                       market_heat_zones := []; land_opportunities := [] |}
                    lat0 lon0 1 = [comparable]).
  { apply nearby_properties_at_row; try reflexivity; [eexists; reflexivity | lra]. }
  destruct (proj2 (analysis_raises_iff
                     {| properties := [comparable]; street_analysis := [];
                        market_heat_zones := []; land_opportunities := [] |}
                     lat0 lon0 1 1)) as [a Ha]; [left; reflexivity|].
  assert (Hstats : exists s, statistics a = Some s /\ (75 <= green_zones_percent s)%Q).
  { revert Ha. unfold analyze_nearby_zones. rewrite Hnear. cbn [length Z.of_nat].
    intros [= <-]. cbn [statistics]. eexists. split; [reflexivity|].
    cbn [green_zones_percent]. unfold Qle. vm_compute. discriminate. }
  destruct Hstats as (s & Hs & H75).
  exists a, s. split; [exact Ha|]. split; [exact Hs|]. split; [exact H75|].
  exact (proj1 (green_share_bounds_score _ lat0 lon0 1 1 a s Ha Hs) H75).
Defined.

End FurtherRealExamples.

Section FurtherGeocoderExamples.
Import Geocoder GeocoderSpec GeocoderBatch RestartSpec StreetSpec.

Lemma batch_geocode_reads_final_cache_witness :
  (forall a, as_is (as_is a) = as_is a) /\
  exists results w' final,
    batch_geocode sample_config no_match (fun _ => 1 / 2)%R (fun _ => true) as_is as_is
      (fun _ => None) ["12 Main St"; "12 Main St"]%string fresh = (results, w') /\
    mem_cache w' = Some final /\
    results = map (fun a => final !! as_is a) ["12 Main St"; "12 Main St"]%string /\
    Forall (fun r : option coords => is_Some r) results.
Proof.
  split; [reflexivity|].
  destruct (batch_geocode_reads_final_cache sample_config no_match (fun _ => 1 / 2)%R
              (fun _ => true) as_is as_is (fun _ => None)
              ["12 Main St"; "12 Main St"]%string fresh (fun a => eq_refl))
    as (results & w' & final & E & Hm & _ & Hres & Hall & _).
  exists results, w', final. repeat split; assumption.
Defined.

Lemma resolution_survives_restart_witness :
  in_sync fresh /\
  exists result w1 w2,
    geocode_address sample_config no_match (fun _ => 1 / 2)%R (fun _ => true) as_is as_is
      (fun _ => None) "12 Main St" fresh = (result, w1) /\
    geocode_address sample_config no_match (fun _ => 1 / 2)%R (fun _ => true) as_is as_is
      (fun _ => None) "12 Main St" (restart w1) = (result, w2) /\
    calls w2 = calls w1.
Proof.
  split; [reflexivity|].
  destruct (geocode_address sample_config no_match (fun _ => 1 / 2)%R (fun _ => true)
              as_is as_is (fun _ => None) "12 Main St" fresh) as [result w1] eqn:E.
  destruct (resolution_survives_restart sample_config no_match (fun _ => 1 / 2)%R
              (fun _ => true) as_is as_is (fun _ => None) "12 Main St" fresh w1 result
              (fun _ => eq_refl) eq_refl E) as (_ & w2 & E2 & Hcalls & _).
  exists result, w1, w2. split; [reflexivity|]. split; [exact E2 | exact Hcalls].
Defined.

End FurtherGeocoderExamples.
